(** * scripts/download_sfxengine_chess.py: a shallow embedding

    The script fetches one page, scans its text for links to audio files,
    downloads each of them into a directory and writes a manifest.

    Conventions of the embedding.
    - A Python [str] is a [string]: one character per code point, code
      points below 256.  On these, [re.IGNORECASE], [str.lower] and [\s]
      are the functions written out in [Str] and [Re].
    - [Path] objects are their [parts]: a list of components.
    - The file system is a finite map from paths to nodes, the network an
      oracle answering the n-th request; both are explicit.
    - A Python exception is a value of [exn]; code that may raise returns a
      [result], and the effectful functions live in the monad [M], which
      threads the [world] and keeps its changes when an exception is raised. *)

From Stdlib Require Import Ascii String.
From stdpp Require Import gmap strings sorting pretty.

(** ** Python [str] methods used by the script and by [urllib.parse] *)
Module Str.

Definition code (c : ascii) : N := N_of_ascii c.

(** The double quote, which a string literal of this file cannot hold. *)
Definition dq_char : ascii := "034"%char.
Definition dq : string := String dq_char "".

Definition is_ascii_upper (c : ascii) : bool :=
  ((65 <=? code c) && (code c <=? 90))%N.
Definition is_ascii_lower (c : ascii) : bool :=
  ((97 <=? code c) && (code c <=? 122))%N.
Definition is_ascii_alpha (c : ascii) : bool :=
  is_ascii_upper c || is_ascii_lower c.
Definition is_ascii_digit (c : ascii) : bool :=
  ((48 <=? code c) && (code c <=? 57))%N.
Definition isascii (c : ascii) : bool := (code c <? 128)%N.

(** [ch.lower()] on code points below 256: A-Z, and the upper-case letters
    of the Latin-1 supplement (U+00C0..U+00DE without the sign U+00D7). *)
Definition lower_char (c : ascii) : ascii :=
  if is_ascii_upper c then ascii_of_N (code c + 32)
  else if ((192 <=? code c) && (code c <=? 222) && negb (code c =? 215))%N
       then ascii_of_N (code c + 32)
       else c.

Fixpoint lower (s : string) : string :=
  match s with
  | EmptyString => EmptyString
  | String c s' => String (lower_char c) (lower s')
  end.

(** [ch.isspace()] on code points below 256, which is also what [\s]
    matches in a [str] pattern. *)
Definition isspace (c : ascii) : bool :=
  let n := code c in
  (((9 <=? n) && (n <=? 13)) || ((28 <=? n) && (n <=? 32))
   || (n =? 133) || (n =? 160))%N.

Fixpoint mem (c : ascii) (s : string) : bool :=
  match s with
  | EmptyString => false
  | String d s' => if Ascii.eqb c d then true else mem c s'
  end.

Fixpoint all_chars (p : ascii -> bool) (s : string) : bool :=
  match s with
  | EmptyString => true
  | String c s' => p c && all_chars p s'
  end.

Definition startswith (s pre : string) : bool := String.prefix pre s.

Fixpoint take (n : nat) (s : string) : string :=
  match n, s with
  | S n', String c s' => String c (take n' s')
  | _, _ => EmptyString
  end.

Fixpoint drop (n : nat) (s : string) : string :=
  match n, s with
  | S n', String _ s' => drop n' s'
  | _, _ => s
  end.

(** [s.endswith(suf)] *)
Definition endswith (s suf : string) : bool :=
  (String.length suf <=? String.length s)%nat
  && String.eqb (drop (String.length s - String.length suf) s) suf.

(** [s.partition(c)] for a one-character separator: [None] when the
    separator does not occur, else the text before and after its first
    occurrence. *)
Fixpoint partition (c : ascii) (s : string) : option (string * string) :=
  match s with
  | EmptyString => None
  | String d s' =>
      if Ascii.eqb d c then Some (EmptyString, s')
      else match partition c s' with
           | Some (a, b) => Some (String d a, b)
           | None => None
           end
  end.

(** [s.split(c)] for a one-character separator; never the empty list. *)
Fixpoint split (c : ascii) (s : string) : list string :=
  match s with
  | EmptyString => [EmptyString]
  | String d s' =>
      if Ascii.eqb d c then EmptyString :: split c s'
      else match split c s' with
           | w :: ws => String d w :: ws
           | [] => [String d EmptyString]
           end
  end.

(** [sep.join(l)] *)
Fixpoint join (sep : string) (l : list string) : string :=
  match l with
  | [] => EmptyString
  | [w] => w
  | w :: ws => w +:+ sep +:+ join sep ws
  end.

(** [s.lstrip(chars)] with the set of characters given as a predicate. *)
Fixpoint lstrip (p : ascii -> bool) (s : string) : string :=
  match s with
  | String c s' => if p c then lstrip p s' else s
  | EmptyString => EmptyString
  end.

(** Every character satisfying [p] replaced by nothing: a chain of
    [s.replace(c, empty)]. *)
Fixpoint remove (p : ascii -> bool) (s : string) : string :=
  match s with
  | String c s' => if p c then remove p s' else String c (remove p s')
  | EmptyString => EmptyString
  end.

(** Truth value of a string: [bool(s)]. *)
Definition nonempty (s : string) : bool :=
  match s with EmptyString => false | _ => true end.

End Str.

(** ** The part of Python's [re] that the two patterns use

    A backtracking matcher: alternatives are tried in order, quantifiers are
    greedy and give characters back one at a time.  Quantified items are
    single characters or character classes, as in the script's patterns. *)
Module Re.

(** A pattern item that consumes one character. *)
Inductive atom :=
| Lit (c : ascii)                       (* a literal character *)
| OneOf (cs : string)                   (* [cs] *)
| NotIn (cs : string) (spaces : bool).  (* [^cs] and, if set, also not \s *)

Inductive regex :=
| Eps
| One (a : atom)
| Cat (r1 r2 : regex)
| Alt (r1 r2 : regex)
| Opt (r : regex)          (* r? *)
| Star (a : atom)          (* a* *)
| Plus (a : atom)          (* a+ *)
| Group (r : regex).       (* ( r ), capturing *)

(** Under [re.IGNORECASE] a literal matches the characters whose lower
    case is its own.  This is the matching of Python on the code points
    below 256, the strings of this file; beyond them Python has two more
    characters that match a letter of the patterns, U+017F for [s] and
    U+212A for [k], and a text that holds one is no [string].  The classes
    of the script hold no letters and are compiled to a plain membership
    test. *)
Definition atom_ok (icase : bool) (a : atom) (x : ascii) : bool :=
  match a with
  | Lit c =>
      if icase then Ascii.eqb (Str.lower_char x) (Str.lower_char c)
      else Ascii.eqb x c
  | OneOf cs => Str.mem x cs
  | NotIn cs sp => negb (Str.mem x cs) && negb (sp && Str.isspace x)
  end.

Section Matcher.
Context {A : Type}.
Variable icase : bool.

(** The continuation receives the text that is left and the capture. *)
Definition cont := string -> option string -> option A.

Definition orelse (x y : option A) : option A :=
  match x with Some _ => x | None => y end.

Fixpoint star (a : atom) (s : string) (g : option string) (k : cont)
  : option A :=
  match s with
  | String c s' =>
      if atom_ok icase a c then orelse (star a s' g k) (k s g) else k s g
  | EmptyString => k s g
  end.

Fixpoint rmatch (r : regex) (s : string) (g : option string) (k : cont)
  : option A :=
  match r with
  | Eps => k s g
  | One a =>
      match s with
      | String c s' => if atom_ok icase a c then k s' g else None
      | EmptyString => None
      end
  | Cat r1 r2 => rmatch r1 s g (fun s1 g1 => rmatch r2 s1 g1 k)
  | Alt r1 r2 => orelse (rmatch r1 s g k) (rmatch r2 s g k)
  | Opt r1 => orelse (rmatch r1 s g k) (k s g)
  | Star a => star a s g k
  | Plus a =>
      match s with
      | String c s' => if atom_ok icase a c then star a s' g k else None
      | EmptyString => None
      end
  | Group r1 =>
      rmatch r1 s g
        (fun s1 _ =>
           k s1 (Some (Str.take (String.length s - String.length s1) s)))
  end.
End Matcher.

Fixpoint has_group (r : regex) : bool :=
  match r with
  | Eps | One _ | Star _ | Plus _ => false
  | Cat r1 r2 | Alt r1 r2 => has_group r1 || has_group r2
  | Opt r1 => has_group r1
  | Group _ => true
  end.

(** A match starting at the head of [s]: its length and what [findall]
    reports for it, the group if the pattern has one, else the match. *)
Definition match_here (icase : bool) (r : regex) (s : string)
  : option (nat * string) :=
  rmatch icase r s None
    (fun rest g =>
       let n := String.length s - String.length rest in
       Some (n, if has_group r then default EmptyString g
                else Str.take n s)).

(** Left-to-right scan for non-overlapping matches; [skip] counts the
    characters of the previous match still to be passed over. *)
Fixpoint scan (icase : bool) (r : regex) (s : string) (skip : nat)
  : list string :=
  match s with
  | String _ s' =>
      match skip with
      | S n => scan icase r s' n
      | O =>
          match match_here icase r s with
          | Some (len, txt) => txt :: scan icase r s' (len - 1)
          | None => scan icase r s' 0
          end
      end
  | EmptyString =>
      match skip, match_here icase r s with
      | O, Some (_, txt) => [txt]
      | _, _ => []
      end
  end.

(** [re.compile(r, flags).findall(s)] *)
Definition findall (icase : bool) (r : regex) (s : string) : list string :=
  scan icase r s 0.

(** The literal text [w] as a pattern. *)
Fixpoint word (w : string) : regex :=
  match w with
  | EmptyString => Eps
  | String c EmptyString => One (Lit c)
  | String c w' => Cat (One (Lit c)) (word w')
  end.

(** [r|r1|...|rn] *)
Fixpoint alts (r : regex) (rs : list regex) : regex :=
  match rs with
  | [] => r
  | r' :: rs' => Alt r (alts r' rs')
  end.

(** [r r1 ... rn], one after the other *)
Fixpoint seq (r : regex) (rs : list regex) : regex :=
  match rs with
  | [] => r
  | r' :: rs' => Cat r (seq r' rs')
  end.

(** The texts a pattern stands for, independently of the matcher. *)
Inductive matches (icase : bool) : regex -> string -> Prop :=
| m_eps : matches icase Eps EmptyString
| m_one a c :
    atom_ok icase a c = true -> matches icase (One a) (String c EmptyString)
| m_cat r1 r2 w1 w2 :
    matches icase r1 w1 -> matches icase r2 w2 ->
    matches icase (Cat r1 r2) (w1 +:+ w2)
| m_alt_l r1 r2 w : matches icase r1 w -> matches icase (Alt r1 r2) w
| m_alt_r r1 r2 w : matches icase r2 w -> matches icase (Alt r1 r2) w
| m_opt_none r : matches icase (Opt r) EmptyString
| m_opt_some r w : matches icase r w -> matches icase (Opt r) w
| m_star a w :
    Str.all_chars (atom_ok icase a) w = true -> matches icase (Star a) w
| m_plus a c w :
    atom_ok icase a c = true -> Str.all_chars (atom_ok icase a) w = true ->
    matches icase (Plus a) (String c w)
| m_group r w : matches icase r w -> matches icase (Group r) w.

(** [w] occurs in [s] as a substring. *)
Definition occurs_in (w s : string) : Prop :=
  exists pre post, s = pre +:+ w +:+ post.

End Re.

(** ** Exceptions *)

(** The exception classes that the script's handlers tell apart.
    [HTTPError] is a subclass of [URLError], which is a subclass of
    [OSError]; [OtherException] stands for any class outside these
    hierarchies (for instance [http.client.HTTPException]). *)
Inductive exn_class :=
| HTTPError | URLError | OSError | ValueError | OtherException.

Record exn := Exn { exn_cls : exn_class; exn_msg : string }.

Definition subclass (c d : exn_class) : bool :=
  match c, d with
  | HTTPError, (HTTPError | URLError | OSError) => true
  | URLError, (URLError | OSError) => true
  | OSError, OSError => true
  | ValueError, ValueError => true
  | OtherException, OtherException => true
  | _, _ => false
  end.

(** [isinstance(e, classes)], the test of an [except (...)] clause. *)
Definition isinstance (e : exn) (classes : list exn_class) : bool :=
  existsb (subclass (exn_cls e)) classes.

Inductive result (A : Type) :=
| Ok (a : A)
| Raise (e : exn).
Arguments Ok {A} a.
Arguments Raise {A} e.

Definition rbind {A B} (x : result A) (f : A -> result B) : result B :=
  match x with
  | Ok a => f a
  | Raise e => Raise e
  end.

Fixpoint rmap {A B} (f : A -> result B) (l : list A) : result (list B) :=
  match l with
  | [] => Ok []
  | a :: l' =>
      rbind (f a) (fun b => rbind (rmap f l') (fun bs => Ok (b :: bs)))
  end.

(** ** [urllib.parse]: [urlsplit], [urlparse], [urlunparse], [urljoin]

    Written after the library's source, function by function. *)
Module UrlParse.

Definition uses_relative : list string :=
  [""; "ftp"; "http"; "gopher"; "nntp"; "imap"; "wais"; "file"; "https";
   "shttp"; "mms"; "prospero"; "rtsp"; "rtspu"; "sftp"; "svn"; "svn+ssh";
   "ws"; "wss"].

Definition uses_netloc : list string :=
  [""; "ftp"; "http"; "gopher"; "nntp"; "telnet"; "imap"; "wais"; "file";
   "mms"; "https"; "shttp"; "snews"; "prospero"; "rtsp"; "rtspu"; "rsync";
   "svn"; "svn+ssh"; "sftp"; "nfs"; "git"; "git+ssh"; "ws"; "wss"].

Definition uses_params : list string :=
  [""; "ftp"; "hdl"; "prospero"; "http"; "imap"; "https"; "shttp"; "rtsp";
   "rtspu"; "sip"; "sips"; "mms"; "sftp"; "tel"].

Definition member (s : string) (l : list string) : bool :=
  existsb (String.eqb s) l.

(** [scheme_chars]: letters, digits and [+-.] *)
Definition scheme_char (c : ascii) : bool :=
  Str.is_ascii_alpha c || Str.is_ascii_digit c || Str.mem c "+-.".

(** [_WHATWG_C0_CONTROL_OR_SPACE]: U+0000..U+0020 *)
Definition c0_control_or_space (c : ascii) : bool := (Str.code c <=? 32)%N.

(** [_UNSAFE_URL_BYTES_TO_REMOVE]: tab, carriage return, line feed *)
Definition unsafe_char (c : ascii) : bool :=
  Str.mem c (String "009"%char (String "013"%char (String "010"%char ""))).

Definition strip (p : ascii -> bool) (s : string) : string :=
  String.rev (Str.lstrip p (String.rev (Str.lstrip p s))).

(** The result of [urlsplit] (a 5-tuple) and of [urlparse] (a 6-tuple). *)
Record SplitResult := mkSplit {
  s_scheme : string; s_netloc : string; s_path : string;
  s_query : string; s_fragment : string }.

Record ParseResult := mkParse {
  scheme : string; netloc : string; path : string;
  params : string; query : string; fragment : string }.

(** The scheme of [url], if the text before its first colon is one. *)
Definition split_scheme (url default : string) : string * string :=
  match Str.partition ":"%char url with
  | Some (String c pre, post) =>
      if Str.is_ascii_alpha c && Str.all_chars scheme_char (String c pre)
      then (Str.lower (String c pre), post)
      else (default, url)
  | _ => (default, url)
  end.

(** [_splitnetloc(url, 0)] applied behind the two slashes: the text up to
    the first of [/], [?], [#], and the rest. *)
Fixpoint splitnetloc (s : string) : string * string :=
  match s with
  | EmptyString => (EmptyString, EmptyString)
  | String c s' =>
      if Str.mem c "/?#" then (EmptyString, s)
      else let (a, b) := splitnetloc s' in (String c a, b)
  end.

Definition value_error (msg : string) : exn := Exn ValueError msg.

Section Parse.
(** What [_check_bracketed_netloc] and [_checknetloc] decide (the syntax
    of a bracketed IP literal, NFKC normalisation) is no part of this
    development: [host_check netloc] is the message of the [ValueError]
    they raise, if they do.  It is consulted for the authorities on
    which the library calls them with an effect: those holding both
    brackets and those holding a character outside ASCII. *)
Variable host_check : string -> option string.

Definition check_netloc (nl : string) : result unit :=
  let has_open := Str.mem "["%char nl in
  let has_close := Str.mem "]"%char nl in
  if xorb has_open has_close then Raise (value_error "Invalid IPv6 URL")
  else if (has_open && has_close) || negb (Str.all_chars Str.isascii nl)
       then match host_check nl with
            | Some msg => Raise (value_error msg)
            | None => Ok tt
            end
       else Ok tt.

Definition urlsplit (url default_scheme : string) : result SplitResult :=
  let url := Str.lstrip c0_control_or_space url in
  let default_scheme := strip c0_control_or_space default_scheme in
  let url := Str.remove unsafe_char url in
  let default_scheme := Str.remove unsafe_char default_scheme in
  let (sch, url) := split_scheme url default_scheme in
  let (nl, url) :=
    if Str.startswith url "//" then splitnetloc (Str.drop 2 url)
    else (EmptyString, url) in
  rbind (check_netloc nl) (fun _ =>
  let (url, frag) :=
    match Str.partition "#"%char url with
    | Some (a, b) => (a, b)
    | None => (url, EmptyString)
    end in
  let (url, q) :=
    match Str.partition "?"%char url with
    | Some (a, b) => (a, b)
    | None => (url, EmptyString)
    end in
  Ok (mkSplit sch nl url q frag)).

(** The last segment of [url] (behind its last slash), and what is
    before it. *)
Fixpoint last_segment (url : string) : string * string :=
  match url with
  | EmptyString => (EmptyString, EmptyString)
  | String c url' =>
      let (dir, seg) := last_segment url' in
      if Ascii.eqb c "/"%char || Str.nonempty dir then (String c dir, seg)
      else (EmptyString, String c seg)
  end.

(** [_splitparams]: the first semicolon of the last segment. *)
Definition splitparams (url : string) : string * string :=
  let (dir, seg) := last_segment url in
  match Str.partition ";"%char seg with
  | Some (a, b) => (dir +:+ a, b)
  | None => (url, EmptyString)
  end.

Definition urlparse (url default_scheme : string) : result ParseResult :=
  rbind (urlsplit url default_scheme) (fun r =>
  let (url, par) :=
    if member (s_scheme r) uses_params && Str.mem ";"%char (s_path r)
    then splitparams (s_path r)
    else (s_path r, EmptyString) in
  Ok (mkParse (s_scheme r) (s_netloc r) url par
              (s_query r) (s_fragment r))).
End Parse.

Definition urlunsplit (sch nl url q frag : string) : string :=
  let url :=
    if Str.nonempty nl
       || (Str.nonempty sch && member sch uses_netloc
           && negb (Str.startswith url "//"))
    then "//" +:+ nl
         +:+ (if Str.nonempty url && negb (Str.startswith url "/")
              then "/" +:+ url else url)
    else url in
  let url := if Str.nonempty sch then sch +:+ ":" +:+ url else url in
  let url := if Str.nonempty q then url +:+ "?" +:+ q else url in
  if Str.nonempty frag then url +:+ "#" +:+ frag else url.

Definition urlunparse (p : ParseResult) : string :=
  let url :=
    if Str.nonempty (params p) then path p +:+ ";" +:+ params p
    else path p in
  urlunsplit (scheme p) (netloc p) url (query p) (fragment p).

(** [segments[1:-1] = filter(None, segments[1:-1])] *)
Definition drop_empty_inner (segments : list string) : list string :=
  match segments with
  | first :: (_ :: _) as rest =>
      first :: List.filter Str.nonempty (removelast rest) ++ [List.last rest EmptyString]
  | _ => segments
  end.

(** The loop over [segments] that builds [resolved_path]. *)
Fixpoint resolve (segments resolved : list string) : list string :=
  match segments with
  | [] => resolved
  | seg :: rest =>
      if String.eqb seg ".." then resolve rest (removelast resolved)
      else if String.eqb seg "." then resolve rest resolved
      else resolve rest (resolved ++ [seg])
  end.

Section Join.
Variable host_check : string -> option string.

Definition urljoin (base url : string) : result string :=
  if negb (Str.nonempty base) then Ok url
  else if negb (Str.nonempty url) then Ok base
  else
    rbind (urlparse host_check base EmptyString) (fun b =>
    rbind (urlparse host_check url (scheme b)) (fun u =>
    if negb (String.eqb (scheme u) (scheme b))
       || negb (member (scheme u) uses_relative)
    then Ok url
    else if member (scheme u) uses_netloc && Str.nonempty (netloc u)
    then Ok (urlunparse u)
    else
      let nl := if member (scheme u) uses_netloc then netloc b
                else netloc u in
      if negb (Str.nonempty (path u)) && negb (Str.nonempty (params u))
      then
        Ok (urlunparse
              (mkParse (scheme u) nl (path b) (params b)
                 (if Str.nonempty (query u) then query u else query b)
                 (fragment u)))
      else
        let base_parts := Str.split "/"%char (path b) in
        let base_parts :=
          if Str.nonempty (List.last base_parts EmptyString)
          then removelast base_parts else base_parts in
        let segments :=
          if Str.startswith (path u) "/" then Str.split "/"%char (path u)
          else drop_empty_inner (base_parts ++ Str.split "/"%char (path u)) in
        let resolved := resolve segments [] in
        let resolved :=
          if member (List.last segments EmptyString) ["."; ".."]
          then resolved ++ [EmptyString] else resolved in
        let joined := Str.join "/" resolved in
        Ok (urlunparse
              (mkParse (scheme u) nl
                 (if Str.nonempty joined then joined else "/")
                 (params u) (query u) (fragment u))))).
End Join.

End UrlParse.

(** ** The script: constants and the Link Extractor *)

Definition AUDIO_EXTENSIONS : list string :=
  [".mp3"; ".wav"; ".ogg"; ".flac"; ".aac"; ".m4a"].

Definition DEFAULT_SOURCE_URL : string :=
  "https://sfxengine.com/fr/sound-effects/chess".
Definition USER_AGENT : string :=
  "Mozilla/5.0 (compatible; ai-chess-architect/1.0)".

(** The two quote characters, single and double.  In the comments below
    the patterns are quoted from the script with [Q] for this pair. *)
Definition quotes : string := "'" +:+ Str.dq.

(** [(?:href|src|data-url|data-href|data-src|data-mp3|data-ogg)] *)
Definition attr_pattern : Re.regex :=
  Re.alts (Re.word "href")
    [Re.word "src"; Re.word "data-url"; Re.word "data-href";
     Re.word "data-src"; Re.word "data-mp3"; Re.word "data-ogg"].

(** [(?:mp3|wav|ogg|flac|aac|m4a)] *)
Definition ext_names : Re.regex :=
  Re.alts (Re.word "mp3")
    [Re.word "wav"; Re.word "ogg"; Re.word "flac"; Re.word "aac";
     Re.word "m4a"].

(** [\. (?:mp3|wav|ogg|flac|aac|m4a) (?: \? [^Q]* )?] *)
Definition ext_pattern : Re.regex :=
  Re.seq (Re.One (Re.Lit "."%char))
    [ext_names;
     Re.Opt (Re.Cat (Re.One (Re.Lit "?"%char)) (Re.Star (Re.NotIn quotes false)))].

(** The group of [combined]: [[^Q]+ ext_pattern] *)
Definition link_text : Re.regex :=
  Re.Cat (Re.Plus (Re.NotIn quotes false)) ext_pattern.

(** The pattern [combined].  Its text is a raw string in which the
    whitespace class is written with two backslashes, so that the compiled
    pattern is
    [attr \\ s* = \\ s* [Q] ( link_text ) [Q]]:
    an escaped backslash followed by any number of letters [s], on both
    sides of the equals sign. *)
Definition combined : Re.regex :=
  Re.seq attr_pattern
    [Re.One (Re.Lit "\"%char); Re.Star (Re.Lit "s"%char);
     Re.One (Re.Lit "="%char);
     Re.One (Re.Lit "\"%char); Re.Star (Re.Lit "s"%char);
     Re.One (Re.OneOf quotes);
     Re.Group link_text;
     Re.One (Re.OneOf quotes)].

(** The pattern [absolute]:
    [https? :// [^Q\s]+ \. (?:mp3|wav|ogg|flac|aac|m4a) (?: \? [^Q\s]+ )?] *)
Definition absolute : Re.regex :=
  Re.seq (Re.word "http")
    [Re.Opt (Re.One (Re.Lit "s"%char)); Re.word "://";
     Re.Plus (Re.NotIn quotes true);
     Re.One (Re.Lit "."%char); ext_names;
     Re.Opt (Re.Cat (Re.One (Re.Lit "?"%char)) (Re.Plus (Re.NotIn quotes true)))].

(** [sorted(...)] on strings: ascending in the order of the code points. *)
Definition sorted (l : list string) : list string :=
  merge_sort String.le l.

(** [a < b] on strings: the lexicographic order of the code points. *)
Definition str_lt (a b : string) : Prop := (a ?= b)%string = Lt.

(** [e] is one of the six extensions, compared without regard to case. *)
Definition audio_extension (e : string) : Prop :=
  Str.lower e ∈ AUDIO_EXTENSIONS.

(** What may follow the extension: nothing, or a part that begins with one
    of the characters [seps]. *)
Definition tail_ok (seps : string) (r : string) : bool :=
  match r with
  | EmptyString => true
  | String c _ => Str.mem c seps
  end.

(** [u] ends in an audio extension, optionally followed by a part that
    begins with one of the characters [seps]. *)
Definition ends_in_audio (seps : string) (u : string) : Prop :=
  exists p e r, u = p +:+ e +:+ r /\ audio_extension e /\ tail_ok seps r = true.

(** The same, as a test: some extension sits at some place of [u], with an
    admissible rest behind it. *)
Definition audio_here (seps : string) (u : string) : bool :=
  existsb (fun ext =>
             String.eqb (Str.lower (Str.take (String.length ext) u)) ext
             && tail_ok seps (Str.drop (String.length ext) u))
    AUDIO_EXTENSIONS.

Fixpoint ends_in_audiob (seps : string) (u : string) : bool :=
  audio_here seps u
  || match u with
     | EmptyString => false
     | String _ u' => ends_in_audiob seps u'
     end.

(** A host check that raises nothing. *)
Definition no_host_error (netloc : string) : option string := None.

Section Extractor.
Variable host_check : string -> option string.

(** One of the two loops of [extract_links]: each match is resolved
    against the page URL and added to the set. *)
Fixpoint add_resolved (base_url : string) (matches : list string)
    (found : gset string) : result (gset string) :=
  match matches with
  | [] => Ok found
  | m :: rest =>
      rbind (UrlParse.urljoin host_check base_url m) (fun resolved =>
      add_resolved base_url rest ({[resolved]} ∪ found))
  end.

Definition extract_links (html base_url : string) : result (list string) :=
  let found : gset string := ∅ in
  rbind (add_resolved base_url (Re.findall true combined html) found)
    (fun found =>
  rbind (add_resolved base_url (Re.findall true absolute html) found)
    (fun found =>
  Ok (sorted (elements found)))).
End Extractor.

(** ** [pathlib]: pure POSIX paths as their parts *)
Module PathLib.

(** A path is the list of its parts: for an absolute path the first part
    is the root, the text [/] (or [//]). *)
Abbreviation Path := (list string).

Definition is_root (part : string) : bool := Str.startswith part "/".

Definition root_of (s : string) : list string :=
  if Str.startswith s "//" && negb (Str.startswith s "///") then ["//"]
  else if Str.startswith s "/" then ["/"]
  else [].

Definition is_component (x : string) : bool :=
  Str.nonempty x && negb (String.eqb x ".").

(** [PurePosixPath(s).parts]: empty components and single dots vanish. *)
Definition parse_path (s : string) : Path :=
  root_of s ++ List.filter is_component (Str.split "/"%char s).

(** [p.name]: the final component, if there is one. *)
Definition name (p : Path) : string :=
  match List.last p EmptyString with
  | part => if is_root part then EmptyString else part
  end.

(** [s.rpartition(c)]: the text before and after the last [c]. *)
Fixpoint rpartition (c : ascii) (s : string) : option (string * string) :=
  match s with
  | EmptyString => None
  | String d s' =>
      match rpartition c s' with
      | Some (a, b) => Some (String d a, b)
      | None => if Ascii.eqb d c then Some (EmptyString, s') else None
      end
  end.

(** [p.suffix] and [p.stem], computed from the name: the last dot counts
    unless it is the first or the last character. *)
Definition suffix_of (nm : string) : string :=
  match rpartition "."%char nm with
  | Some (a, b) =>
      if Str.nonempty a && Str.nonempty b then String "."%char b
      else EmptyString
  | None => EmptyString
  end.

Definition stem_of (nm : string) : string :=
  match rpartition "."%char nm with
  | Some (a, b) => if Str.nonempty a && Str.nonempty b then a else nm
  | None => nm
  end.

Definition suffix (p : Path) : string := suffix_of (name p).
Definition stem (p : Path) : string := stem_of (name p).

(** [p / s] *)
Definition joinpath (p : Path) (s : string) : Path :=
  if Str.startswith s "/" then parse_path s else p ++ parse_path s.

(** [p.parent] *)
Definition parent (p : Path) : Path :=
  match p with
  | [part] => if is_root part then p else []
  | _ => removelast p
  end.

(** [str(p)] *)
Definition path_str (p : Path) : string :=
  match p with
  | [] => "."
  | part :: rest =>
      if is_root part then part +:+ Str.join "/" rest else Str.join "/" p
  end.

Fixpoint strip_prefix (pre p : Path) : option Path :=
  match pre, p with
  | [], _ => Some p
  | a :: pre', b :: p' => if String.eqb a b then strip_prefix pre' p' else None
  | _ :: _, [] => None
  end.

(** [p] is absolute: its first part is a root. *)
Definition has_root (p : Path) : bool :=
  match p with
  | part :: _ => is_root part
  | [] => false
  end.

(** [p.relative_to(other)]: the parts of [other] must be the first parts
    of [p], a root being a part like another; the empty path [.] is a
    prefix of the relative paths only. *)
Definition relative_to (p other : Path) : result Path :=
  if (match other with [] => has_root p | _ :: _ => false end)
  then Raise (Exn ValueError "path is not in the subpath of the other")
  else
    match strip_prefix other p with
    | Some rel => Ok rel
    | None => Raise (Exn ValueError "path is not in the subpath of the other")
    end.

End PathLib.
Import PathLib.

(** ** [json.dumps(obj, indent=2, ensure_ascii=False)] *)
Module Json.

#[warnings="-register-all"]
Inductive json :=
| JStr (s : string)
| JInt (n : nat)
| JList (items : list json)
| JDict (fields : list (string * json)).

Definition hex_digit (n : N) : ascii :=
  if (n <? 10)%N then ascii_of_N (48 + n) else ascii_of_N (87 + n).

(** The escapes of [encode_basestring]. *)
Definition escape_char (c : ascii) : string :=
  let n := Str.code c in
  if Ascii.eqb c Str.dq_char then "\" +:+ Str.dq
  else if Ascii.eqb c "\"%char then "\\"
  else if (n =? 10)%N then "\n"
  else if (n =? 13)%N then "\r"
  else if (n =? 9)%N then "\t"
  else if (n =? 12)%N then "\f"
  else if (n =? 8)%N then "\b"
  else if (n <? 32)%N
       then "\u00" +:+ String (hex_digit (n / 16)) (String (hex_digit (n mod 16)) "")
       else String c "".

Fixpoint escape (s : string) : string :=
  match s with
  | EmptyString => EmptyString
  | String c s' => escape_char c +:+ escape s'
  end.

Definition quoted (s : string) : string := Str.dq +:+ escape s +:+ Str.dq.

Fixpoint spaces (n : nat) : string :=
  match n with O => EmptyString | S n' => String " "%char (spaces n') end.

Definition newline (indent : nat) : string :=
  String "010"%char (spaces indent).

Fixpoint dumps_at (indent : nat) (j : json) : string :=
  match j with
  | JStr s => quoted s
  | JInt n => pretty n
  | JList [] => "[]"
  | JList items =>
      "[" +:+ newline (indent + 2)
      +:+ Str.join ("," +:+ newline (indent + 2))
            (List.map (dumps_at (indent + 2)) items)
      +:+ newline indent +:+ "]"
  | JDict [] => "{}"
  | JDict fields =>
      "{" +:+ newline (indent + 2)
      +:+ Str.join ("," +:+ newline (indent + 2))
            (List.map (fun kv => quoted (fst kv) +:+ ": "
                                 +:+ dumps_at (indent + 2) (snd kv)) fields)
      +:+ newline indent +:+ "}"
  end.

Definition dumps (j : json) : string := dumps_at 0 j.

(** [d[key]] on a dictionary. *)
Definition get (key : string) (j : json) : option json :=
  match j with
  | JDict fields =>
      snd <$> List.find (fun kv => String.eqb (fst kv) key) fields
  | _ => None
  end.

End Json.
Import Json.

(** ** The world: file system, network, output *)

Inductive node :=
| File (data : string)
| Dir.

(** What the script does to the outside, in the order it does it. *)
Inductive event :=
| Out (line : string)          (* a line printed to the standard output *)
| Err (line : string)          (* a line printed to the error stream *)
| Request (url : string)       (* [urlopen] sends a GET for [url] *)
| MkDir (p : Path)             (* [mkdir(parents=True, exist_ok=True)] *)
| OpenW (p : Path).            (* a file is opened for writing *)

Record world := World {
  fs : gmap (list string) node;
  reqs : nat;                  (* number of requests sent so far *)
  log : list event }.

(** What [urlopen] and the reading of the body do for one request: either
    [urlopen] raises, or it returns a response whose body is [data]; with
    [stop = Some e] only [data] gets copied before [e] is raised (by the
    read on the connection or by the write to the file).  For the page,
    [data] is the decoded text; the decoding is not modelled. *)
Inductive response :=
| Refused (e : exn)
| Stream (data : string) (stop : option exn).

(** The state and exception monad of the script's effectful functions. *)
Definition M (A : Type) : Type := world -> world * result A.

Definition ret {A} (a : A) : M A := fun w => (w, Ok a).
Definition raise {A} (e : exn) : M A := fun w => (w, Raise e).
Definition bind {A B} (m : M A) (f : A -> M B) : M B :=
  fun w => match m w with
           | (w', Ok a) => f a w'
           | (w', Raise e) => (w', Raise e)
           end.
(** Runs [m] and hands its outcome, value or exception, to the caller:
    the [try] of a [try ... except]. *)
Definition attempt {A} (m : M A) : M (result A) :=
  fun w => let (w', r) := m w in (w', Ok r).
Definition lift {A} (r : result A) : M A := fun w => (w, r).
Definition get_fs : M (gmap (list string) node) := fun w => (w, Ok (fs w)).
Definition put_fs (f : gmap (list string) node) : M unit :=
  fun w => (World f (reqs w) (log w), Ok tt).
Definition emit (e : event) : M unit :=
  fun w => (World (fs w) (reqs w) (log w ++ [e]), Ok tt).

Notation "'let*' x := m 'in' k" := (bind m (fun x => k))
  (at level 10, x name, k at level 200).

Definition print (line : string) : M unit := emit (Out line).
Definition print_err (line : string) : M unit := emit (Err line).

Definition os_error (msg : string) : exn := Exn OSError msg.

(** [p.is_dir()]; the current directory and the root are directories. *)
Definition is_dir (f : gmap (list string) node) (p : Path) : bool :=
  match f !! p with
  | Some Dir => true
  | Some (File _) => false
  | None =>
      match p with
      | [] => true
      | [part] => is_root part
      | _ => false
      end
  end.

(** [p.exists()] *)
Definition path_exists (f : gmap (list string) node) (p : Path) : bool :=
  match f !! p with
  | Some _ => true
  | None => is_dir f p
  end.

(** The non-empty prefixes of [p], shortest first: its ancestors and [p]. *)
Fixpoint prefixes (p : Path) : list Path :=
  match p with
  | [] => []
  | part :: rest => [part] :: List.map (cons part) (prefixes rest)
  end.

Section Script.
(** The checks of the authority that [urlsplit] delegates, see [UrlParse]. *)
Variable host_check : string -> option string.
(** The answer to the [n]-th request of the run, sent for [url]. *)
Variable net : nat -> string -> response.
(** The paths that the process may neither create nor open for writing
    (permissions, a read-only file system). *)
Variable denied : Path -> bool.

(** [p.mkdir(parents=True, exist_ok=True)]: the ancestors of [p] and [p]
    itself are visited from the top; one that is a directory is left as it
    is, one that is missing is created, and an [OSError] is raised at one
    that is a file or that may not be created. *)
Fixpoint make_dirs (todo : list Path) : M unit :=
  match todo with
  | [] => ret tt
  | q :: rest =>
      let* f := get_fs in
      if is_dir f q then make_dirs rest
      else if path_exists f q then raise (os_error "File exists")
      else if denied q then raise (os_error "Permission denied")
      else let* _ := put_fs (<[q := Dir]> f) in make_dirs rest
  end.

Definition mkdir_parents (p : Path) : M unit :=
  let* _ := emit (MkDir p) in make_dirs (prefixes p).

(** [p.open(mode)] for writing: an [OSError] when [p] is a directory, when
    its parent is none, or when [p] may not be written; else [p] is created
    or truncated. *)
Definition open_write (p : Path) : M unit :=
  let* _ := emit (OpenW p) in
  let* f := get_fs in
  if is_dir f p then raise (os_error "Is a directory")
  else if negb (is_dir f (parent p))
  then raise (os_error "No such file or directory")
  else if denied p then raise (os_error "Permission denied")
  else put_fs (<[p := File EmptyString]> f).

(** The data written through an open file. *)
Definition write_data (p : Path) (data : string) : M unit :=
  let* f := get_fs in put_fs (<[p := File data]> f).

(** [urlopen(Request(url, headers=...))] *)
Definition urlopen (url : string) : M (string * option exn) :=
  fun w =>
    let w' := World (fs w) (S (reqs w)) (log w ++ [Request url]) in
    match net (reqs w) url with
    | Refused e => (w', Raise e)
    | Stream data stop => (w', Ok (data, stop))
    end.

Definition fetch_html (url : string) : M string :=
  let* response := urlopen url in
  match snd response with
  | Some e => raise e
  | None => ret (fst response)
  end.

Definition ensure_directory (p : Path) : M unit := mkdir_parents p.

(** [any(filename.lower().endswith(ext) for ext in AUDIO_EXTENSIONS)] *)
Definition has_audio_extension (filename : string) : bool :=
  existsb (Str.endswith (Str.lower filename)) AUDIO_EXTENSIONS.

(** The name under which [download_file] stores [url_path], the path
    component of the URL. *)
Definition derive_filename (url_path : string) : string :=
  let filename :=
    if Str.nonempty (name (parse_path url_path))
    then name (parse_path url_path) else "audio" in
  if negb (has_audio_extension filename)
  then (if Str.nonempty filename then filename else "audio") +:+ ".mp3"
  else filename.

(** The [while destination.exists()] loop.  [fuel] bounds the number of
    tests; [download_file] passes more than the loop can use. *)
Fixpoint rename_loop (f : gmap (list string) node) (dest_dir : Path)
    (stem suffix : string) (fuel : nat) (destination : Path) (counter : nat)
  : Path :=
  match fuel with
  | O => destination
  | S fuel' =>
      if path_exists f destination
      then rename_loop f dest_dir stem suffix fuel'
             (joinpath dest_dir (stem +:+ "-" +:+ pretty counter +:+ suffix))
             (S counter)
      else destination
  end.

(** The destination [download_file] settles on, given the files that
    exist. *)
Definition choose_destination (f : gmap (list string) node)
    (dest_dir : Path) (filename : string) (overwrite : bool) : Path :=
  let destination := joinpath dest_dir filename in
  if path_exists f destination && negb overwrite
  then rename_loop f dest_dir (stem destination) (suffix destination)
         (S (S (size f))) destination 1
  else destination.

Definition download_file (url : string) (dest_dir : Path) (overwrite : bool)
  : M Path :=
  let* parsed := lift (UrlParse.urlparse host_check url EmptyString) in
  let filename := derive_filename (UrlParse.path parsed) in
  let* f := get_fs in
  let destination := choose_destination f dest_dir filename overwrite in
  let* response := urlopen url in
  let* _ := open_write destination in
  let* _ := write_data destination (fst response) in
  match snd response with
  | Some e => raise e
  | None => ret destination
  end.

(** The dictionary [manifest_data] of [write_manifest]. *)
Definition manifest_entry (manifest_path : Path) (source_url : string)
    (file_path : Path) : result json :=
  rbind (relative_to file_path (parent manifest_path)) (fun rel =>
  Ok (JDict [("filename", JStr (name file_path));
             ("relative_path", JStr (path_str rel));
             ("source_url", JStr source_url)])).

Definition manifest_data (manifest_path : Path) (source_url : string)
    (files : list Path) : result json :=
  rbind (rmap (manifest_entry manifest_path source_url) files) (fun entries =>
  Ok (JDict [("source_page", JStr source_url);
             ("file_count", JInt (length files));
             ("files", JList entries)])).

(** [p.write_text(text)] *)
Definition write_text (p : Path) (text : string) : M unit :=
  let* _ := open_write p in write_data p text.

Definition write_manifest (manifest_path : Path) (source_url : string)
    (files : list Path) : M unit :=
  let* data := lift (manifest_data manifest_path source_url files) in
  write_text manifest_path (dumps data +:+ String "010"%char "").

(** The options of the command line, parsed. *)
Record Args := mkArgs {
  url : string;
  output : Path;
  dry_run : bool;
  overwrite : bool }.

(** The loop of [main] over the links; [downloaded] is the list it
    appends to. *)
Fixpoint download_all (args : Args) (links : list string)
    (downloaded : list Path) : M (list Path) :=
  match links with
  | [] => ret downloaded
  | link :: rest =>
      let* r := attempt (download_file link (output args) (overwrite args)) in
      match r with
      | Raise error =>
          if isinstance error [HTTPError; URLError; OSError]
          then let* _ := print_err ("Failed to download " +:+ link +:+ ": "
                                    +:+ exn_msg error) in
               download_all args rest downloaded
          else raise error
      | Ok destination =>
          let* _ := print ("Downloaded " +:+ link +:+ " -> "
                           +:+ path_str destination) in
          download_all args rest (downloaded ++ [destination])
      end
  end.

Fixpoint print_links (links : list string) : M unit :=
  match links with
  | [] => ret tt
  | link :: rest => let* _ := print (" - " +:+ link) in print_links rest
  end.

(** [main], from the parsed options on; its value is the exit status it
    returns. *)
Definition main (args : Args) : M Z :=
  let* r := attempt (fetch_html (url args)) in
  match r with
  | Raise error =>
      if isinstance error [HTTPError; URLError]
      then let* _ := print_err ("Failed to fetch " +:+ url args +:+ ": "
                                +:+ exn_msg error) in
           ret 1%Z
      else raise error
  | Ok html =>
      let* links := lift (extract_links host_check html (url args)) in
      match links with
      | [] => let* _ := print "No audio links found." in ret 0%Z
      | _ =>
          let* _ := print ("Discovered " +:+ pretty (length links)
                           +:+ " audio files:") in
          let* _ := print_links links in
          if dry_run args then ret 0%Z
          else
            let* _ := ensure_directory (output args) in
            let* downloaded := download_all args links [] in
            match downloaded with
            | _ :: _ =>
                let manifest_path := joinpath (output args) "manifest.json" in
                let* _ := write_manifest manifest_path (url args) downloaded in
                let* _ := print ("Wrote manifest with "
                                 +:+ pretty (length downloaded)
                                 +:+ " entries to "
                                 +:+ path_str manifest_path) in
                ret 0%Z
            | [] => let* _ := print "No files were downloaded." in ret 0%Z
            end
      end
  end.
End Script.

(** The exit status of the process: the value [main] returns, handed to
    [sys.exit]; an exception that leaves [main] ends the interpreter with
    status 1. *)
Definition exit_status (r : result Z) : Z :=
  match r with
  | Ok code => code
  | Raise _ => 1%Z
  end.

(** ** Definitions for the statements *)

(** ** Definitions that the statements and proofs below rely on *)

(** Characters that [urlsplit] neither strips nor splits at. *)
Definition plain (c : ascii) : bool :=
  negb (UrlParse.c0_control_or_space c) && negb (Str.mem c ":/?#;").

(** Where the extension is, once the reference is split. *)
Inductive carried (res : UrlParse.SplitResult) : Prop :=
| in_fragment :
    ends_in_audio "?" (UrlParse.s_fragment res) -> carried res
| in_query :
    ends_in_audio "?" (UrlParse.s_query res) -> carried res
| in_path (p e : string) :
    UrlParse.s_path res = p +:+ e -> audio_extension e -> carried res
| in_netloc (p e : string) :
    UrlParse.s_netloc res = p +:+ e -> audio_extension e ->
    UrlParse.s_path res = "" -> carried res.

(** The same for the six components of [urlparse]. *)
Inductive carried6 (u : UrlParse.ParseResult) : Prop :=
| c_fragment : ends_in_audio "?" (UrlParse.fragment u) -> carried6 u
| c_query : ends_in_audio "?" (UrlParse.query u) -> carried6 u
| c_path (p e : string) :
    UrlParse.path u = p +:+ e -> audio_extension e ->
    UrlParse.params u = "" -> carried6 u
| c_params (p e : string) :
    UrlParse.params u = p +:+ e -> audio_extension e -> carried6 u
| c_netloc (p e : string) :
    UrlParse.netloc u = p +:+ e -> audio_extension e ->
    UrlParse.path u = "" -> UrlParse.params u = "" -> carried6 u.

(** The query and the fragment as [urlunsplit] appends them. *)
Definition query_part (q : string) : string :=
  if Str.nonempty q then "?" +:+ q else "".
Definition fragment_part (frag : string) : string :=
  if Str.nonempty frag then "#" +:+ frag else "".

(** The page text of the specification's example, and the same reference
    written the way the pattern [combined] wants it. *)
Definition href_example : string :=
  "<a href=" +:+ Str.dq +:+ "move.mp3" +:+ Str.dq +:+ ">".
Definition href_escaped : string :=
  "<a href\=\" +:+ Str.dq +:+ "move.mp3" +:+ Str.dq +:+ ">".

(** A page whose only link has an empty query before its fragment. *)
Definition fragment_page : string := "<a href='http://x.com/a.mp3?#t=10'>".

(** The name of the [k]-th candidate that [download_file] tries when
    [filename] is taken. *)
Definition candidate (filename : string) (k : nat) : string :=
  stem_of filename +:+ "-" +:+ pretty k +:+ suffix_of filename.

(** The file name as the claim C4 words it: the text behind the last slash
    of the URL's path, the placeholder when that text is empty, and the
    default extension when the name has none of the six. *)
Definition claimed_filename (url_path : string) : string :=
  let segment := List.last (Str.split "/" url_path) "" in
  let filename := if Str.nonempty segment then segment else "audio" in
  if has_audio_extension filename then filename else filename +:+ ".mp3".

(** The [k]-th candidate as the claim C4 words it: the number goes before
    the extension, the audio extension in which [filename] ends. *)
Definition claimed_candidate (filename : string) (k : nat) : string :=
  match List.find (Str.endswith (Str.lower filename)) AUDIO_EXTENSIONS with
  | Some ext =>
      let n := String.length filename - String.length ext in
      Str.take n filename +:+ "-" +:+ pretty k +:+ Str.drop n filename
  | None => filename +:+ "-" +:+ pretty k
  end.

(** The world with one more event in its log. *)
Definition logged (w : world) (e : event) : world :=
  World (fs w) (reqs w) (log w ++ [e]).

(** The world once a request has been sent for [url]. *)
Definition requested (w : world) (url : string) : world :=
  World (fs w) (S (reqs w)) (log w ++ [Request url]).

(** What a request comes to when its whole body is read. *)
Definition whole_body (r : response) : result string :=
  match r with
  | Refused e => Raise e
  | Stream _ (Some e) => Raise e
  | Stream data None => Ok data
  end.

(** The classes that the download loop of [main] catches. *)
Definition caught (e : exn) : bool :=
  isinstance e [HTTPError; URLError; OSError].

Section Batch.
Variable host_check : string -> option string.
Variable net : nat -> string -> response.
Variable denied : Path -> bool.
Variable args : Args.

(** A run of the download loop that no exception leaves, told link by link:
    from the world [w], the links give the files [downloaded], in this
    order, and leave the world [w'].  A link whose download succeeds adds
    its file and a line on the standard output; a link whose download
    raises a caught exception adds no file, and a line on the error stream
    that names the link. *)
Inductive batch : list string -> world -> list Path -> world -> Prop :=
| batch_done (w : world) : batch [] w [] w
| batch_success (link : string) (rest : list string) (w w1 w' : world)
    (destination : Path) (downloaded : list Path) :
    download_file host_check net denied link (output args) (overwrite args) w
    = (w1, Ok destination) ->
    batch rest
      (logged w1 (Out ("Downloaded " +:+ link +:+ " -> "
                       +:+ path_str destination)))
      downloaded w' ->
    batch (link :: rest) w (destination :: downloaded) w'
| batch_failure (link : string) (rest : list string) (w w1 w' : world)
    (error : exn) (downloaded : list Path) :
    download_file host_check net denied link (output args) (overwrite args) w
    = (w1, Raise error) ->
    caught error = true ->
    batch rest
      (logged w1 (Err ("Failed to download " +:+ link +:+ ": "
                       +:+ exn_msg error)))
      downloaded w' ->
    batch (link :: rest) w downloaded w'.
End Batch.

(** The entry of the manifest for the file [filename] of the output
    directory, and the manifest of a list of such files. *)
Definition entry_of (source_url filename : string) : json :=
  JDict [("filename", JStr filename); ("relative_path", JStr filename);
         ("source_url", JStr source_url)].

Definition manifest_of (source_url : string) (downloaded : list Path) : json :=
  JDict [("source_page", JStr source_url);
         ("file_count", JInt (length downloaded));
         ("files", JList (List.map (fun p => entry_of source_url (name p))
                            downloaded))].

(** An event that changes the file system. *)
Definition is_fs_event (e : event) : bool :=
  match e with
  | MkDir _ | OpenW _ => true
  | _ => false
  end.

Definition is_out (e : event) : bool :=
  match e with Out _ => true | _ => false end.

(** ** Concrete worlds for the runs that are evaluated below *)

(** Every path may be written. *)
Definition deny_none (p : Path) : bool := false.

(** The output directory exists and is empty. *)
Definition w_out : world := World {[ ["out"] := Dir ]} 0 [].

(** The output directory holds a file named like an extension. *)
Definition w_taken : world :=
  World (<[ ["out"; ".mp3"] := File "old" ]> {[ ["out"] := Dir ]}) 0 [].

(** A network that answers every request with the same complete body. *)
Definition net_songs (n : nat) (url : string) : response :=
  Stream "ID3" None.

(** No file at all. *)
Definition w_empty : world := World ∅ 0 [].

(** A page with one link. *)
Definition page_one : string := "<a href='http://x.com/a.mp3'>".

(** Options: the page http://x.com/, the directory out, no dry run, no
    overwriting. *)
Definition args_out : Args := mkArgs "http://x.com/" ["out"] false false.

(** The page is served; every download breaks after three bytes, with an
    exception of the class [OSError]. *)
Definition net_cut (n : nat) (url : string) : response :=
  match n with
  | O => Stream page_one None
  | S _ => Stream "ID3" (Some (os_error "Connection reset by peer"))
  end.

(** The world once [main] has announced the links it found. *)
Definition announced (w : world) (links : list string) : world :=
  World (fs w) (reqs w)
    (log w
     ++ Out ("Discovered " +:+ pretty (length links) +:+ " audio files:")
        :: List.map (fun link => Out (" - " +:+ link)) links).

(** The path of the manifest. *)
Definition manifest_path_of (args : Args) : Path :=
  joinpath (output args) "manifest.json".

(** [f'] has everything [f] has, and what it has more are directories. *)
Definition grown (f f' : gmap (list string) node) : Prop :=
  forall q, f' !! q = f !! q \/ (f !! q = None /\ f' !! q = Some Dir).

(** The text of the manifest for the files [downloaded]. *)
Definition manifest_text (source_url : string) (downloaded : list Path)
  : string :=
  dumps (manifest_of source_url downloaded) +:+ String "010" "".

(** The world once the manifest has been written and reported. *)
Definition manifest_written (args : Args) (w : world)
    (downloaded : list Path) : world :=
  let mp := output args ++ ["manifest.json"] in
  World (<[mp := File (manifest_text (url args) downloaded)]> (fs w))
    (reqs w)
    (log w ++ [OpenW mp;
               Out ("Wrote manifest with " +:+ pretty (length downloaded)
                    +:+ " entries to " +:+ path_str mp)]).

(** The page and every download are served in full. *)
Definition net_ok (n : nat) (url : string) : response :=
  match n with
  | O => Stream page_one None
  | S _ => Stream "ID3" None
  end.

(** The page holds no link. *)
Definition net_none (n : nat) (url : string) : response :=
  Stream "<p>no sound here</p>" None.

(** The output directory exists; where the manifest goes is a directory. *)
Definition w_manifest_dir : world :=
  World (<[ ["out"; "manifest.json"] := Dir ]> {[ ["out"] := Dir ]}) 0 [].

(** The output path is a file. *)
Definition w_out_file : world := World {[ ["out"] := File "notes" ]} 0 [].

(** The options of [args_out], as a dry run. *)
Definition args_dry : Args := mkArgs "http://x.com/" ["out"] true false.

(** A text with two links, the later one first in the order of strings;
    the first link is matched by both patterns. *)
Definition twice_page : string :=
  "src\=\'http://x.com/b.mp3' http://x.com/a.mp3 ".

(** A network that refuses every connection. *)
Definition net_down (n : nat) (url : string) : response :=
  Refused (Exn URLError "Name or service not known").

(** A query that [urlsplit] and [urlunsplit] leave as it is: it is not
    empty, holds no number sign, and no tab or line break. *)
Definition kept_query (q : string) : bool :=
  Str.nonempty q && negb (Str.mem "#" q)
  && Str.all_chars (fun c => negb (UrlParse.unsafe_char c)) q.

(** Where the extension [e] and the query [q] behind it are, once the
    reference is split. *)
Inductive carried_with (e q : string) (res : UrlParse.SplitResult) : Prop :=
| with_fragment (p : string) :
    UrlParse.s_fragment res = p +:+ e +:+ String "?" q -> carried_with e q res
| with_query (p : string) :
    UrlParse.s_query res = p +:+ e +:+ String "?" q ->
    UrlParse.s_fragment res = "" -> carried_with e q res
| with_path (p : string) :
    UrlParse.s_path res = p +:+ e -> UrlParse.s_query res = q ->
    UrlParse.s_fragment res = "" -> carried_with e q res
| with_netloc (p : string) :
    UrlParse.s_netloc res = p +:+ e -> UrlParse.s_path res = "" ->
    UrlParse.s_query res = q -> UrlParse.s_fragment res = "" ->
    carried_with e q res.

(** The same for the six components of [urlparse]. *)
Inductive carried6_with (e q : string) (u : UrlParse.ParseResult) : Prop :=
| w_fragment (p : string) :
    UrlParse.fragment u = p +:+ e +:+ String "?" q -> carried6_with e q u
| w_query (p : string) :
    UrlParse.query u = p +:+ e +:+ String "?" q ->
    UrlParse.fragment u = "" -> carried6_with e q u
| w_path (p : string) :
    UrlParse.path u = p +:+ e -> UrlParse.params u = "" ->
    UrlParse.query u = q -> UrlParse.fragment u = "" -> carried6_with e q u
| w_params (p : string) :
    UrlParse.params u = p +:+ e ->
    UrlParse.query u = q -> UrlParse.fragment u = "" -> carried6_with e q u
| w_netloc (p : string) :
    UrlParse.netloc u = p +:+ e -> UrlParse.path u = "" ->
    UrlParse.params u = "" ->
    UrlParse.query u = q -> UrlParse.fragment u = "" -> carried6_with e q u.

(** A network on which every body breaks after three bytes. *)
Definition net_broken (n : nat) (url : string) : response :=
  Stream "ID3" (Some (os_error "Connection reset by peer")).

(** ** Definitions for the properties of the other functions *)

(** [q] is neither the directory [dir], nor one of its ancestors, nor an
    entry of [dir]. *)
Definition outside (dir q : Path) : Prop :=
  (q ∉ prefixes dir) /\ (forall nm, q <> dir ++ [nm]).

(** The URLs of the requests of a log, in the order they were sent. *)
Definition requests_of (evs : list event) : list string :=
  omap (fun e => match e with Request u => Some u | _ => None end) evs.

(** [urlparse(link)] returns. *)
Definition parses (host_check : string -> option string) (link : string)
  : bool :=
  match UrlParse.urlparse host_check link "" with
  | Ok _ => true
  | Raise _ => false
  end.

Definition is_err (e : event) : bool :=
  match e with Err _ => true | _ => false end.

(** Two files in the output directory, and options that overwrite. *)
Definition w_two : world :=
  World (<[ ["out"; "a.mp3"] := File "old" ]>
           (<[ ["notes.txt"] := File "keep" ]> {[ ["out"] := Dir ]})) 0 [].
Definition args_over : Args := mkArgs "http://x.com/" ["out"] false true.

(** [mkdir] can go past [q]: it is a directory, or it is missing and may
    be created. *)
Definition can_make (denied : Path -> bool) (f : gmap (list string) node)
    (q : Path) : bool :=
  is_dir f q || (negb (path_exists f q) && negb (denied q)).

(** A text in which the second pattern finds a URL with a host that opens
    a bracket and never closes it. *)
Definition bracket_page : string := "see http://[x.mp3 ".

(** A quote or a white space: what ends a URL in the text of a page. *)
Definition delimiter (c : ascii) : bool :=
  Str.mem c quotes || Str.isspace c.

(** A pattern that matches no delimiter: its literals and the members of
    its classes are none, its negated classes exclude them all. *)
Definition clean_atom (a : Re.atom) : bool :=
  match a with
  | Re.Lit c => negb (delimiter c)
  | Re.OneOf cs => Str.all_chars (fun c => negb (delimiter c)) cs
  | Re.NotIn cs sp => Str.all_chars (fun c => Str.mem c cs) quotes && sp
  end.

Fixpoint clean_regex (r : Re.regex) : bool :=
  match r with
  | Re.Eps => true
  | Re.One a | Re.Star a | Re.Plus a => clean_atom a
  | Re.Cat r1 r2 | Re.Alt r1 r2 => clean_regex r1 && clean_regex r2
  | Re.Opt r' | Re.Group r' => clean_regex r'
  end.

(** [u.lower().startswith(("http://", "https://"))] *)
Definition is_http_url (u : string) : bool :=
  String.eqb (Str.lower (Str.take 7 u)) "http://"
  || String.eqb (Str.lower (Str.take 8 u)) "https://".

(** * Proofs *)

(** * Proofs *)

(** ** Strings *)

Lemma str_app_nil_l (s : string) : "" +:+ s = s.
Proof. reflexivity. Qed.

Lemma str_app_cons (c : ascii) (a b : string) :
  String c a +:+ b = String c (a +:+ b).
Proof. reflexivity. Qed.

(** Append does not unfold under [simpl]; its two equations are rewritten. *)
Ltac sapp := rewrite ?str_app_nil_l, ?str_app_cons.
Ltac ssimpl := simpl; sapp.

Lemma str_app_nil_r (s : string) : s +:+ "" = s.
Proof. induction s as [|c s IH]; sapp; [reflexivity | by rewrite IH]. Qed.

Lemma str_app_assoc (a b c : string) : (a +:+ b) +:+ c = a +:+ b +:+ c.
Proof. induction a as [|x a IH]; sapp; [reflexivity | by rewrite IH]. Qed.

Lemma str_app_length (a b : string) :
  String.length (a +:+ b) = String.length a + String.length b.
Proof. induction a as [|x a IH]; ssimpl; [reflexivity | simpl; by rewrite IH]. Qed.

Lemma take_app_length (w s : string) :
  Str.take (String.length (w +:+ s) - String.length s) (w +:+ s) = w.
Proof.
  rewrite str_app_length.
  replace (String.length w + String.length s - String.length s)
    with (String.length w) by lia.
  induction w as [|c w IH]; ssimpl.
  - destruct s; reflexivity.
  - simpl. by rewrite IH.
Qed.

Lemma all_chars_app (p : ascii -> bool) (a b : string) :
  Str.all_chars p (a +:+ b) = Str.all_chars p a && Str.all_chars p b.
Proof.
  induction a as [|c a IH]; ssimpl; [reflexivity|].
  simpl. rewrite IH. by rewrite andb_assoc.
Qed.

Lemma lower_app (a b : string) :
  Str.lower (a +:+ b) = Str.lower a +:+ Str.lower b.
Proof. induction a as [|c a IH]; ssimpl; [reflexivity | simpl; sapp; by rewrite IH]. Qed.

Lemma lower_length (a : string) : String.length (Str.lower a) = String.length a.
Proof. induction a as [|c a IH]; simpl; [reflexivity | by rewrite IH]. Qed.

Lemma drop_app_length (a b : string) : Str.drop (String.length a) (a +:+ b) = b.
Proof. induction a as [|c a IH]; ssimpl; [by destruct b | exact IH]. Qed.

Lemma endswith_app (a b : string) : Str.endswith (a +:+ b) b = true.
Proof.
  unfold Str.endswith. rewrite str_app_length.
  replace (String.length a + String.length b - String.length b)
    with (String.length a) by lia.
  rewrite drop_app_length, String.eqb_refl.
  rewrite andb_true_r. apply Nat.leb_le. lia.
Qed.

Lemma take_drop (n : nat) (s : string) : Str.take n s +:+ Str.drop n s = s.
Proof.
  revert s; induction n as [|n IH]; intros [|c s]; ssimpl; try reflexivity.
  by rewrite IH.
Qed.

Lemma endswith_inv (s suf : string) :
  Str.endswith s suf = true -> exists p, s = p +:+ suf.
Proof.
  unfold Str.endswith. intros [_ H]%andb_true_iff.
  apply String.eqb_eq in H.
  exists (Str.take (String.length s - String.length suf) s).
  rewrite <- H at 2. by rewrite take_drop.
Qed.

(** ** The matcher finds only texts of the pattern *)

Section MatcherSound.
Context {A : Type}.
Variable icase : bool.

Lemma star_sound (a : Re.atom) (s : string) (g : option string)
    (k : @Re.cont A) (x : A) :
  Re.star icase a s g k = Some x ->
  exists w s1, s = w +:+ s1 /\ Str.all_chars (Re.atom_ok icase a) w = true
               /\ k s1 g = Some x.
Proof.
  induction s as [|c s IH]; simpl.
  - intros H. exists "", "". auto.
  - destruct (Re.atom_ok icase a c) eqn:Hc.
    + unfold Re.orelse.
      destruct (Re.star icase a s g k) as [y|] eqn:Hs.
      * intros [= ->]. destruct (IH eq_refl) as (w & s1 & -> & Hw & Hk).
        exists (String c w), s1. simpl. by rewrite Hc, Hw.
      * intros H. exists "", (String c s). auto.
    + intros H. exists "", (String c s). auto.
Qed.

Lemma rmatch_sound (r : Re.regex) :
  Re.has_group r = false ->
  forall (s : string) (g : option string) (k : @Re.cont A) (x : A),
    Re.rmatch icase r s g k = Some x ->
    exists w s1, s = w +:+ s1 /\ Re.matches icase r w /\ k s1 g = Some x.
Proof.
  induction r as [|a|r1 IH1 r2 IH2|r1 IH1 r2 IH2|r IH|a|a|r IH];
    simpl; intros Hg s g k x H.
  - exists "", s. split; [done|]. split; [constructor | done].
  - destruct s as [|c s]; [done|].
    destruct (Re.atom_ok icase a c) eqn:Hc; [|done].
    exists (String c ""), s. split; [done|]. split; [by constructor | done].
  - apply orb_false_iff in Hg as [Hg1 Hg2].
    apply (IH1 Hg1) in H as (w1 & s1 & -> & Hm1 & H).
    apply (IH2 Hg2) in H as (w2 & s2 & -> & Hm2 & H).
    exists (w1 +:+ w2), s2. rewrite str_app_assoc.
    split; [done|]. split; [by constructor | done].
  - apply orb_false_iff in Hg as [Hg1 Hg2]. unfold Re.orelse in H.
    destruct (Re.rmatch icase r1 s g k) as [y|] eqn:H1.
    + injection H as ->. apply (IH1 Hg1) in H1 as (w & s1 & -> & Hm & H).
      exists w, s1. split; [done|]. split; [by apply Re.m_alt_l | done].
    + apply (IH2 Hg2) in H as (w & s1 & -> & Hm & H).
      exists w, s1. split; [done|]. split; [by apply Re.m_alt_r | done].
  - unfold Re.orelse in H.
    destruct (Re.rmatch icase r s g k) as [y|] eqn:H1.
    + injection H as ->. apply (IH Hg) in H1 as (w & s1 & -> & Hm & H).
      exists w, s1. split; [done|]. split; [by apply Re.m_opt_some | done].
    + exists "", s. split; [done|]. split; [apply Re.m_opt_none | done].
  - apply star_sound in H as (w & s1 & -> & Hw & H).
    exists w, s1. split; [done|]. split; [by constructor | done].
  - destruct s as [|c s]; [done|].
    destruct (Re.atom_ok icase a c) eqn:Hc; [|done].
    apply star_sound in H as (w & s1 & -> & Hw & H).
    exists (String c w), s1. split; [done|]. split; [by constructor | done].
  - done.
Qed.

(** A capturing group around a pattern without groups records the text
    the pattern matched. *)
Lemma rmatch_group_sound (r : Re.regex) :
  Re.has_group r = false ->
  forall (s : string) (g : option string) (k : @Re.cont A) (x : A),
    Re.rmatch icase (Re.Group r) s g k = Some x ->
    exists w s1, s = w +:+ s1 /\ Re.matches icase r w /\ k s1 (Some w) = Some x.
Proof.
  intros Hg s g k x H. simpl in H.
  apply (rmatch_sound r Hg) in H as (w & s1 & -> & Hm & H).
  rewrite take_app_length in H. eauto.
Qed.
End MatcherSound.

Lemma rmatch_cat {A} (icase : bool) (r1 r2 : Re.regex) (s : string)
    (g : option string) (k : @Re.cont A) :
  Re.rmatch icase (Re.Cat r1 r2) s g k
  = Re.rmatch icase r1 s g (fun s1 g1 => Re.rmatch icase r2 s1 g1 k).
Proof. reflexivity. Qed.

(** Takes the first item off a sequence that matched. *)
Ltac peel H w M :=
  rewrite rmatch_cat in H;
  match type of H with
  | Re.rmatch _ ?r _ _ _ = _ =>
      let s' := fresh "s" in
      apply (rmatch_sound true r eq_refl) in H as (w & s' & -> & M & H)
  end.

(** What a match of [combined] at the head of a text looks like. *)
Lemma combined_here (s : string) (n : nat) (txt : string) :
  Re.match_here true combined s = Some (n, txt) ->
  exists w rest, s = w +:+ rest /\ n = String.length w
                 /\ Re.matches true combined w
                 /\ Re.matches true link_text txt.
Proof.
  unfold Re.match_here, combined. simpl Re.seq.
  change (Re.has_group _) with true. cbv iota.
  set (k := fun rest g => _). intros H.
  peel H w1 M1. peel H w2 M2. peel H w3 M3. peel H w4 M4. peel H w5 M5.
  peel H w6 M6. peel H w7 M7.
  rewrite rmatch_cat in H.
  apply (rmatch_group_sound true link_text eq_refl) in H
    as (w8 & s8 & -> & M8 & H).
  apply (rmatch_sound true (Re.One (Re.OneOf quotes)) eq_refl) in H
    as (w9 & s9 & -> & M9 & H).
  subst k. cbv beta in H. injection H as <- <-.
  exists (w1 +:+ w2 +:+ w3 +:+ w4 +:+ w5 +:+ w6 +:+ w7 +:+ w8 +:+ w9), s9.
  repeat split.
  - by rewrite !str_app_assoc.
  - rewrite <- !str_app_assoc.
    rewrite (str_app_length _ s9). lia.
  - repeat (apply Re.m_cat; [assumption|]).
    apply Re.m_cat; [by apply Re.m_group | assumption].
  - exact M8.
Qed.

Lemma absolute_here (s : string) (n : nat) (txt : string) :
  Re.match_here true absolute s = Some (n, txt) ->
  exists rest, s = txt +:+ rest /\ n = String.length txt
               /\ Re.matches true absolute txt.
Proof.
  unfold Re.match_here. intros H.
  apply (rmatch_sound true absolute eq_refl) in H as (w & s1 & -> & M & H).
  change (Re.has_group absolute) with false in H. cbv beta iota in H.
  injection H as <- <-. rewrite take_app_length.
  exists s1. repeat split; [|done]. rewrite str_app_length. lia.
Qed.

(** Every text reported by the scan comes from a match at some place. *)
Lemma scan_sound (icase : bool) (r : Re.regex) (txt : string) :
  forall (s : string) (skip : nat),
    txt ∈ Re.scan icase r s skip ->
    exists pre tail n, s = pre +:+ tail
                       /\ Re.match_here icase r tail = Some (n, txt).
Proof.
  induction s as [|c s IH]; intros skip; simpl.
  - destruct skip; [|by intros ?%elem_of_nil].
    destruct (Re.match_here icase r "") as [[n t]|] eqn:H;
      [|by intros ?%elem_of_nil].
    intros ->%list_elem_of_singleton. exists "", "", n. auto.
  - destruct skip as [|skip].
    + destruct (Re.match_here icase r (String c s)) as [[n t]|] eqn:H.
      * intros [->|Hin]%elem_of_cons.
        -- exists "", (String c s), n. auto.
        -- apply IH in Hin as (pre & tail & m & -> & Hm).
           exists (String c pre), tail, m. auto.
      * intros Hin. apply IH in Hin as (pre & tail & m & -> & Hm).
        exists (String c pre), tail, m. auto.
    + intros Hin. apply IH in Hin as (pre & tail & m & -> & Hm).
      exists (String c pre), tail, m. auto.
Qed.

Lemma findall_combined_sound (html txt : string) :
  txt ∈ Re.findall true combined html ->
  Re.matches true link_text txt
  /\ exists w, Re.occurs_in w html /\ Re.matches true combined w.
Proof.
  intros (pre & tail & n & -> & H)%scan_sound.
  apply combined_here in H as (w & rest & -> & _ & Hw & Ht).
  split; [done|]. exists w. split; [|done]. by exists pre, rest.
Qed.

Lemma findall_absolute_sound (html txt : string) :
  txt ∈ Re.findall true absolute html ->
  Re.occurs_in txt html /\ Re.matches true absolute txt.
Proof.
  intros (pre & tail & n & -> & H)%scan_sound.
  apply absolute_here in H as (rest & -> & _ & Hw).
  split; [|done]. by exists pre, rest.
Qed.

(** ** Audio extensions *)

(** Membership in a list that is written out. *)
Ltac in_list := apply list_elem_of_In; simpl; tauto.

Lemma take_app_exact (a b : string) : Str.take (String.length a) (a +:+ b) = a.
Proof. induction a as [|c a IH]; ssimpl; [by destruct b | simpl; by rewrite IH]. Qed.

Lemma ends_in_audiob_here (seps u : string) :
  audio_here seps u = true -> ends_in_audiob seps u = true.
Proof. destruct u; cbn [ends_in_audiob]; by intros ->. Qed.

Lemma ends_in_audio_b (seps u : string) :
  ends_in_audio seps u -> ends_in_audiob seps u = true.
Proof.
  intros (p & e & r & -> & He & Hr).
  induction p as [|c p IH]; sapp.
  - apply ends_in_audiob_here.
    unfold audio_here. apply existsb_exists. exists (Str.lower e).
    split; [by apply list_elem_of_In|].
    rewrite lower_length, take_app_exact, String.eqb_refl.
    by rewrite drop_app_length.
  - simpl. rewrite IH. apply orb_true_r.
Qed.

Lemma ends_in_audio_prefix (seps p u : string) :
  ends_in_audio seps u -> ends_in_audio seps (p +:+ u).
Proof.
  intros (p' & e & r & -> & He & Hr).
  exists (p +:+ p'), e, r. by rewrite str_app_assoc.
Qed.

Lemma mem_app (c : ascii) (a b : string) :
  Str.mem c (a +:+ b) = Str.mem c a || Str.mem c b.
Proof.
  induction a as [|d a IH]; ssimpl; [done|]. simpl.
  destruct (Ascii.eqb c d); [done | exact IH].
Qed.

Lemma tail_ok_mono (seps seps' r : string) :
  tail_ok seps r = true -> tail_ok (seps +:+ seps') r = true.
Proof.
  destruct r as [|c r]; simpl; [done|]. rewrite mem_app. by intros ->.
Qed.

Lemma ends_in_audio_mono (seps seps' u : string) :
  ends_in_audio seps u -> ends_in_audio (seps +:+ seps') u.
Proof.
  intros (p & e & r & -> & He & Hr).
  exists p, e, r. eauto using tail_ok_mono.
Qed.

(** Under [re.IGNORECASE], a literal word matches the texts that are equal
    to it up to case. *)
Lemma word_matches (x w : string) :
  Re.matches true (Re.word x) w -> Str.lower w = Str.lower x.
Proof.
  revert w. induction x as [|c x IH]; intros w H.
  - by inversion H.
  - destruct x as [|c' x'].
    + inversion H as [|a d Hd| | | | | | | |]; subst. simpl in *.
      apply Ascii.eqb_eq in Hd. by rewrite Hd.
    + change (Re.word (String c (String c' x')))
        with (Re.Cat (Re.One (Re.Lit c)) (Re.word (String c' x'))) in H.
      inversion H as [| |r1 r2 w1 w2 H1 H2| | | | | | |]; subst.
      inversion H1 as [|a d Hd| | | | | | | |]; subst. simpl in Hd.
      apply Ascii.eqb_eq in Hd. sapp. simpl. rewrite Hd.
      f_equal. by apply IH.
Qed.

Lemma alts_matches (icase : bool) (rs : list Re.regex) :
  forall (r : Re.regex) (w : string),
    Re.matches icase (Re.alts r rs) w ->
    exists r', r' ∈ r :: rs /\ Re.matches icase r' w.
Proof.
  induction rs as [|r1 rs IH]; intros r w H; cbn [Re.alts] in H.
  - exists r. split; [by left | done].
  - inversion H as [| | |ra rb w' H'|ra rb w' H'| | | | |]; subst.
    + exists r. split; [by left | done].
    + apply IH in H' as (r' & Hin & Hm). exists r'. split; [by right | done].
Qed.

Lemma ext_names_matches (w : string) :
  Re.matches true ext_names w ->
  Str.lower w ∈ ["mp3"; "wav"; "ogg"; "flac"; "aac"; "m4a"].
Proof.
  intros (r & Hin & Hm)%alts_matches.
  repeat (apply elem_of_cons in Hin as [->|Hin];
          [apply word_matches in Hm; rewrite Hm; in_list|]).
  by apply elem_of_nil in Hin.
Qed.

Lemma lower_char_question (d : ascii) :
  Str.lower_char d = "?"%char -> d = "?"%char.
Proof. destruct d as [[] [] [] [] [] [] [] []]; vm_compute; congruence. Qed.

Lemma dot_ext_audio (d : ascii) (n : string) :
  Re.atom_ok true (Re.Lit ".") d = true ->
  Re.matches true ext_names n ->
  audio_extension (String d n).
Proof.
  simpl. intros Hd%Ascii.eqb_eq Hn%ext_names_matches.
  unfold audio_extension. simpl. rewrite Hd.
  change (Str.lower_char ".") with "."%char.
  repeat (apply elem_of_cons in Hn as [->|Hn]; [in_list|]).
  by apply elem_of_nil in Hn.
Qed.

(** The texts of [ext_pattern] and of [link_text] end in an audio extension
    followed by nothing or by a part that begins with a question mark. *)
Lemma ext_pattern_matches (w : string) :
  Re.matches true ext_pattern w -> ends_in_audio "?" w.
Proof.
  unfold ext_pattern. cbn [Re.seq]. intros H.
  inversion H as [| |r1 r2 w1 w2 H1 H2| | | | | | |]; subst; clear H.
  inversion H1 as [|a d Hd| | | | | | | |]; subst; clear H1.
  inversion H2 as [| |r1 r2 w3 w4 H3 H4| | | | | | |]; subst; clear H2.
  exists "", (String d w3), w4.
  split; [by sapp|]. split; [by apply dot_ext_audio|].
  inversion H4 as [| | | | | |r w' H5| | |]; subst; [done|].
  inversion H5 as [| |r1 r2 w5 w6 H6 H7| | | | | | |]; subst.
  inversion H6 as [|a q Hq| | | | | | | |]; subst. simpl in Hq.
  apply Ascii.eqb_eq, lower_char_question in Hq. subst q. done.
Qed.

Lemma link_text_matches (w : string) :
  Re.matches true link_text w -> ends_in_audio "?" w.
Proof.
  unfold link_text. intros H.
  inversion H as [| |r1 r2 w1 w2 H1 H2| | | | | | |]; subst.
  by apply ends_in_audio_prefix, ext_pattern_matches.
Qed.

Lemma absolute_matches (w : string) :
  Re.matches true absolute w -> ends_in_audio "?" w.
Proof.
  unfold absolute. cbn [Re.seq]. intros H.
  inversion H as [| |r1 r2 w1 w2 H1 H2| | | | | | |]; subst; clear H H1.
  inversion H2 as [| |r1 r2 w3 w4 H3 H4| | | | | | |]; subst; clear H2 H3.
  inversion H4 as [| |r1 r2 w5 w6 H5 H6| | | | | | |]; subst; clear H4 H5.
  inversion H6 as [| |r1 r2 w7 w8 H7 H8| | | | | | |]; subst; clear H6 H7.
  inversion H8 as [| |r1 r2 w9 w10 H9 H10| | | | | | |]; subst; clear H8.
  inversion H9 as [|a d Hd| | | | | | | |]; subst; clear H9.
  inversion H10 as [| |r1 r2 w11 w12 H11 H12| | | | | | |]; subst; clear H10.
  do 4 apply ends_in_audio_prefix.
  exists "", (String d w11), w12.
  split; [by sapp|]. split; [by apply dot_ext_audio|].
  inversion H12 as [| | | | | |r w' H13| | |]; subst; [done|].
  inversion H13 as [| |r1 r2 w13 w14 H14 H15| | | | | | |]; subst.
  inversion H14 as [|a q Hq| | | | | | | |]; subst. simpl in Hq.
  apply Ascii.eqb_eq, lower_char_question in Hq. subst q. done.
Qed.

(** Every text handed to [urljoin] ends in an audio extension and an
    optional query. *)
Lemma findall_ends_in_audio (html m : string) :
  m ∈ Re.findall true combined html ++ Re.findall true absolute html ->
  ends_in_audio "?" m.
Proof.
  intros [H|H]%elem_of_app.
  - apply findall_combined_sound in H as [H _]. by apply link_text_matches.
  - apply findall_absolute_sound in H as [_ H]. by apply absolute_matches.
Qed.

(** ** The Link Extractor *)

Section ExtractorFacts.
Variable host_check : string -> option string.

Lemma add_resolved_elem (base_url : string) (matches : list string) :
  forall (found found' : gset string),
    add_resolved host_check base_url matches found = Ok found' ->
    forall u, u ∈ found' <->
              u ∈ found
              \/ exists m, m ∈ matches
                           /\ UrlParse.urljoin host_check base_url m = Ok u.
Proof.
  induction matches as [|m ms IH]; intros found found' H u; simpl in H.
  - injection H as <-. split; [by left|]. intros [?|(m & []%elem_of_nil & _)]. done.
  - destruct (UrlParse.urljoin host_check base_url m) as [r|e] eqn:Hm;
      simpl in H; [|done].
    rewrite (IH _ _ H u). rewrite elem_of_union, elem_of_singleton. split.
    + intros [[->|?]|(m' & Hin & Hu)]; [right|by left|right].
      * exists m. split; [by left | done].
      * exists m'. split; [by right | done].
    + intros [?|(m' & [->|Hin]%elem_of_cons & Hu)]; [by left; right| |].
      * left; left. congruence.
      * right. by exists m'.
Qed.

Lemma add_resolved_returns (base_url : string) (matches : list string) :
  (forall m, m ∈ matches ->
             exists u, UrlParse.urljoin host_check base_url m = Ok u) ->
  forall found, exists found',
    add_resolved host_check base_url matches found = Ok found'.
Proof.
  induction matches as [|m ms IH]; intros H found; simpl; [by eexists|].
  destruct (H m) as [u ->]; [by left|]. simpl.
  apply IH. intros m' Hin. apply H. by right.
Qed.
End ExtractorFacts.

Lemma str_le_lt (a b : string) : String.le a b -> a <> b -> str_lt a b.
Proof.
  unfold String.le, String.leb, str_lt. intros Hle Hne.
  destruct (a ?= b)%string eqn:E; [|done|done].
  by apply String.compare_eq_iff in E.
Qed.

Lemma str_lt_le (a b : string) : str_lt a b -> String.le a b.
Proof. unfold String.le, String.leb, str_lt. by intros ->. Qed.

Lemma str_lt_irrefl (a : string) : ~ str_lt a a.
Proof.
  unfold str_lt. intros H.
  pose proof (String.compare_antisym a a) as E. rewrite H in E. done.
Qed.

Lemma strictly_sorted (l : list string) :
  StronglySorted String.le l -> NoDup l -> StronglySorted str_lt l.
Proof.
  induction 1 as [|a l Hl IH Ha]; intros Hnd; constructor.
  - apply IH. by apply NoDup_cons in Hnd as [_ ?].
  - apply NoDup_cons in Hnd as [Hnin _].
    rewrite List.Forall_forall in Ha |- *. intros b Hb.
    apply str_le_lt; [by apply Ha|]. intros ->.
    apply Hnin. by apply list_elem_of_In.
Qed.

Lemma strictly_sorted_NoDup (l : list string) :
  StronglySorted str_lt l -> NoDup l.
Proof.
  induction 1 as [|a l Hl IH Ha]; constructor; [|done].
  intros Hin%list_elem_of_In. rewrite List.Forall_forall in Ha.
  by apply (str_lt_irrefl a), Ha.
Qed.

Lemma strictly_sorted_le (l : list string) :
  StronglySorted str_lt l -> StronglySorted String.le l.
Proof.
  induction 1 as [|a l Hl IH Ha]; constructor; [done|].
  eapply List.Forall_impl; [|exact Ha]. intros b. apply str_lt_le.
Qed.

Lemma sorted_elements (found : gset string) :
  StronglySorted str_lt (sorted (elements found))
  /\ forall u, u ∈ sorted (elements found) <-> u ∈ found.
Proof.
  unfold sorted. split.
  - apply strictly_sorted.
    + apply StronglySorted_merge_sort; apply _.
    + rewrite merge_sort_Permutation. apply NoDup_elements.
  - intros u. rewrite merge_sort_Permutation. apply elem_of_elements.
Qed.

(** A strictly ascending list is determined by its elements. *)
Lemma strictly_sorted_unique (l l' : list string) :
  StronglySorted str_lt l -> StronglySorted str_lt l' ->
  (forall u, u ∈ l' <-> u ∈ l) -> l' = l.
Proof.
  intros Hl Hl' Hel.
  apply (StronglySorted_unique String.le);
    [by apply strictly_sorted_le | by apply strictly_sorted_le |].
  apply NoDup_Permutation; auto using strictly_sorted_NoDup.
Qed.

(** C1 (the code departs from the claim).  On the page text of the example,
    an anchor whose href attribute is move.mp3, [extract_links] finds no
    link: the pattern [combined] asks for a backslash before and after the
    equals sign.  The reference is found and resolved to
    https://x.com/sfx/move.mp3 only when the text has these backslashes. *)
Theorem C1_attribute_reference_not_matched
    (host_check : string -> option string) :
  extract_links host_check href_example "https://x.com/sfx/" = Ok []
  /\ extract_links host_check href_escaped "https://x.com/sfx/"
     = Ok ["https://x.com/sfx/move.mp3"].
Proof. split; vm_compute; reflexivity. Qed.

(** What [extract_links] returns: the resolved matches of both patterns,
    strictly ascending. *)
Lemma extract_links_elements (host_check : string -> option string)
    (html base_url : string) (l : list string) :
  extract_links host_check html base_url = Ok l ->
  StronglySorted str_lt l
  /\ forall u, u ∈ l <->
       exists m, m ∈ Re.findall true combined html
                     ++ Re.findall true absolute html
                 /\ UrlParse.urljoin host_check base_url m = Ok u.
Proof.
  unfold extract_links. intros H.
  destruct (add_resolved host_check base_url _ ∅) as [f1|] eqn:H1;
    simpl in H; [|done].
  destruct (add_resolved host_check base_url _ f1) as [f2|] eqn:H2;
    simpl in H; [|done].
  injection H as <-.
  destruct (sorted_elements f2) as [Hs He].
  split; [done|].
  intros u. rewrite He.
  rewrite (add_resolved_elem _ _ _ _ _ H2 u).
  rewrite (add_resolved_elem _ _ _ _ _ H1 u).
  split.
  - intros [[[]%elem_of_empty|(m & Hin & Hu)]|(m & Hin & Hu)];
      exists m; (split; [|done]); apply elem_of_app; auto.
  - intros (m & [Hin|Hin]%elem_of_app & Hu); [left; right|right];
      by exists m.
Qed.

(** C2.  The list returned by [extract_links] is strictly ascending in the
    order of the code points, hence sorted and without duplicates; it
    holds the resolved matches of both patterns and nothing else, and it is
    the only such list.  A page text in which no substring matches either
    pattern gives the empty list.  [extract_links] returns whenever
    [urljoin] does on every match. *)
Theorem C2_extract_links_sorted_distinct
    (host_check : string -> option string) (html base_url : string) :
  let matched := Re.findall true combined html
                 ++ Re.findall true absolute html in
  (forall l, extract_links host_check html base_url = Ok l ->
     StronglySorted str_lt l /\ Sorted String.le l /\ NoDup l
     /\ (forall u, u ∈ l <->
           exists m, m ∈ matched
                     /\ UrlParse.urljoin host_check base_url m = Ok u)
     /\ (forall l', StronglySorted str_lt l' ->
           (forall u, u ∈ l' <-> u ∈ l) -> l' = l))
  /\ ((forall w, Re.occurs_in w html ->
         ~ Re.matches true combined w /\ ~ Re.matches true absolute w) ->
      extract_links host_check html base_url = Ok [])
  /\ ((forall m, m ∈ matched ->
         exists u, UrlParse.urljoin host_check base_url m = Ok u) ->
      exists l, extract_links host_check html base_url = Ok l).
Proof.
  intros matched. split; [|unfold extract_links; split].
  - intros l H.
    destruct (extract_links_elements _ _ _ _ H) as [Hs He].
    split; [done|].
    split; [by apply StronglySorted_Sorted, strictly_sorted_le|].
    split; [by apply strictly_sorted_NoDup|].
    split; [done | intros l'; by apply strictly_sorted_unique].
  - intros Hnone.
    assert (Re.findall true combined html = []) as ->.
    { destruct (Re.findall true combined html) as [|m ms] eqn:E; [done|].
      assert (m ∈ Re.findall true combined html) as Hin by (rewrite E; by left).
      apply findall_combined_sound in Hin as [_ (w & Ho & Hm)].
      by destruct (Hnone w Ho) as [? _]. }
    assert (Re.findall true absolute html = []) as ->.
    { destruct (Re.findall true absolute html) as [|m ms] eqn:E; [done|].
      assert (m ∈ Re.findall true absolute html) as Hin by (rewrite E; by left).
      apply findall_absolute_sound in Hin as [Ho Hm].
      by destruct (Hnone m Ho) as [_ ?]. }
    simpl. unfold sorted. by rewrite elements_empty.
  - intros Hall.
    destruct (add_resolved_returns host_check base_url
                (Re.findall true combined html)) with (found := (∅ : gset string))
      as [f1 ->].
    { intros m Hin. apply Hall, elem_of_app. by left. }
    simpl.
    destruct (add_resolved_returns host_check base_url
                (Re.findall true absolute html)) with (found := f1)
      as [f2 ->].
    { intros m Hin. apply Hall, elem_of_app. by right. }
    simpl. by eexists.
Qed.

(** ** [urljoin] keeps the audio extension at the end *)

Lemma plain_lower_char (d : ascii) :
  plain (Str.lower_char d) = true -> plain d = true.
Proof. destruct d as [[] [] [] [] [] [] [] []]; vm_compute; congruence. Qed.

Lemma plain_lower (e : string) :
  Str.all_chars plain (Str.lower e) = true -> Str.all_chars plain e = true.
Proof.
  induction e as [|d e IH]; simpl; [done|].
  intros [Hd He]%andb_true_iff. by rewrite plain_lower_char, IH.
Qed.

Lemma audio_extension_plain (e : string) :
  audio_extension e ->
  Str.all_chars plain e = true /\ exists d e', e = String d e'.
Proof.
  unfold audio_extension, AUDIO_EXTENSIONS. intros H. split.
  - apply plain_lower.
    repeat (apply elem_of_cons in H as [->|H]; [by vm_compute|]).
    by apply elem_of_nil in H.
  - destruct e as [|d e']; [|by eauto].
    simpl in H.
    repeat (apply elem_of_cons in H as [?|H]; [done|]).
    by apply elem_of_nil in H.
Qed.

Lemma plain_not_mem (c : ascii) (e : string) :
  Str.mem c ":/?#;" = true -> Str.all_chars plain e = true ->
  Str.mem c e = false.
Proof.
  intros Hc. induction e as [|d e IH]; simpl; [done|].
  intros [Hd He]%andb_true_iff.
  destruct (Ascii.eqb_spec c d) as [->|]; [|by apply IH].
  unfold plain in Hd. rewrite Hc in Hd. by rewrite andb_false_r in Hd.
Qed.

(** *** Splitting a text that is written as an append *)

Lemma partition_some (c : ascii) (s x y : string) :
  Str.partition c s = Some (x, y) ->
  s = x +:+ String c y /\ Str.mem c x = false.
Proof.
  revert x y. induction s as [|d s IH]; intros x y; simpl; [done|].
  destruct (Ascii.eqb_spec d c) as [->|Hne].
  - intros [= <- <-]. by sapp.
  - destruct (Str.partition c s) as [[a b]|]; [|done].
    intros [= <- <-]. destruct (IH a b eq_refl) as [-> Hm].
    sapp. split; [done|]. simpl.
    destruct (Ascii.eqb_spec c d); [congruence | done].
Qed.

Lemma partition_none (c : ascii) (s : string) :
  Str.partition c s = None <-> Str.mem c s = false.
Proof.
  induction s as [|d s IH]; simpl; [done|].
  rewrite (Ascii.eqb_sym c d).
  destruct (Ascii.eqb d c); [done|].
  destruct (Str.partition c s) as [[a b]|]; [|tauto].
  split; [done|]. intros H. apply IH in H. done.
Qed.

Lemma partition_app_l (c : ascii) (a b x y : string) :
  Str.partition c a = Some (x, y) ->
  Str.partition c (a +:+ b) = Some (x, y +:+ b).
Proof.
  revert x y. induction a as [|d a IH]; intros x y; ssimpl; [done|].
  simpl. destruct (Ascii.eqb d c); [by intros [= <- <-]|].
  destruct (Str.partition c a) as [[u v]|]; [|done].
  intros [= <- <-]. by rewrite (IH u v).
Qed.

Lemma partition_app_r (c : ascii) (a b : string) :
  Str.partition c a = None ->
  Str.partition c (a +:+ b)
  = match Str.partition c b with
    | Some (x, y) => Some (a +:+ x, y)
    | None => None
    end.
Proof.
  induction a as [|d a IH]; ssimpl.
  - intros _. by destruct (Str.partition c b) as [[x y]|].
  - simpl. destruct (Ascii.eqb d c); [done|].
    destruct (Str.partition c a) as [[u v]|]; [done|].
    intros _. rewrite IH by done.
    by destruct (Str.partition c b) as [[x y]|].
Qed.

(** A text that ends in an extension and a part [r], split at the first
    [c]: the extension stays whole, in the second half or in the first. *)
Lemma partition_audio (c : ascii) (p e r x y : string) :
  Str.mem c e = false ->
  Str.partition c (p +:+ e +:+ r) = Some (x, y) ->
  (exists p', y = p' +:+ e +:+ r)
  \/ (exists r1, x = p +:+ e +:+ r1 /\ r = r1 +:+ String c y
                 /\ Str.mem c r1 = false).
Proof.
  intros He H.
  destruct (Str.partition c p) as [[u v]|] eqn:Hp.
  - rewrite (partition_app_l _ _ _ _ _ Hp) in H. injection H as <- <-.
    left. by exists v.
  - rewrite (partition_app_r _ _ _ Hp) in H.
    apply partition_none in He.
    rewrite (partition_app_r _ _ _ He) in H.
    destruct (Str.partition c r) as [[u v]|] eqn:Hr; [|done].
    injection H as <- <-. right. exists u.
    apply partition_some in Hr as [-> Hu]. done.
Qed.

Lemma lstrip_app_stop (f : ascii -> bool) (a : string) (c : ascii) (t : string) :
  f c = false ->
  Str.lstrip f (a +:+ String c t) = Str.lstrip f a +:+ String c t.
Proof.
  intros Hc. induction a as [|d a IH]; ssimpl.
  - simpl. by rewrite Hc.
  - simpl. destruct (f d); [exact IH | done].
Qed.

Lemma remove_app (f : ascii -> bool) (a b : string) :
  Str.remove f (a +:+ b) = Str.remove f a +:+ Str.remove f b.
Proof.
  induction a as [|d a IH]; ssimpl; [done|].
  simpl. destruct (f d); [exact IH | sapp; by rewrite IH].
Qed.

Lemma remove_id (f : ascii -> bool) (e : string) :
  Str.all_chars (fun c => negb (f c)) e = true -> Str.remove f e = e.
Proof.
  induction e as [|d e IH]; simpl; [done|].
  intros [Hd He]%andb_true_iff. apply negb_true_iff in Hd.
  rewrite Hd. by rewrite IH.
Qed.

Lemma all_chars_impl (f g : ascii -> bool) (e : string) :
  (forall c, f c = true -> g c = true) ->
  Str.all_chars f e = true -> Str.all_chars g e = true.
Proof.
  intros Hfg. induction e as [|d e IH]; simpl; [done|].
  intros [Hd He]%andb_true_iff. by rewrite Hfg, IH.
Qed.

Lemma plain_safe (c : ascii) :
  plain c = true -> negb (UrlParse.unsafe_char c) = true.
Proof. destruct c as [[] [] [] [] [] [] [] []]; vm_compute; congruence. Qed.

Lemma plain_not_c0 (c : ascii) :
  plain c = true -> UrlParse.c0_control_or_space c = false.
Proof. unfold plain. intros [H _]%andb_true_iff. by apply negb_true_iff. Qed.

Lemma tail_ok_remove (r : string) :
  tail_ok "?" r = true -> tail_ok "?" (Str.remove UrlParse.unsafe_char r) = true.
Proof.
  destruct r as [|c r]; simpl; [done|].
  destruct (Ascii.eqb_spec c "?") as [->|]; [|done]. done.
Qed.

(** The text of the reference once [urlsplit] has stripped it. *)
Lemma cleaned_audio (p e r : string) :
  audio_extension e -> tail_ok "?" r = true ->
  exists p' r',
    Str.remove UrlParse.unsafe_char
      (Str.lstrip UrlParse.c0_control_or_space (p +:+ e +:+ r))
    = p' +:+ e +:+ r'
    /\ tail_ok "?" r' = true.
Proof.
  intros He Hr. destruct (audio_extension_plain e He) as [Hpl (d & e' & ->)].
  simpl in Hpl. apply andb_true_iff in Hpl as [Hd He'].
  sapp. rewrite lstrip_app_stop by by apply plain_not_c0.
  change (String d (e' +:+ r)) with (String d e' +:+ r).
  rewrite !remove_app.
  rewrite (remove_id _ (String d e')).
  - eexists _, _. split; [done|]. by apply tail_ok_remove.
  - simpl. rewrite (plain_safe d Hd). simpl.
    eapply all_chars_impl; [|exact He']. apply plain_safe.
Qed.

(** *** [urlsplit] *)

Lemma tail_ok_question (r : string) :
  tail_ok "?" r = true -> r = "" \/ exists r', r = String "?" r'.
Proof.
  destruct r as [|c r]; simpl; [by left|].
  destruct (Ascii.eqb_spec c "?") as [->|]; [|done]. right. by eexists.
Qed.

Lemma split_scheme_audio (p e r default : string) :
  audio_extension e -> tail_ok "?" r = true ->
  exists p', snd (UrlParse.split_scheme (p +:+ e +:+ r) default)
             = p' +:+ e +:+ r.
Proof.
  intros He Hr. destruct (audio_extension_plain e He) as [Hpl _].
  unfold UrlParse.split_scheme.
  destruct (Str.partition ":" (p +:+ e +:+ r)) as [[x y]|] eqn:H;
    [|by exists p].
  destruct x as [|c pre]; [by exists p|].
  destruct (Str.is_ascii_alpha c && _) eqn:Hvalid; [|by exists p].
  apply andb_true_iff in Hvalid as [_ Hvalid]. simpl.
  apply partition_audio in H as [[p' ->]|(r1 & Hx & -> & _)];
    [by exists p' | | by apply plain_not_mem].
  exfalso. rewrite Hx in Hvalid.
  apply tail_ok_question in Hr as [Hr|[r' Hr]].
  - by destruct r1.
  - destruct r1 as [|c1 r1]; [done|]. rewrite str_app_cons in Hr.
    injection Hr as -> _.
    rewrite !all_chars_app in Hvalid.
    apply andb_true_iff in Hvalid as [_ [_ Hvalid]%andb_true_iff].
    simpl in Hvalid. done.
Qed.

Lemma startswith_slashes (s : string) :
  Str.startswith s "//" = true ->
  exists t, s = String "/" (String "/" t).
Proof.
  unfold Str.startswith. intros H%String.prefix_correct.
  destruct s as [|a [|b t]]; simpl in H; try done.
  injection H as -> ->. by eexists.
Qed.

Lemma drop_slashes_audio (p e r : string) :
  audio_extension e ->
  Str.startswith (p +:+ e +:+ r) "//" = true ->
  exists p', Str.drop 2 (p +:+ e +:+ r) = p' +:+ e +:+ r.
Proof.
  intros He [t Ht]%startswith_slashes.
  destruct (audio_extension_plain e He) as [Hpl (d & e' & ->)].
  simpl in Hpl. apply andb_true_iff in Hpl as [Hd _].
  destruct p as [|a [|b p']]; revert Ht; sapp.
  - intros [= -> _]. done.
  - intros [= _ -> _]. done.
  - intros _. by exists p'.
Qed.

Lemma plain_not_delim (d : ascii) :
  plain d = true -> Str.mem d "/?#" = false.
Proof. destruct d as [[] [] [] [] [] [] [] []]; vm_compute; congruence. Qed.

Lemma splitnetloc_plain (e r : string) :
  Str.all_chars plain e = true -> tail_ok "?" r = true ->
  UrlParse.splitnetloc (e +:+ r) = (e, r).
Proof.
  intros He Hr. induction e as [|d e IH]; sapp.
  - apply tail_ok_question in Hr as [->|[r' ->]]; done.
  - simpl in He. apply andb_true_iff in He as [Hd He].
    cbn [UrlParse.splitnetloc].
    by rewrite (plain_not_delim d Hd), (IH He).
Qed.

Lemma splitnetloc_audio (p e r : string) :
  Str.all_chars plain e = true -> tail_ok "?" r = true ->
  (exists p', snd (UrlParse.splitnetloc (p +:+ e +:+ r)) = p' +:+ e +:+ r)
  \/ UrlParse.splitnetloc (p +:+ e +:+ r) = (p +:+ e, r).
Proof.
  intros He Hr. induction p as [|c p IH]; sapp.
  - right. by apply splitnetloc_plain.
  - cbn [UrlParse.splitnetloc]. destruct (Str.mem c "/?#").
    + left. by exists (String c p).
    + destruct IH as [[p' IH]|IH].
      * left. exists p'. by destruct (UrlParse.splitnetloc _).
      * right. by rewrite IH.
Qed.

Lemma ends_in_audio_intro (seps p e r : string) :
  audio_extension e -> tail_ok seps r = true ->
  ends_in_audio seps (p +:+ e +:+ r).
Proof. intros. by exists p, e, r. Qed.

(** The split at the number sign and at the question mark, for a text in
    which the extension is still ahead. *)
Lemma split_rest_audio (sch nl p e r : string) :
  audio_extension e -> tail_ok "?" r = true ->
  carried
    (let (url, frag) :=
       match Str.partition "#" (p +:+ e +:+ r) with
       | Some (a, b) => (a, b)
       | None => (p +:+ e +:+ r, "")
       end in
     let (url, q) :=
       match Str.partition "?" url with
       | Some (a, b) => (a, b)
       | None => (url, "")
       end in
     UrlParse.mkSplit sch nl url q frag).
Proof.
  intros He Hr. destruct (audio_extension_plain e He) as [Hpl _].
  assert (forall r1 frag, tail_ok "?" r1 = true ->
            carried
              (let (url, q) :=
                 match Str.partition "?" (p +:+ e +:+ r1) with
                 | Some (a, b) => (a, b)
                 | None => (p +:+ e +:+ r1, "")
                 end in
               UrlParse.mkSplit sch nl url q frag)) as Hquery.
  { intros r1 frag Hr1.
    destruct (Str.partition "?" (p +:+ e +:+ r1)) as [[x y]|] eqn:H.
    - apply partition_audio in H as [[p' ->]|(r2 & -> & -> & Hr2)];
        [| |by apply plain_not_mem].
      + apply in_query. simpl. by apply ends_in_audio_intro.
      + destruct r2 as [|c r2].
        * apply (in_path _ p e); [simpl; by rewrite str_app_nil_r | done].
        * exfalso. simpl in Hr1, Hr2.
          destruct (Ascii.eqb_spec c "?") as [->|]; [|done]. done.
    - apply partition_none in H. rewrite !mem_app in H.
      apply orb_false_iff in H as [_ [_ H]%orb_false_iff].
      apply tail_ok_question in Hr1 as [->|[r' ->]]; [|done].
      apply (in_path _ p e); [simpl; by rewrite str_app_nil_r | done]. }
  destruct (Str.partition "#" (p +:+ e +:+ r)) as [[x y]|] eqn:H.
  - apply partition_audio in H as [[p' ->]|(r1 & -> & -> & Hr1)];
      [| |by apply plain_not_mem].
    + destruct (match Str.partition "?" x with
                | Some (a, b) => (a, b) | None => (x, "") end) as [url q].
      apply in_fragment. simpl. by apply ends_in_audio_intro.
    + apply Hquery. destruct r1 as [|c r1]; [done|].
      by rewrite str_app_cons in Hr.
  - by apply Hquery.
Qed.

Lemma split_rest_result (sch nl s : string) (res : UrlParse.SplitResult) :
  (let (url, frag) :=
     match Str.partition "#" s with
     | Some (a, b) => (a, b)
     | None => (s, "")
     end in
   let (url, q) :=
     match Str.partition "?" url with
     | Some (a, b) => (a, b)
     | None => (url, "")
     end in
   Ok (UrlParse.mkSplit sch nl url q frag)) = Ok res ->
  res = (let (url, frag) :=
           match Str.partition "#" s with
           | Some (a, b) => (a, b)
           | None => (s, "")
           end in
         let (url, q) :=
           match Str.partition "?" url with
           | Some (a, b) => (a, b)
           | None => (url, "")
           end in
         UrlParse.mkSplit sch nl url q frag).
Proof.
  destruct (match Str.partition "#" s with
            | Some (a, b) => (a, b) | None => (s, "") end) as [url frag].
  destruct (match Str.partition "?" url with
            | Some (a, b) => (a, b) | None => (url, "") end) as [url' q].
  congruence.
Qed.

Lemma urlsplit_audio (host_check : string -> option string)
    (m default : string) (res : UrlParse.SplitResult) :
  ends_in_audio "?" m ->
  UrlParse.urlsplit host_check m default = Ok res ->
  carried res.
Proof.
  intros (p & e & r & -> & He & Hr). unfold UrlParse.urlsplit.
  destruct (cleaned_audio p e r He Hr) as (p1 & r1 & -> & Hr1).
  set (dflt := Str.remove _ _).
  destruct (split_scheme_audio p1 e r1 dflt He Hr1) as [p2 Hs].
  destruct (UrlParse.split_scheme (p1 +:+ e +:+ r1) dflt) as [sch rest].
  simpl in Hs. subst rest.
  destruct (audio_extension_plain e He) as [Hpl _].
  destruct (Str.startswith (p2 +:+ e +:+ r1) "//") eqn:Hsl.
  - destruct (drop_slashes_audio p2 e r1 He Hsl) as [p3 ->].
    destruct (splitnetloc_audio p3 e r1 Hpl Hr1) as [[p4 Hn]|Hn].
    + destruct (UrlParse.splitnetloc (p3 +:+ e +:+ r1)) as [nl rest].
      simpl in Hn. subst rest.
      destruct (UrlParse.check_netloc host_check nl); simpl; [|done].
      intros ->%split_rest_result. by apply split_rest_audio.
    + rewrite Hn.
      destruct (UrlParse.check_netloc host_check (p3 +:+ e)); simpl; [|done].
      intros ->%split_rest_result.
      apply tail_ok_question in Hr1 as [->|[r' ->]]; simpl.
      * by apply (in_netloc _ p3 e).
      * destruct (Str.partition "#" r') as [[x y]|]; simpl;
          by apply (in_netloc _ p3 e).
  - destruct (UrlParse.check_netloc host_check ""); simpl; [|done].
    intros ->%split_rest_result. by apply split_rest_audio.
Qed.

(** *** [urlparse] *)

(** From here on [simpl] leaves the comparison of characters alone. *)
#[global] Arguments Ascii.eqb : simpl never.

Lemma last_segment_plain (e : string) :
  Str.mem "/" e = false -> UrlParse.last_segment e = ("", e).
Proof.
  induction e as [|d e IH]; simpl; [done|].
  destruct (Ascii.eqb_spec "/" d) as [<-|Hne]; [done|].
  intros He. rewrite (IH He). simpl.
  destruct (Ascii.eqb_spec d "/"); [congruence | done].
Qed.

Lemma last_segment_app (e : string) :
  Str.mem "/" e = false ->
  forall p,
    UrlParse.last_segment (p +:+ e)
    = (fst (UrlParse.last_segment p), snd (UrlParse.last_segment p) +:+ e).
Proof.
  intros He. induction p as [|c p IH]; sapp.
  - by rewrite last_segment_plain.
  - cbn [UrlParse.last_segment]. rewrite IH.
    destruct (UrlParse.last_segment p) as [dir seg]. simpl.
    by destruct (Ascii.eqb c "/" || Str.nonempty dir).
Qed.

Lemma splitparams_audio (p e : string) :
  audio_extension e ->
  (exists p', snd (UrlParse.splitparams (p +:+ e)) = p' +:+ e)
  \/ UrlParse.splitparams (p +:+ e) = (p +:+ e, "").
Proof.
  intros He. destruct (audio_extension_plain e He) as [Hpl _].
  unfold UrlParse.splitparams.
  rewrite last_segment_app by by apply plain_not_mem.
  destruct (UrlParse.last_segment p) as [dir seg]. simpl.
  destruct (Str.partition ";" (seg +:+ e)) as [[a b]|] eqn:H; [|by right].
  left. rewrite <- (str_app_nil_r e) in H.
  apply partition_audio in H as [[p' ->]|(r1 & _ & Hr & _)];
    [| |by apply plain_not_mem].
  - exists p'. simpl. by rewrite str_app_nil_r.
  - by destruct r1.
Qed.

Lemma urlparse_audio (host_check : string -> option string)
    (m default : string) (u : UrlParse.ParseResult) :
  ends_in_audio "?" m ->
  UrlParse.urlparse host_check m default = Ok u ->
  carried6 u.
Proof.
  intros Hm. unfold UrlParse.urlparse.
  destruct (UrlParse.urlsplit host_check m default) as [res|] eqn:Hs;
    cbn [rbind]; [|done].
  apply (urlsplit_audio _ _ _ _ Hm) in Hs.
  destruct Hs as [Hf|Hq|p e Hp He|p e Hn He Hp].
  - destruct (UrlParse.member _ _ && _);
      [destruct (UrlParse.splitparams _) as [url par]|];
      intros [= <-]; by apply c_fragment.
  - destruct (UrlParse.member _ _ && _);
      [destruct (UrlParse.splitparams _) as [url par]|];
      intros [= <-]; by apply c_query.
  - rewrite Hp.
    destruct (UrlParse.member _ _ && _).
    + destruct (splitparams_audio p e He) as [[p' H]|H].
      * destruct (UrlParse.splitparams (p +:+ e)) as [url par].
        simpl in H. subst par. intros [= <-]. by apply (c_params _ p' e).
      * rewrite H. intros [= <-]. by apply (c_path _ p e).
    + intros [= <-]. by apply (c_path _ p e).
  - rewrite Hp. simpl. rewrite andb_false_r. intros [= <-].
    by apply (c_netloc _ p e).
Qed.

(** *** [urlunparse] *)

Lemma urlunsplit_parts (sch nl url q frag : string) :
  exists pre,
    UrlParse.urlunsplit sch nl url q frag
    = pre +:+ (if Str.nonempty url then url else nl)
      +:+ query_part q +:+ fragment_part frag.
Proof.
  unfold UrlParse.urlunsplit, query_part, fragment_part.
  remember (Str.nonempty nl || _) as c eqn:Hc.
  assert (exists pre0,
            (if c then "//" +:+ nl
                       +:+ (if Str.nonempty url && negb (Str.startswith url "/")
                            then "/" +:+ url else url)
             else url)
            = pre0 +:+ (if Str.nonempty url then url else nl)) as [pre0 ->].
  { destruct c.
    - destruct (Str.nonempty url && negb (Str.startswith url "/")) eqn:Hb;
        destruct (Str.nonempty url) eqn:Hu; try done.
      + exists ("//" +:+ nl +:+ "/"). by rewrite !str_app_assoc.
      + exists ("//" +:+ nl). by rewrite !str_app_assoc.
      + destruct url; [|done]. exists "//". by rewrite str_app_nil_r.
    - symmetry in Hc. apply orb_false_iff in Hc as [Hnl _].
      destruct nl; [|done]. exists "". by destruct url. }
  exists ((if Str.nonempty sch then sch +:+ ":" else "") +:+ pre0).
  destruct (Str.nonempty sch), (Str.nonempty q), (Str.nonempty frag);
    rewrite ?str_app_assoc, ?str_app_nil_r; sapp; reflexivity.
Qed.

Lemma tail_ok_parts (q frag : string) :
  tail_ok "?#" (query_part q +:+ fragment_part frag) = true.
Proof.
  unfold query_part, fragment_part.
  by destruct (Str.nonempty q), (Str.nonempty frag).
Qed.

Lemma nonempty_app_r (a b : string) :
  Str.nonempty b = true -> Str.nonempty (a +:+ b) = true.
Proof. destruct a; [by sapp | done]. Qed.

Lemma audio_nonempty (p e r : string) :
  audio_extension e -> Str.nonempty (p +:+ e +:+ r) = true.
Proof.
  intros He. destruct (audio_extension_plain e He) as [_ (d & e' & ->)].
  by apply nonempty_app_r.
Qed.

Lemma nonempty_audio_end (p e : string) :
  audio_extension e -> Str.nonempty (p +:+ e) = true.
Proof.
  intros He. rewrite <- (str_app_nil_r e). by apply audio_nonempty.
Qed.

Lemma ends_in_audio_nonempty (seps s : string) :
  ends_in_audio seps s -> Str.nonempty s = true.
Proof. intros (p & e & r & -> & He & _). by apply audio_nonempty. Qed.

Lemma tail_ok_app_parts (r frag : string) :
  tail_ok "?" r = true -> tail_ok "?#" (r +:+ fragment_part frag) = true.
Proof.
  intros [->|[r' ->]]%tail_ok_question; [|done].
  sapp. unfold fragment_part. by destruct (Str.nonempty frag).
Qed.

Lemma urlunparse_audio (u : UrlParse.ParseResult) :
  carried6 u -> ends_in_audio "?#" (UrlParse.urlunparse u).
Proof.
  intros Hu. unfold UrlParse.urlunparse.
  set (url := if Str.nonempty (UrlParse.params u) then _ else _).
  destruct (urlunsplit_parts (UrlParse.scheme u) (UrlParse.netloc u) url
              (UrlParse.query u) (UrlParse.fragment u)) as [pre ->].
  destruct Hu as [Hf|Hq|p e Hp He Hpar|p e Hpar He|p e Hn He Hp Hpar].
  - rewrite <- !str_app_assoc. unfold fragment_part.
    rewrite (ends_in_audio_nonempty _ _ Hf).
    rewrite <- str_app_assoc. apply ends_in_audio_prefix.
    by apply (ends_in_audio_mono "?" "#").
  - unfold query_part. rewrite (ends_in_audio_nonempty _ _ Hq).
    destruct Hq as (p & e & r & -> & He & Hr).
    exists (pre +:+ (if Str.nonempty url then url else UrlParse.netloc u)
            +:+ "?" +:+ p), e, (r +:+ fragment_part (UrlParse.fragment u)).
    split; [by rewrite !str_app_assoc|].
    split; [done | by apply tail_ok_app_parts].
  - subst url. rewrite Hpar, Hp. cbn [Str.nonempty].
    rewrite (nonempty_audio_end p e He).
    exists (pre +:+ p), e, (query_part (UrlParse.query u)
                            +:+ fragment_part (UrlParse.fragment u)).
    split; [by rewrite !str_app_assoc|].
    split; [done | apply tail_ok_parts].
  - subst url. rewrite Hpar. rewrite (nonempty_audio_end p e He).
    rewrite <- !str_app_assoc. rewrite (nonempty_audio_end _ e He).
    exists (pre +:+ UrlParse.path u +:+ ";" +:+ p), e,
      (query_part (UrlParse.query u) +:+ fragment_part (UrlParse.fragment u)).
    split; [by rewrite !str_app_assoc|].
    split; [done | apply tail_ok_parts].
  - subst url. rewrite Hpar, Hp, Hn. cbn [Str.nonempty].
    exists (pre +:+ p), e, (query_part (UrlParse.query u)
                            +:+ fragment_part (UrlParse.fragment u)).
    split; [by rewrite !str_app_assoc|].
    split; [done | apply tail_ok_parts].
Qed.

(** *** [urljoin] *)

Lemma member_spec (s : string) (l : list string) :
  UrlParse.member s l = true <-> s ∈ l.
Proof.
  unfold UrlParse.member. rewrite existsb_exists. split.
  - intros (x & Hin & ->%String.eqb_eq). by apply list_elem_of_In.
  - intros Hin. exists s. split; [by apply list_elem_of_In|].
    apply String.eqb_refl.
Qed.

Lemma relative_uses_netloc (s : string) :
  UrlParse.member s UrlParse.uses_relative = true ->
  UrlParse.member s UrlParse.uses_netloc = true.
Proof.
  intros H%member_spec.
  assert (forallb (fun x => UrlParse.member x UrlParse.uses_netloc)
            UrlParse.uses_relative = true) as Hall by (vm_compute; reflexivity).
  rewrite forallb_forall in Hall. by apply Hall, list_elem_of_In.
Qed.

Lemma split_last_audio (e : string) :
  Str.mem "/" e = false ->
  forall p, exists xs seg, Str.split "/" (p +:+ e) = xs ++ [seg +:+ e].
Proof.
  intros He.
  assert (Str.split "/" e = [e]) as Hbase.
  { revert He. clear. induction e as [|d e IH]; simpl; [done|].
    rewrite (Ascii.eqb_sym "/" d). destruct (Ascii.eqb d "/"); [done|].
    intros He. by rewrite (IH He). }
  induction p as [|c p (xs & seg & IH)]; sapp.
  - exists [], "". by rewrite Hbase.
  - cbn [Str.split]. rewrite IH. destruct (Ascii.eqb c "/").
    + by exists ("" :: xs), seg.
    + destruct xs as [|x xs]; simpl.
      * by exists [], (String c seg).
      * by exists (String c x :: xs), seg.
Qed.

Lemma drop_empty_inner_last (ys : list string) (z : string) :
  exists ys', UrlParse.drop_empty_inner (ys ++ [z]) = ys' ++ [z].
Proof.
  destruct ys as [|first ys]; [by exists []|].
  simpl. destruct (ys ++ [z]) as [|y rest] eqn:E; [by destruct ys|].
  rewrite <- E. rewrite removelast_last, last_last.
  by exists (first :: List.filter Str.nonempty ys).
Qed.

Lemma resolve_last (ys : list string) (z : string) :
  String.eqb z ".." = false -> String.eqb z "." = false ->
  forall acc, exists ws, UrlParse.resolve (ys ++ [z]) acc = ws ++ [z].
Proof.
  intros H1 H2. induction ys as [|y ys IH]; intros acc; simpl.
  - rewrite H1, H2. by exists acc.
  - destruct (String.eqb y ".."); [apply IH|].
    destruct (String.eqb y "."); apply IH.
Qed.

Lemma join_last (sep : string) (ws : list string) (z : string) :
  exists pre, Str.join sep (ws ++ [z]) = pre +:+ z.
Proof.
  induction ws as [|w ws [pre IH]]; simpl.
  - by exists "".
  - destruct (ws ++ [z]) as [|x rest] eqn:E; [by destruct ws|].
    rewrite IH. exists (w +:+ sep +:+ pre). by rewrite !str_app_assoc.
Qed.

Lemma audio_extension_length (e : string) :
  audio_extension e -> 4 <= String.length e.
Proof.
  unfold audio_extension, AUDIO_EXTENSIONS. intros H.
  rewrite <- lower_length.
  repeat (apply elem_of_cons in H as [->|H]; [simpl; lia|]).
  by apply elem_of_nil in H.
Qed.

Lemma audio_segment_not_dots (seg e : string) :
  audio_extension e ->
  String.eqb (seg +:+ e) ".." = false /\ String.eqb (seg +:+ e) "." = false.
Proof.
  intros He%audio_extension_length.
  split; apply String.eqb_neq; intros H;
    apply (f_equal String.length) in H;
    rewrite str_app_length in H; simpl in H; lia.
Qed.

(** The path that [urljoin] builds from a path ending in an extension
    ends in this extension. *)
Lemma resolved_path_audio (bpath p e : string) :
  audio_extension e ->
  let base_parts := Str.split "/" bpath in
  let base_parts :=
    if Str.nonempty (List.last base_parts "")
    then removelast base_parts else base_parts in
  let segments :=
    if Str.startswith (p +:+ e) "/" then Str.split "/" (p +:+ e)
    else UrlParse.drop_empty_inner (base_parts ++ Str.split "/" (p +:+ e)) in
  let resolved := UrlParse.resolve segments [] in
  let resolved :=
    if UrlParse.member (List.last segments "") ["."; ".."]
    then resolved ++ [""] else resolved in
  let joined := Str.join "/" resolved in
  exists p', (if Str.nonempty joined then joined else "/") = p' +:+ e.
Proof.
  intros He base_parts0 base_parts segments.
  destruct (audio_extension_plain e He) as [Hpl _].
  destruct (split_last_audio e (plain_not_mem "/" e eq_refl Hpl) p)
    as (xs & seg & Hsplit).
  destruct (audio_segment_not_dots seg e He) as [Hdd Hd].
  assert (exists ys, segments = ys ++ [seg +:+ e]) as [ys ->].
  { subst segments. rewrite Hsplit.
    destruct (Str.startswith (p +:+ e) "/"); [by exists xs|].
    rewrite app_assoc. apply drop_empty_inner_last. }
  rewrite last_last.
  assert (UrlParse.member (seg +:+ e) ["."; ".."] = false) as ->.
  { unfold UrlParse.member. simpl. by rewrite Hd, Hdd. }
  destruct (resolve_last ys (seg +:+ e) Hdd Hd []) as [ws ->].
  cbv zeta. destruct (join_last "/" ws (seg +:+ e)) as [pre ->].
  rewrite <- str_app_assoc. rewrite (nonempty_audio_end _ e He).
  by eexists.
Qed.

(** Resolving a reference that ends in an audio extension and an optional
    query gives a URL that ends in the extension, followed by nothing or
    by a part that begins with a question mark or a number sign. *)
Lemma urljoin_keeps_audio (host_check : string -> option string)
    (base m u : string) :
  ends_in_audio "?" m ->
  UrlParse.urljoin host_check base m = Ok u ->
  ends_in_audio "?#" u.
Proof.
  intros Hm. unfold UrlParse.urljoin.
  destruct (negb (Str.nonempty base));
    [intros [= <-]; by apply (ends_in_audio_mono "?" "#")|].
  rewrite (ends_in_audio_nonempty _ _ Hm). cbn [negb].
  destruct (UrlParse.urlparse host_check base "") as [b|]; cbn [rbind];
    [|done].
  destruct (UrlParse.urlparse host_check m (UrlParse.scheme b)) as [r|] eqn:Hr;
    cbn [rbind]; [|done].
  apply (urlparse_audio _ _ _ _ Hm) in Hr.
  destruct (negb (String.eqb _ _) || negb (UrlParse.member _ _)) eqn:Hsch;
    [intros [= <-]; by apply (ends_in_audio_mono "?" "#")|].
  apply orb_false_iff in Hsch as [_ Hrel%negb_false_iff].
  rewrite (relative_uses_netloc _ Hrel). cbn [andb].
  destruct (Str.nonempty (UrlParse.netloc r)) eqn:Hnl;
    [intros [= <-]; by apply urlunparse_audio|].
  destruct (negb (Str.nonempty (UrlParse.path r))
            && negb (Str.nonempty (UrlParse.params r))) eqn:He;
    intros [= <-]; apply urlunparse_audio.
  - apply andb_true_iff in He as [Hp%negb_true_iff Hpar%negb_true_iff].
    destruct Hr as [Hf|Hq|p e Hp' He'|p e Hpar' He'|p e Hn He' _ _].
    + by apply c_fragment.
    + apply c_query. cbn. by rewrite (ends_in_audio_nonempty _ _ Hq).
    + rewrite Hp', (nonempty_audio_end p e He') in Hp. done.
    + rewrite Hpar', (nonempty_audio_end p e He') in Hpar. done.
    + rewrite Hn, (nonempty_audio_end p e He') in Hnl. done.
  - destruct Hr as [Hf|Hq|p e Hp' He' Hpar|p e Hpar' He'|p e Hn He' _ _].
    + by apply c_fragment.
    + by apply c_query.
    + rewrite Hp'.
      destruct (resolved_path_audio (UrlParse.path b) p e He') as [p' Hres].
      by apply (c_path _ p' e).
    + by apply (c_params _ p e).
    + rewrite Hn, (nonempty_audio_end p e He') in Hnl. done.
Qed.

(** ** [urljoin] keeps the query behind the extension *)

Lemma kept_query_spec (q : string) :
  kept_query q = true ->
  Str.nonempty q = true /\ Str.mem "#" q = false
  /\ Str.remove UrlParse.unsafe_char q = q.
Proof.
  unfold kept_query.
  intros [[Hn Hm%negb_true_iff]%andb_true_iff Hs]%andb_true_iff.
  split; [done|]. split; [done|]. by apply remove_id.
Qed.

Lemma cleaned_with (p e q : string) :
  audio_extension e -> Str.remove UrlParse.unsafe_char q = q ->
  exists p',
    Str.remove UrlParse.unsafe_char
      (Str.lstrip UrlParse.c0_control_or_space (p +:+ e +:+ String "?" q))
    = p' +:+ e +:+ String "?" q.
Proof.
  intros He Hq. destruct (audio_extension_plain e He) as [Hpl (d & e' & ->)].
  simpl in Hpl. apply andb_true_iff in Hpl as [Hd He'].
  sapp. rewrite lstrip_app_stop by by apply plain_not_c0.
  change (String d (e' +:+ String "?" q)) with (String d e' +:+ String "?" q).
  rewrite !remove_app.
  rewrite (remove_id _ (String d e')).
  - eexists. f_equal. f_equal. cbn [Str.remove].
    change (UrlParse.unsafe_char "?") with false. cbn iota. by rewrite Hq.
  - simpl. rewrite (plain_safe d Hd). simpl.
    eapply all_chars_impl; [|exact He']. apply plain_safe.
Qed.

(** The split at the number sign and at the question mark, for a text in
    which the extension and its query are still ahead. *)
Lemma split_rest_with (sch nl p e q : string) :
  audio_extension e -> Str.mem "#" q = false ->
  carried_with e q
    (let (url, frag) :=
       match Str.partition "#" (p +:+ e +:+ String "?" q) with
       | Some (a, b) => (a, b)
       | None => (p +:+ e +:+ String "?" q, "")
       end in
     let (url, q) :=
       match Str.partition "?" url with
       | Some (a, b) => (a, b)
       | None => (url, "")
       end in
     UrlParse.mkSplit sch nl url q frag).
Proof.
  intros He Hq. destruct (audio_extension_plain e He) as [Hpl _].
  destruct (Str.partition "#" (p +:+ e +:+ String "?" q)) as [[x y]|] eqn:H.
  - apply partition_audio in H as [[p' ->]|(r1 & _ & Hr & _)];
      [| |by apply plain_not_mem].
    + destruct (match Str.partition "?" x with
                | Some (a, b) => (a, b) | None => (x, "") end) as [url q0].
      by apply (with_fragment _ _ _ p').
    + exfalso. apply (f_equal (Str.mem "#")) in Hr.
      rewrite mem_app in Hr. cbn [Str.mem] in Hr.
      change (Ascii.eqb "#" "?") with false in Hr. rewrite Hq in Hr.
      change (Ascii.eqb "#" "#") with true in Hr.
      rewrite orb_true_r in Hr. done.
  - destruct (Str.partition "?" (p +:+ e +:+ String "?" q)) as [[x y]|] eqn:H'.
    + apply partition_audio in H' as [[p' ->]|(r1 & -> & Hr & Hr1)];
        [| |by apply plain_not_mem].
      * by apply (with_query _ _ _ p').
      * destruct r1 as [|c r1].
        -- rewrite str_app_nil_l in Hr. injection Hr as <-.
           apply (with_path _ _ _ p); [simpl; by rewrite str_app_nil_r|done..].
        -- exfalso. rewrite str_app_cons in Hr. injection Hr as <- _.
           cbn [Str.mem] in Hr1.
           change (Ascii.eqb "?" "?") with true in Hr1. done.
    + exfalso. apply partition_none in H'. rewrite !mem_app in H'.
      apply orb_false_iff in H' as [_ [_ H']%orb_false_iff].
      cbn [Str.mem] in H'. change (Ascii.eqb "?" "?") with true in H'. done.
Qed.

Lemma urlsplit_with (host_check : string -> option string)
    (p e q default : string) (res : UrlParse.SplitResult) :
  audio_extension e -> kept_query q = true ->
  UrlParse.urlsplit host_check (p +:+ e +:+ String "?" q) default = Ok res ->
  carried_with e q res.
Proof.
  intros He (Hn & Hm & Hs)%kept_query_spec. unfold UrlParse.urlsplit.
  destruct (cleaned_with p e q He Hs) as (p1 & ->).
  set (dflt := Str.remove _ _).
  assert (tail_ok "?" (String "?" q) = true) as Hr1 by done.
  destruct (split_scheme_audio p1 e (String "?" q) dflt He Hr1) as [p2 Hsch].
  destruct (UrlParse.split_scheme (p1 +:+ e +:+ String "?" q) dflt)
    as [sch rest].
  simpl in Hsch. subst rest.
  destruct (audio_extension_plain e He) as [Hpl _].
  destruct (Str.startswith (p2 +:+ e +:+ String "?" q) "//") eqn:Hsl.
  - destruct (drop_slashes_audio p2 e (String "?" q) He Hsl) as [p3 ->].
    destruct (splitnetloc_audio p3 e (String "?" q) Hpl Hr1) as [[p4 Hnl]|Hnl].
    + destruct (UrlParse.splitnetloc (p3 +:+ e +:+ String "?" q))
        as [nl rest].
      simpl in Hnl. subst rest.
      destruct (UrlParse.check_netloc host_check nl); simpl; [|done].
      intros ->%split_rest_result. by apply split_rest_with.
    + rewrite Hnl.
      destruct (UrlParse.check_netloc host_check (p3 +:+ e)); cbn [rbind];
        [|done].
      intros ->%split_rest_result.
      assert (Str.partition "#" (String "?" q) = None) as ->.
      { apply partition_none. cbn [Str.mem].
        by change (Ascii.eqb "#" "?") with false. }
      cbn [Str.partition]. change (Ascii.eqb "?" "?") with true. cbn iota.
      by apply (with_netloc _ _ _ p3).
  - destruct (UrlParse.check_netloc host_check ""); simpl; [|done].
    intros ->%split_rest_result. by apply split_rest_with.
Qed.

Lemma urlparse_with (host_check : string -> option string)
    (p e q default : string) (u : UrlParse.ParseResult) :
  audio_extension e -> kept_query q = true ->
  UrlParse.urlparse host_check (p +:+ e +:+ String "?" q) default = Ok u ->
  carried6_with e q u.
Proof.
  intros He Hq. unfold UrlParse.urlparse.
  destruct (UrlParse.urlsplit host_check _ default) as [res|] eqn:Hs;
    cbn [rbind]; [|done].
  apply (urlsplit_with _ _ _ _ _ _ He Hq) in Hs.
  destruct Hs as [p0 Hf|p0 Hq0 Hf|p0 Hp Hq0 Hf|p0 Hn Hp Hq0 Hf].
  - destruct (UrlParse.member _ _ && _);
      [destruct (UrlParse.splitparams _) as [url par]|];
      intros [= <-]; by apply (w_fragment _ _ _ p0).
  - destruct (UrlParse.member _ _ && _);
      [destruct (UrlParse.splitparams _) as [url par]|];
      intros [= <-]; by apply (w_query _ _ _ p0).
  - rewrite Hp.
    destruct (UrlParse.member _ _ && _).
    + destruct (splitparams_audio p0 e He) as [[p' H]|H].
      * destruct (UrlParse.splitparams (p0 +:+ e)) as [url par].
        simpl in H. subst par. intros [= <-]. by apply (w_params _ _ _ p').
      * rewrite H. intros [= <-]. by apply (w_path _ _ _ p0).
    + intros [= <-]. by apply (w_path _ _ _ p0).
  - rewrite Hp. simpl. rewrite andb_false_r. intros [= <-].
    by apply (w_netloc _ _ _ p0).
Qed.

Lemma suffix_prefix (a s t : string) :
  (exists p', s = p' +:+ t) -> exists p', a +:+ s = p' +:+ t.
Proof. intros [p' ->]. exists (a +:+ p'). by rewrite str_app_assoc. Qed.

Lemma urlunparse_with (e q : string) (u : UrlParse.ParseResult) :
  audio_extension e -> Str.nonempty q = true ->
  carried6_with e q u ->
  exists p', UrlParse.urlunparse u = p' +:+ e +:+ String "?" q.
Proof.
  intros He Hn Hu. unfold UrlParse.urlunparse.
  set (url := if Str.nonempty (UrlParse.params u) then _ else _).
  destruct (urlunsplit_parts (UrlParse.scheme u) (UrlParse.netloc u) url
              (UrlParse.query u) (UrlParse.fragment u)) as [pre ->].
  unfold query_part, fragment_part.
  destruct Hu as [p Hf|p Hq Hf|p Hp Hpar Hq Hf|p Hpar Hq Hf
                  |p Hnl Hp Hpar Hq Hf].
  - rewrite Hf. rewrite (audio_nonempty p e _ He).
    do 4 apply suffix_prefix. by exists p.
  - rewrite Hq, Hf. rewrite (audio_nonempty p e _ He). cbn [Str.nonempty].
    rewrite str_app_nil_r.
    do 3 apply suffix_prefix. by exists p.
  - subst url. rewrite Hpar, Hp, Hq, Hf, Hn. cbn [Str.nonempty].
    rewrite (nonempty_audio_end p e He). rewrite str_app_nil_r.
    apply suffix_prefix. exists p. by rewrite str_app_assoc.
  - subst url. rewrite Hpar, Hq, Hf, Hn. cbn [Str.nonempty].
    rewrite (nonempty_audio_end p e He). rewrite str_app_nil_r.
    rewrite <- !str_app_assoc. rewrite (nonempty_audio_end _ e He).
    exists (pre +:+ UrlParse.path u +:+ ";" +:+ p).
    by rewrite !str_app_assoc.
  - subst url. rewrite Hpar, Hp, Hnl, Hq, Hf, Hn. cbn [Str.nonempty].
    rewrite str_app_nil_r.
    apply suffix_prefix. exists p. by rewrite str_app_assoc.
Qed.

(** Resolving a reference that ends in an audio extension and a query
    that [urlsplit] keeps gives a URL that ends in the same extension and
    the same query. *)
Lemma urljoin_keeps_query (host_check : string -> option string)
    (base p e q u : string) :
  audio_extension e -> kept_query q = true ->
  UrlParse.urljoin host_check base (p +:+ e +:+ String "?" q) = Ok u ->
  exists p', u = p' +:+ e +:+ String "?" q.
Proof.
  intros He Hq. destruct (kept_query_spec q Hq) as (Hn & _ & _).
  unfold UrlParse.urljoin.
  destruct (negb (Str.nonempty base)); [intros [= <-]; by exists p|].
  rewrite (audio_nonempty p e _ He). cbn [negb].
  destruct (UrlParse.urlparse host_check base "") as [b|]; cbn [rbind];
    [|done].
  destruct (UrlParse.urlparse host_check _ (UrlParse.scheme b)) as [r|] eqn:Hr;
    cbn [rbind]; [|done].
  apply (urlparse_with _ _ _ _ _ _ He Hq) in Hr.
  destruct (negb (String.eqb _ _) || negb (UrlParse.member _ _)) eqn:Hsch;
    [intros [= <-]; by exists p|].
  apply orb_false_iff in Hsch as [_ Hrel%negb_false_iff].
  rewrite (relative_uses_netloc _ Hrel). cbn [andb].
  destruct (Str.nonempty (UrlParse.netloc r)) eqn:Hnl;
    [intros [= <-]; by apply urlunparse_with|].
  destruct (negb (Str.nonempty (UrlParse.path r))
            && negb (Str.nonempty (UrlParse.params r))) eqn:Hpp;
    intros [= <-]; apply urlunparse_with; try done.
  - apply andb_true_iff in Hpp as [Hp%negb_true_iff Hpar%negb_true_iff].
    destruct Hr as [p0 Hf|p0 Hq0 Hf|p0 Hp' Hpar' Hq0 Hf|p0 Hpar' Hq0 Hf
                    |p0 Hn0 _ _ _ _].
    + by apply (w_fragment _ _ _ p0).
    + apply (w_query _ _ _ p0); [|done]. cbn.
      by rewrite Hq0, (audio_nonempty p0 e _ He).
    + rewrite Hp', (nonempty_audio_end p0 e He) in Hp. done.
    + rewrite Hpar', (nonempty_audio_end p0 e He) in Hpar. done.
    + rewrite Hn0, (nonempty_audio_end p0 e He) in Hnl. done.
  - destruct Hr as [p0 Hf|p0 Hq0 Hf|p0 Hp' Hpar' Hq0 Hf|p0 Hpar' Hq0 Hf
                    |p0 Hn0 _ _ _ _].
    + by apply (w_fragment _ _ _ p0).
    + by apply (w_query _ _ _ p0).
    + rewrite Hp'.
      destruct (resolved_path_audio (UrlParse.path b) p0 e He) as [p' Hres].
      by apply (w_path _ _ _ p').
    + by apply (w_params _ _ _ p0).
    + rewrite Hn0, (nonempty_audio_end p0 e He) in Hnl. done.
Qed.

(** C3, as stated, fails: the link of [fragment_page], resolved against a
    page of the same scheme, loses the question mark of its empty query,
    and the URL that is returned ends in the extension followed by a part
    that begins with a number sign. *)
Lemma C3_counterexample :
  extract_links no_host_error fragment_page "http://x.com/"
  = Ok ["http://x.com/a.mp3#t=10"]
  /\ ~ ends_in_audio "?" "http://x.com/a.mp3#t=10".
Proof.
  split; [by vm_compute|].
  intros H%ends_in_audio_b. by vm_compute in H.
Qed.

(** C3, amended.  Every URL in the list returned by [extract_links] ends in
    one of the six audio extensions, compared without regard to case,
    followed by nothing or by a part that begins with a question mark or a
    number sign.  It is the resolution of a matched text that ends in such
    an extension followed by nothing or by a part that begins with a
    question mark: the query, which the check of the extension ignores.
    A query that is not empty and holds no number sign, tab or line break
    is kept: the URL ends in the same extension and the same query. *)
Theorem C3_links_end_in_audio_extension
    (host_check : string -> option string) (html base_url : string)
    (l : list string) (u : string) :
  extract_links host_check html base_url = Ok l ->
  u ∈ l ->
  ends_in_audio "?#" u
  /\ exists m,
       m ∈ Re.findall true combined html ++ Re.findall true absolute html
       /\ ends_in_audio "?" m
       /\ UrlParse.urljoin host_check base_url m = Ok u
       /\ forall p e q,
            m = p +:+ e +:+ String "?" q ->
            audio_extension e -> kept_query q = true ->
            exists p', u = p' +:+ e +:+ String "?" q.
Proof.
  intros Hl Hu.
  destruct (extract_links_elements _ _ _ _ Hl) as [_ Helem].
  apply Helem in Hu as (m & Hin & Hjoin).
  pose proof (findall_ends_in_audio html m Hin) as Hm.
  split; [by apply (urljoin_keeps_audio host_check base_url m)|].
  exists m. split; [done|]. split; [done|]. split; [done|].
  intros p e q -> He Hq.
  by apply (urljoin_keeps_query host_check base_url p e q u).
Qed.

(** ** File names and paths *)

Lemma split_plain (c : ascii) (s : string) :
  Str.mem c s = false -> Str.split c s = [s].
Proof.
  induction s as [|d s IH]; simpl; [done|].
  rewrite (Ascii.eqb_sym c d). destruct (Ascii.eqb d c); [done|].
  intros Hs. by rewrite (IH Hs).
Qed.

Lemma split_no_sep (c : ascii) (s : string) :
  Forall (fun x => Str.mem c x = false) (Str.split c s).
Proof.
  induction s as [|d s IH]; simpl; [by repeat constructor|].
  destruct (Ascii.eqb_spec d c) as [->|Hne]; [by constructor|].
  destruct (Str.split c s) as [|x xs]; inversion IH; subst.
  - repeat constructor. simpl.
    destruct (Ascii.eqb_spec c d); [congruence | done].
  - constructor; [|done]. simpl.
    destruct (Ascii.eqb_spec c d); [congruence | done].
Qed.

Lemma not_mem_not_startswith (c : ascii) (s : string) :
  Str.mem c s = false -> Str.startswith s (String c "") = false.
Proof.
  intros H. destruct (Str.startswith s (String c "")) eqn:E; [|done].
  unfold Str.startswith in E. apply String.prefix_correct in E.
  destruct s as [|d s]; simpl in E; [done|].
  destruct s; injection E as ->; simpl in H; by rewrite Ascii.eqb_refl in H.
Qed.

Lemma startswith_more (s a b : string) :
  Str.startswith s a = false -> Str.startswith s (a +:+ b) = false.
Proof.
  unfold Str.startswith. revert s.
  induction a as [|c a IH]; intros s H; [by destruct s|]. sapp.
  destruct s as [|d s]; simpl in *; [done|].
  destruct (ascii_dec c d); [by apply IH | done].
Qed.

(** A name without slash that is neither empty nor a single dot is a path
    of one part. *)
Lemma parse_path_single (s : string) :
  Str.mem "/" s = false -> is_component s = true -> parse_path s = [s].
Proof.
  intros Hs Hc. unfold parse_path, root_of.
  pose proof (not_mem_not_startswith _ _ Hs) as Hst.
  assert (Str.startswith s "//" = false) as ->
    by apply (startswith_more s "/" "/" Hst).
  rewrite Hst. simpl.
  rewrite (split_plain _ _ Hs). simpl. by rewrite Hc.
Qed.

Lemma joinpath_single (p : Path) (s : string) :
  Str.mem "/" s = false -> is_component s = true ->
  joinpath p s = p ++ [s].
Proof.
  intros Hs Hc. unfold joinpath.
  by rewrite (not_mem_not_startswith _ _ Hs), parse_path_single.
Qed.

Lemma is_root_no_slash (s : string) :
  Str.mem "/" s = false -> is_root s = false.
Proof. apply not_mem_not_startswith. Qed.

Lemma name_snoc (p : Path) (s : string) :
  Str.mem "/" s = false -> name (p ++ [s]) = s.
Proof.
  intros Hs. unfold name. rewrite last_last. by rewrite is_root_no_slash.
Qed.

Lemma components_no_slash (s : string) :
  Forall (fun x => Str.mem "/" x = false /\ is_component x = true)
    (List.filter is_component (Str.split "/" s)).
Proof.
  apply List.Forall_forall. intros x [Hin Hc]%filter_In.
  split; [|done].
  pose proof (split_no_sep "/" s) as H. rewrite List.Forall_forall in H.
  by apply H.
Qed.

Lemma last_Forall {A} (P : A -> Prop) (l : list A) (d : A) :
  Forall P l -> l <> [] -> P (List.last l d).
Proof.
  induction 1 as [|x l Hx Hl IH]; [done|]. intros _.
  destruct l as [|y l]; [done|]. by apply IH.
Qed.

Lemma last_app_cons {A} (l : list A) (x : A) (xs : list A) (d : A) :
  List.last (l ++ x :: xs) d = List.last (x :: xs) d.
Proof.
  induction l as [|y l IH]; [done|].
  simpl app. rewrite <- IH. simpl. by destruct (l ++ x :: xs) eqn:E; [destruct l|].
Qed.

Lemma name_parse_path (s : string) :
  let components := List.filter is_component (Str.split "/" s) in
  name (parse_path s) = List.last components "".
Proof.
  intros components. unfold parse_path. fold components.
  destruct components as [|x xs] eqn:E.
  - rewrite app_nil_r. unfold root_of, name.
    destruct (_ && _); [done|]. by destruct (Str.startswith s "/").
  - unfold name.
    assert (List.last (root_of s ++ x :: xs) "" = List.last (x :: xs) "") as ->.
    { by apply last_app_cons. }
    pose proof (components_no_slash s) as H. fold components in H.
    rewrite E in H.
    apply (last_Forall _ _ "") in H as [H _]; [|done].
    by rewrite is_root_no_slash.
Qed.

Lemma endswith_lower_app (n ext : string) :
  Str.lower ext = ext -> Str.endswith (Str.lower (n +:+ ext)) ext = true.
Proof. intros H. by rewrite lower_app, H, endswith_app. Qed.

Lemma has_audio_extension_mp3 (n : string) :
  has_audio_extension (n +:+ ".mp3") = true.
Proof.
  unfold has_audio_extension, AUDIO_EXTENSIONS. simpl.
  by rewrite endswith_lower_app.
Qed.

Lemma mem_app_false (c : ascii) (a b : string) :
  Str.mem c a = false -> Str.mem c b = false -> Str.mem c (a +:+ b) = false.
Proof. intros Ha Hb. by rewrite mem_app, Ha, Hb. Qed.

(** The name [download_file] derives: the last component of the URL's
    path that is neither empty nor a single dot, the placeholder if there
    is none, and the default extension appended if it has none. *)
Lemma derive_filename_spec (url_path : string) :
  let components := List.filter is_component (Str.split "/" url_path) in
  let base_name := List.last components "audio" in
  let filename :=
    if has_audio_extension base_name then base_name
    else base_name +:+ ".mp3" in
  derive_filename url_path = filename
  /\ has_audio_extension filename = true
  /\ Str.mem "/" filename = false
  /\ Str.nonempty filename = true.
Proof.
  intros components base_name filename.
  assert (Str.mem "/" base_name = false /\ Str.nonempty base_name = true)
    as [Hslash Hne].
  { subst base_name. pose proof (components_no_slash url_path) as H.
    fold components in H. destruct components as [|x xs] eqn:E; [done|].
    apply (last_Forall _ _ "audio") in H as [H1 H2]; [|done].
    split; [done|]. unfold is_component in H2.
    by apply andb_true_iff in H2 as [? _]. }
  assert (derive_filename url_path = filename) as Hd.
  { unfold derive_filename. rewrite name_parse_path. fold components.
    assert ((if Str.nonempty (List.last components "")
             then List.last components "" else "audio") = base_name) as ->.
    { subst base_name. destruct components as [|x xs] eqn:E; [done|].
      pose proof (components_no_slash url_path) as H.
      fold components in H. rewrite E in H.
      pose proof (last_Forall _ _ "" H) as [_ H2]; [done|].
      unfold is_component in H2. apply andb_true_iff in H2 as [-> _].
      clear. revert x. induction xs as [|y ys IH]; intros x; [done|].
      apply (IH y). }
    subst filename. rewrite Hne.
    by destruct (has_audio_extension base_name). }
  split; [done|]. subst filename.
  destruct (has_audio_extension base_name) eqn:Hext.
  - done.
  - split; [apply has_audio_extension_mp3|].
    split; [by apply mem_app_false | by apply nonempty_app_r].
Qed.

(** ** Stems, suffixes and the candidates of the collision loop *)

Lemma rpartition_some (c : ascii) (s a b : string) :
  rpartition c s = Some (a, b) ->
  s = a +:+ String c b /\ Str.mem c b = false.
Proof.
  revert a b. induction s as [|d s IH]; intros a b; simpl; [done|].
  destruct (rpartition c s) as [[x y]|] eqn:E.
  - intros [= <- <-]. destruct (IH x y eq_refl) as [-> Hy]. by sapp.
  - destruct (Ascii.eqb_spec d c) as [->|]; [|done].
    intros [= <- <-]. sapp. split; [done|].
    clear IH. induction s as [|e s IH]; simpl in *; [done|].
    destruct (rpartition c s) as [[x y]|]; [done|].
    rewrite (Ascii.eqb_sym c e).
    destruct (Ascii.eqb e c); [done | by apply IH].
Qed.

Lemma rpartition_none (c : ascii) (s : string) :
  Str.mem c s = false -> rpartition c s = None.
Proof.
  induction s as [|d s IH]; simpl; [done|].
  rewrite (Ascii.eqb_sym c d). destruct (Ascii.eqb d c); [done|].
  intros H. by rewrite IH.
Qed.

Lemma rpartition_app (c : ascii) (a b : string) :
  Str.mem c b = false -> rpartition c (a +:+ String c b) = Some (a, b).
Proof.
  intros Hb. induction a as [|d a IH]; sapp; simpl.
  - by rewrite (rpartition_none c b Hb), Ascii.eqb_refl.
  - by rewrite IH.
Qed.

Lemma stem_suffix (n : string) : stem_of n +:+ suffix_of n = n.
Proof.
  unfold stem_of, suffix_of.
  destruct (rpartition "." n) as [[a b]|] eqn:E; [|by rewrite str_app_nil_r].
  apply rpartition_some in E as [-> _].
  destruct (Str.nonempty a && Str.nonempty b); [done|].
  by rewrite str_app_nil_r.
Qed.

Lemma mem_app_inv (c : ascii) (a b : string) :
  Str.mem c (a +:+ b) = false -> Str.mem c a = false /\ Str.mem c b = false.
Proof. rewrite mem_app. by intros ?%orb_false_iff. Qed.

Lemma stem_nonempty (n : string) :
  Str.nonempty n = true -> Str.nonempty (stem_of n) = true.
Proof.
  unfold stem_of. destruct (rpartition "." n) as [[a b]|]; [|done].
  destruct (Str.nonempty a && Str.nonempty b) eqn:E; [|done].
  by apply andb_true_iff in E as [? _].
Qed.

Lemma pretty_N_go_no_slash (x : N) :
  forall s, Str.mem "/" s = false -> Str.mem "/" (pretty_N_go x s) = false.
Proof.
  induction (N.lt_wf_0 x) as [x _ IH]. intros s Hs.
  destruct (decide (0 < x)%N) as [Hx|Hx].
  - rewrite pretty_N_go_step by done.
    apply IH; [by apply N.div_lt|].
    simpl. rewrite Hs. unfold pretty_N_char.
    by repeat case_match.
  - assert (x = 0%N) as -> by lia. by rewrite pretty_N_go_0.
Qed.

Lemma pretty_no_slash (k : nat) : Str.mem "/" (pretty k) = false.
Proof.
  unfold pretty, pretty_nat, pretty, pretty_N.
  destruct (decide (N.of_nat k = 0%N)); [done|].
  by apply pretty_N_go_no_slash.
Qed.

Lemma candidate_no_slash (n : string) (k : nat) :
  Str.mem "/" n = false -> Str.mem "/" (candidate n k) = false.
Proof.
  intros Hn. rewrite <- (stem_suffix n) in Hn.
  apply mem_app_inv in Hn as [Hst Hsu]. unfold candidate.
  repeat apply mem_app_false; auto using pretty_no_slash.
Qed.

Lemma is_component_long (x : string) :
  2 <= String.length x -> is_component x = true.
Proof.
  intros H. unfold is_component. apply andb_true_iff. split.
  - destruct x; [simpl in H; lia | done].
  - apply negb_true_iff, String.eqb_neq. intros ->. simpl in H. lia.
Qed.

Lemma candidate_component (n : string) (k : nat) :
  Str.nonempty n = true -> is_component (candidate n k) = true.
Proof.
  intros Hn%stem_nonempty. apply is_component_long. unfold candidate.
  rewrite !str_app_length. destruct (stem_of n); [done|]. simpl. lia.
Qed.

Lemma str_app_inv_tail (a b c : string) : a +:+ c = b +:+ c -> a = b.
Proof.
  revert b. induction a as [|x a IH]; intros [|y b]; sapp; intros H.
  - done.
  - apply (f_equal String.length) in H. simpl in H.
    rewrite str_app_length in H. lia.
  - apply (f_equal String.length) in H. simpl in H.
    rewrite str_app_length in H. lia.
  - injection H as -> H. by rewrite (IH b H).
Qed.

Lemma candidate_inj (n : string) (j k : nat) :
  candidate n j = candidate n k -> j = k.
Proof.
  unfold candidate. intros H.
  apply String.app_inj in H. apply (String.app_inj "-") in H.
  apply str_app_inv_tail in H. by apply (inj pretty) in H.
Qed.

(** A path with a final part that is no root exists exactly when the map
    holds it. *)
Lemma path_exists_snoc (f : gmap (list string) node) (p : Path) (s : string) :
  Str.mem "/" s = false ->
  path_exists f (p ++ [s]) = true <-> is_Some (f !! (p ++ [s])).
Proof.
  intros Hs. unfold path_exists, is_dir.
  destruct (f !! (p ++ [s])) as [nd|] eqn:E.
  - split; [by eauto | done].
  - destruct p as [|a [|b p]]; simpl.
    + rewrite (is_root_no_slash s Hs). split; [done | by intros [? ?]].
    + split; [done | by intros [? ?]].
    + split; [done | by intros [? ?]].
Qed.

(** Among the first candidates, one more than the map has entries, one is
    free. *)
Lemma candidate_free (f : gmap (list string) node) (p : Path) (n : string) :
  Str.mem "/" n = false ->
  exists j, 1 <= j <= S (size f)
            /\ path_exists f (p ++ [candidate n j]) = false.
Proof.
  intros Hn.
  set (cands := (fun j => p ++ [candidate n j]) <$> seq 1 (S (size f))).
  destruct (decide (Forall (fun q => path_exists f q = true) cands))
    as [Hall|Hnot].
  - exfalso.
    assert (NoDup cands) as Hnd.
    { apply NoDup_fmap_2; [|apply NoDup_seq].
      intros j k H. apply app_inj_1 in H as [_ H]; [|done].
      injection H as H. by apply candidate_inj in H. }
    assert (list_to_set cands ⊆ dom f) as Hsub.
    { intros q Hq%elem_of_list_to_set.
      rewrite List.Forall_forall in Hall.
      pose proof (Hall q (proj1 (list_elem_of_In _ _) Hq)) as Hex.
      apply list_elem_of_fmap in Hq as (j & -> & _).
      apply path_exists_snoc in Hex; [|by apply candidate_no_slash].
      by apply elem_of_dom. }
    apply subseteq_size in Hsub.
    rewrite size_list_to_set in Hsub by done.
    rewrite size_dom in Hsub. subst cands.
    rewrite length_fmap, length_seq in Hsub. lia.
  - apply not_Forall_Exists in Hnot; [|intros q; apply _].
    apply List.Exists_exists in Hnot as (q & Hq & Hfree).
    apply list_elem_of_In, list_elem_of_fmap in Hq as (j & -> & Hj).
    apply elem_of_seq in Hj. exists j. split; [lia|].
    simpl in Hfree. by destruct (path_exists f (p ++ [candidate n j])).
Qed.

(** The least index from [k] on at which a test fails. *)
Lemma first_false_below (P : nat -> bool) (k n : nat) :
  (forall i, i < n -> P (k + i) = true)
  \/ exists m, m < n /\ P (k + m) = false
                /\ forall i, i < m -> P (k + i) = true.
Proof.
  induction n as [|n [IH|(m & Hm & HP & Hmin)]].
  - left. intros i Hi. lia.
  - destruct (P (k + n)) eqn:E.
    + left. intros i Hi. destruct (decide (i = n)) as [->|]; [done|].
      apply IH. lia.
    + right. exists n. split; [lia | done].
  - right. exists m. split; [lia | done].
Qed.

Lemma first_false (P : nat -> bool) (k : nat) :
  forall n, P (k + n) = false ->
            exists m, m <= n /\ P (k + m) = false
                      /\ forall i, i < m -> P (k + i) = true.
Proof.
  intros n Hn.
  destruct (first_false_below P k n) as [Hall|(m & Hm & HP & Hmin)].
  - by exists n.
  - exists m. split; [lia | done].
Qed.

Lemma rename_loop_finds (f : gmap (list string) node) (p : Path)
    (st su : string) (cand : nat -> Path) :
  (forall k, cand k = joinpath p (st +:+ "-" +:+ pretty k +:+ su)) ->
  forall n fuel k,
    path_exists f (cand (k + n)) = false ->
    (forall i, i < n -> path_exists f (cand (k + i)) = true) ->
    n < fuel ->
    rename_loop f p st su fuel (cand k) (S k) = cand (k + n).
Proof.
  intros Hcand. induction n as [|n IH]; intros fuel k Hfree Hused Hfuel.
  - destruct fuel as [|fuel]; [lia|]. simpl.
    rewrite Nat.add_0_r in Hfree. rewrite Hfree. by rewrite Nat.add_0_r.
  - destruct fuel as [|fuel]; [lia|]. simpl.
    pose proof (Hused 0 ltac:(lia)) as H0. rewrite Nat.add_0_r in H0.
    rewrite H0. rewrite <- (Hcand (S k)).
    replace (k + S n) with (S k + n) by lia.
    apply IH; [by replace (S k + n) with (k + S n) by lia| |lia].
    intros i Hi. replace (S k + i) with (k + S i) by lia.
    apply Hused. lia.
Qed.

(** The destination [download_file] settles on.  [filename] is a name as
    [derive_filename] gives it. *)
Lemma choose_destination_spec (f : gmap (list string) node) (dest_dir : Path)
    (filename : string) (overwrite : bool) :
  Str.mem "/" filename = false -> Str.nonempty filename = true ->
  has_audio_extension filename = true ->
  let destination := choose_destination f dest_dir filename overwrite in
  (overwrite = true \/ path_exists f (dest_dir ++ [filename]) = false ->
   destination = dest_dir ++ [filename])
  /\ (overwrite = false -> path_exists f (dest_dir ++ [filename]) = true ->
      exists k, 1 <= k
        /\ destination = dest_dir ++ [candidate filename k]
        /\ path_exists f destination = false
        /\ forall j, 1 <= j < k ->
             path_exists f (dest_dir ++ [candidate filename j]) = true)
  /\ (overwrite = false -> path_exists f destination = false).
Proof.
  intros Hslash Hne Hext destination.
  assert (is_component filename = true) as Hcomp.
  { unfold is_component. rewrite Hne. cbn [andb].
    apply negb_true_iff, String.eqb_neq. intros ->. done. }
  assert (joinpath dest_dir filename = dest_dir ++ [filename]) as Hjoin
    by by apply joinpath_single.
  assert (forall k, dest_dir ++ [candidate filename k]
                    = joinpath dest_dir
                        (stem (dest_dir ++ [filename]) +:+ "-" +:+ pretty k
                         +:+ suffix (dest_dir ++ [filename]))) as Hcand.
  { intros k. unfold stem, suffix. rewrite name_snoc by done.
    symmetry. apply joinpath_single;
      [by apply candidate_no_slash | by apply candidate_component]. }
  assert (overwrite = false -> path_exists f (dest_dir ++ [filename]) = true ->
          exists k, 1 <= k
            /\ destination = dest_dir ++ [candidate filename k]
            /\ path_exists f destination = false
            /\ forall j, 1 <= j < k ->
                 path_exists f (dest_dir ++ [candidate filename j]) = true)
    as Hloop.
  { intros -> Hex. subst destination. unfold choose_destination.
    rewrite Hjoin, Hex. simpl andb. cbv iota.
    destruct (candidate_free f dest_dir filename Hslash) as (j & Hj & Hfree).
    destruct (first_false
                (fun i => path_exists f (dest_dir ++ [candidate filename i]))
                1 (j - 1)) as (m & Hm & Hfm & Hmin).
    { by replace (1 + (j - 1)) with j by lia. }
    change (rename_loop f dest_dir _ _ (S (S (size f))) _ 1)
      with (if path_exists f (dest_dir ++ [filename])
            then rename_loop f dest_dir (stem (dest_dir ++ [filename]))
                   (suffix (dest_dir ++ [filename])) (S (size f))
                   (joinpath dest_dir
                      (stem (dest_dir ++ [filename]) +:+ "-" +:+ pretty 1
                       +:+ suffix (dest_dir ++ [filename]))) 2
            else dest_dir ++ [filename]).
    rewrite Hex, <- (Hcand 1).
    rewrite (rename_loop_finds f dest_dir _ _
               (fun k => dest_dir ++ [candidate filename k]) Hcand m);
      [|done|done|lia].
    exists (1 + m). split; [lia|]. split; [done|]. split; [done|].
    intros i Hi. replace i with (1 + (i - 1)) by lia. apply Hmin. lia. }
  split; [|split; [done|]].
  - subst destination. unfold choose_destination. rewrite Hjoin.
    intros [Hov|Hex]; [rewrite Hov; by rewrite andb_false_r | by rewrite Hex].
  - intros Hov. destruct (path_exists f (dest_dir ++ [filename])) eqn:Hex.
    + by destruct (Hloop Hov eq_refl) as (k & _ & _ & Hfree & _).
    + subst destination. unfold choose_destination.
      by rewrite Hjoin, Hex.
Qed.

(** ** The effects of the script's functions *)

Section Effects.
Variable host_check : string -> option string.
Variable net : nat -> string -> response.
Variable denied : Path -> bool.

Lemma fetch_html_run (url : string) (w : world) :
  fetch_html net url w = (requested w url, whole_body (net (reqs w) url)).
Proof.
  unfold fetch_html, bind, urlopen, requested, whole_body.
  destruct (net (reqs w) url) as [e|data [e|]]; reflexivity.
Qed.

Lemma print_links_run (links : list string) (w : world) :
  print_links links w
  = (World (fs w) (reqs w)
       (log w ++ List.map (fun link => Out (" - " +:+ link)) links), Ok tt).
Proof.
  revert w. induction links as [|link rest IH]; intros [f r l]; simpl.
  - unfold ret. simpl. by rewrite app_nil_r.
  - unfold bind, print, emit. simpl. rewrite IH. simpl.
    by rewrite <- app_assoc.
Qed.

(** One download, spelled out: what it returns and the world it leaves. *)
Lemma download_file_run (url : string) (dest_dir : Path) (overwrite : bool)
    (w : world) :
  download_file host_check net denied url dest_dir overwrite w
  = match UrlParse.urlparse host_check url "" with
    | Raise e => (w, Raise e)
    | Ok parsed =>
        let destination :=
          choose_destination (fs w) dest_dir
            (derive_filename (UrlParse.path parsed)) overwrite in
        match net (reqs w) url with
        | Refused e => (requested w url, Raise e)
        | Stream data stop =>
            let w2 := logged (requested w url) (OpenW destination) in
            if is_dir (fs w) destination
            then (w2, Raise (os_error "Is a directory"))
            else if negb (is_dir (fs w) (parent destination))
            then (w2, Raise (os_error "No such file or directory"))
            else if denied destination
            then (w2, Raise (os_error "Permission denied"))
            else (World (<[destination := File data]> (fs w))
                    (reqs w2) (log w2),
                  match stop with
                  | Some e => Raise e
                  | None => Ok destination
                  end)
        end
    end.
Proof.
  unfold download_file, bind, lift, get_fs.
  destruct (UrlParse.urlparse host_check url "") as [parsed|e]; [|done].
  cbv zeta. unfold urlopen.
  destruct (net (reqs w) url) as [e|data stop]; [done|].
  unfold open_write, bind, emit, get_fs, logged, requested. cbn [fs reqs log].
  destruct (is_dir (fs w) _); [done|].
  destruct (negb (is_dir (fs w) _)); [done|].
  destruct (denied _); [done|].
  unfold put_fs, write_data, bind, get_fs, put_fs. cbn [fs reqs log fst snd].
  rewrite insert_insert_eq.
  by destruct stop.
Qed.
End Effects.

(** ** The suffix of a name that ends in an audio extension *)

Lemma str_app_inj_length (a b c d : string) :
  a +:+ b = c +:+ d -> String.length b = String.length d -> a = c /\ b = d.
Proof.
  revert c. induction a as [|x a IH]; intros [|y c]; sapp; intros H Hlen.
  - done.
  - apply (f_equal String.length) in H. simpl in H.
    rewrite str_app_length in H. lia.
  - apply (f_equal String.length) in H. simpl in H.
    rewrite str_app_length in H. lia.
  - injection H as -> H. destruct (IH c H Hlen) as [-> ->]. done.
Qed.

Lemma take_length (n : nat) (s : string) :
  n <= String.length s -> String.length (Str.take n s) = n.
Proof.
  revert s. induction n as [|n IH]; intros [|c s]; simpl; try lia.
  intros H. rewrite IH; lia.
Qed.

Lemma has_audio_extension_inv (n : string) :
  has_audio_extension n = true ->
  exists base e, n = base +:+ e /\ audio_extension e.
Proof.
  unfold has_audio_extension. intros (ext & Hin & Hend)%existsb_exists.
  pose proof Hend as [Hlen _]%andb_true_iff. apply Nat.leb_le in Hlen.
  rewrite lower_length in Hlen.
  apply endswith_inv in Hend as [p Hp].
  set (k := String.length n - String.length ext).
  exists (Str.take k n), (Str.drop k n). split; [by rewrite take_drop|].
  rewrite <- (take_drop k n), lower_app in Hp.
  apply str_app_inj_length in Hp as [_ Hp].
  - unfold audio_extension. rewrite Hp. by apply list_elem_of_In.
  - rewrite lower_length.
    pose proof (f_equal String.length (take_drop k n)) as Hl.
    rewrite str_app_length, take_length in Hl by (subst k; lia).
    subst k. lia.
Qed.

Lemma lower_char_dot (d : ascii) : Str.lower_char d = "."%char -> d = "."%char.
Proof. destruct d as [[] [] [] [] [] [] [] []]; vm_compute; congruence. Qed.

Lemma mem_dot_lower (s : string) :
  Str.mem "." (Str.lower s) = false -> Str.mem "." s = false.
Proof.
  induction s as [|c s IH]; simpl; [done|].
  destruct (Ascii.eqb_spec "." (Str.lower_char c)) as [|Hne]; [done|].
  intros H. rewrite (IH H).
  destruct (Ascii.eqb_spec "." c) as [<-|]; [|done].
  exfalso. by apply Hne.
Qed.

(** An audio extension is a dot followed by a name without dot. *)
Lemma audio_extension_shape (e : string) :
  audio_extension e ->
  exists e', e = String "." e' /\ Str.mem "." e' = false
             /\ Str.nonempty e' = true.
Proof.
  unfold audio_extension, AUDIO_EXTENSIONS. intros H.
  destruct e as [|d e'].
  { simpl in H. repeat (apply elem_of_cons in H as [?|H]; [done|]).
    by apply elem_of_nil in H. }
  exists e'. simpl in H.
  assert (Str.lower_char d = "."%char /\ Str.mem "." (Str.lower e') = false
          /\ Str.nonempty (Str.lower e') = true) as (Hd & Hdot & Hne).
  { repeat (apply elem_of_cons in H as [H|H];
            [injection H as -> ->; by vm_compute|]).
    by apply elem_of_nil in H. }
  apply lower_char_dot in Hd as ->. split; [done|].
  split; [by apply mem_dot_lower | by destruct e'].
Qed.

(** For a name that ends in an audio extension, the suffix is this
    extension and the stem is what is before it, unless the name is the
    extension alone: then the suffix is empty and the stem is the name. *)
Lemma suffix_of_audio (n : string) :
  has_audio_extension n = true ->
  exists base e,
    n = base +:+ e /\ audio_extension e
    /\ suffix_of n = (if Str.nonempty base then e else "")
    /\ stem_of n = (if Str.nonempty base then base else n).
Proof.
  intros (base & e & -> & He)%has_audio_extension_inv.
  exists base, e. split; [done|]. split; [done|].
  destruct (audio_extension_shape e He) as (e' & -> & Hdot & Hne).
  unfold suffix_of, stem_of. rewrite (rpartition_app _ _ _ Hdot), Hne.
  rewrite andb_true_r. by destruct (Str.nonempty base).
Qed.

(** C4, as stated, fails on two counts.  For a URL whose path ends in a
    slash the last segment is empty, and the claim gives the placeholder
    name; [download_file] takes the component before the slash.  For a
    name that is an extension alone, the claim puts the number before the
    extension; [download_file] puts it behind. *)
Lemma C4_counterexample :
  (snd (download_file no_host_error net_songs deny_none
          "https://x.com/sfx/" ["out"] false w_out)
   = Ok ["out"; "sfx.mp3"]
   /\ claimed_filename "/sfx/" = "audio.mp3")
  /\ (snd (download_file no_host_error net_songs deny_none
             "https://x.com/sfx/.mp3" ["out"] false w_taken)
      = Ok ["out"; ".mp3-1"]
      /\ claimed_candidate ".mp3" 1 = "-1.mp3").
Proof. repeat split; by vm_compute. Qed.

(** C4, amended.  [download_file] names the file after the last component
    of the URL's path that is neither empty nor a single dot, or [audio] if
    there is none, and appends [.mp3] when this name does not end, case
    ignored, in one of the six extensions.  If a file of that name exists
    and overwrite is off, the candidates numbered 1, 2, ... are tried in
    order and the first that does not exist is used; the number goes
    before the extension, or behind the name when the name is an extension
    alone.  So with overwrite off the destination does not exist
    beforehand.  Nothing but the destination is changed, and a download
    that returns has put the whole body there: with overwrite on, in place
    of the contents of an existing file. *)
Theorem C4_download_file_name_and_collisions
    (host_check : string -> option string) (net : nat -> string -> response)
    (denied : Path -> bool) (url : string) (dest_dir : Path)
    (overwrite : bool) (w : world) (parsed : UrlParse.ParseResult) :
  UrlParse.urlparse host_check url "" = Ok parsed ->
  let components :=
    List.filter is_component (Str.split "/" (UrlParse.path parsed)) in
  let base_name := List.last components "audio" in
  let filename :=
    if has_audio_extension base_name then base_name
    else base_name +:+ ".mp3" in
  let destination := choose_destination (fs w) dest_dir filename overwrite in
  let out := download_file host_check net denied url dest_dir overwrite w in
  derive_filename (UrlParse.path parsed) = filename
  /\ (exists base e,
        filename = base +:+ e /\ audio_extension e
        /\ forall k,
             candidate filename k
             = if Str.nonempty base then base +:+ "-" +:+ pretty k +:+ e
               else filename +:+ "-" +:+ pretty k)
  /\ (overwrite = true \/ path_exists (fs w) (dest_dir ++ [filename]) = false ->
      destination = dest_dir ++ [filename])
  /\ (overwrite = false -> path_exists (fs w) (dest_dir ++ [filename]) = true ->
      exists k, 1 <= k
        /\ destination = dest_dir ++ [candidate filename k]
        /\ forall j, 1 <= j < k ->
             path_exists (fs w) (dest_dir ++ [candidate filename j]) = true)
  /\ (overwrite = false -> path_exists (fs w) destination = false)
  /\ (forall q, q <> destination -> fs (fst out) !! q = fs w !! q)
  /\ (forall dest, snd out = Ok dest ->
        dest = destination
        /\ exists data, net (reqs w) url = Stream data None
                        /\ fs (fst out) !! dest = Some (File data)).
Proof.
  intros Hparse components base_name filename destination out.
  destruct (derive_filename_spec (UrlParse.path parsed))
    as (Hname & Hext & Hslash & Hne).
  fold components base_name filename in Hname, Hext, Hslash, Hne.
  destruct (choose_destination_spec (fs w) dest_dir filename overwrite
              Hslash Hne Hext) as (Hfree & Hloop & Hnew).
  fold destination in Hfree, Hloop, Hnew.
  split; [done|]. split; [|split; [done|split; [|split; [done|]]]].
  - destruct (suffix_of_audio filename Hext) as (base & e & Hn & He & Hsu & Hst).
    exists base, e. split; [done|]. split; [done|].
    intros k. unfold candidate. rewrite Hsu, Hst.
    destruct (Str.nonempty base); [done|]. by rewrite str_app_nil_r.
  - intros Hov Hex. destruct (Hloop Hov Hex) as (k & Hk & Hd & _ & Hused).
    by exists k.
  - subst out. rewrite download_file_run, Hparse, Hname. fold destination.
    split.
    + intros q Hq.
      destruct (net (reqs w) url) as [e|data stop]; [done|]. cbv zeta.
      destruct (is_dir (fs w) destination); [done|].
      destruct (negb (is_dir (fs w) (parent destination))); [done|].
      destruct (denied destination); [done|].
      cbn [fst fs]. by rewrite lookup_insert_ne.
    + intros dest.
      destruct (net (reqs w) url) as [e|data stop]; [done|]. cbv zeta.
      destruct (is_dir (fs w) destination); [done|].
      destruct (negb (is_dir (fs w) (parent destination))); [done|].
      destruct (denied destination); [done|].
      cbn [fst snd fs]. destruct stop as [e|]; [done|].
      intros [= <-]. split; [done|]. exists data.
      split; [done | by rewrite lookup_insert_eq].
Qed.

(** One use of C4: a second download of a name that is taken gets the
    first candidate, and the file that is there keeps its contents. *)
Lemma C4_witness :
  UrlParse.urlparse no_host_error "https://x.com/sfx/.mp3" ""
  = Ok (UrlParse.mkParse "https" "x.com" "/sfx/.mp3" "" "" "")
  /\ path_exists (fs w_taken) (choose_destination (fs w_taken) ["out"] ".mp3" false)
     = false.
Proof.
  split; [reflexivity|].
  apply (C4_download_file_name_and_collisions no_host_error net_songs
           deny_none "https://x.com/sfx/.mp3" ["out"] false w_taken
           (UrlParse.mkParse "https" "x.com" "/sfx/.mp3" "" "" "")
           eq_refl).
  reflexivity.
Defined.

(** C6, as stated, fails: a download that breaks while the body is copied
    is caught by [main], and the bytes copied so far stay in the
    destination directory, as a file that no completed transfer wrote. *)
Lemma C6_counterexample :
  let out := main no_host_error net_cut deny_none args_out w_empty in
  snd out = Ok 0%Z
  /\ fs (fst out) !! ["out"; "a.mp3"] = Some (File "ID3")
  /\ fs w_empty !! ["out"; "a.mp3"] = None
  /\ Err "Failed to download http://x.com/a.mp3: Connection reset by peer"
     ∈ log (fst out).
Proof.
  cbv zeta. split; [by vm_compute|]. split; [by vm_compute|].
  split; [by vm_compute|].
  apply list_elem_of_In. vm_compute. tauto.
Qed.

(** C6, amended.  A download that raises has left the file system as it
    was, or it broke while the body was copied and has left at its
    destination the data copied so far.  Which of the two, the conditions
    tell: a URL that does not parse, a request that [urlopen] refuses, and
    a destination that cannot be opened leave the file system as it was;
    a body that breaks after the destination was opened leaves there, in
    every case, a file with the data copied so far, and the exception of
    the break is raised.  A download that returns has received the whole
    body and has put it at the path it returns. *)
Theorem C6_download_failure_effects
    (host_check : string -> option string) (net : nat -> string -> response)
    (denied : Path -> bool) (url : string) (dest_dir : Path)
    (overwrite : bool) (w : world) :
  let out := download_file host_check net denied url dest_dir overwrite w in
  (forall error, snd out = Raise error ->
     fs (fst out) = fs w
     \/ exists parsed data,
          UrlParse.urlparse host_check url "" = Ok parsed
          /\ net (reqs w) url = Stream data (Some error)
          /\ fs (fst out)
             = <[choose_destination (fs w) dest_dir
                   (derive_filename (UrlParse.path parsed)) overwrite
                 := File data]> (fs w))
  /\ (forall error, net (reqs w) url = Refused error -> fs (fst out) = fs w)
  /\ (forall dest, snd out = Ok dest ->
        exists data, net (reqs w) url = Stream data None
                     /\ fs (fst out) = <[dest := File data]> (fs w))
  /\ (forall error, UrlParse.urlparse host_check url "" = Raise error ->
        out = (w, Raise error))
  /\ (forall parsed data stop,
        UrlParse.urlparse host_check url "" = Ok parsed ->
        net (reqs w) url = Stream data stop ->
        let destination :=
          choose_destination (fs w) dest_dir
            (derive_filename (UrlParse.path parsed)) overwrite in
        (is_dir (fs w) destination = true
         \/ is_dir (fs w) (parent destination) = false
         \/ denied destination = true ->
         fs (fst out) = fs w /\ exists msg, snd out = Raise (os_error msg))
        /\ (is_dir (fs w) destination = false ->
            is_dir (fs w) (parent destination) = true ->
            denied destination = false ->
            fs (fst out) = <[destination := File data]> (fs w)
            /\ fs (fst out) !! destination = Some (File data)
            /\ forall error, stop = Some error -> snd out = Raise error)).
Proof.
  intros out. subst out. rewrite download_file_run.
  destruct (UrlParse.urlparse host_check url "") as [parsed|e0].
  2:{ split; [by left|]. split; [done|]. split; [done|].
      split; [by intros error [= <-]|]. by intros parsed data stop [=]. }
  cbv zeta. set (destination := choose_destination _ _ _ _).
  destruct (net (reqs w) url) as [e0|data stop].
  { split; [by left|]. split; [done|]. split; [done|]. split; [done|].
    by intros parsed' data stop _ [=]. }
  destruct (is_dir (fs w) destination) eqn:Hd.
  { split; [by left|]. split; [done|]. split; [done|]. split; [done|].
    intros parsed' data' stop' [= <-] [= <- <-]. fold destination.
    rewrite Hd. split; [|done]. intros _. split; [done|]. by eexists. }
  destruct (is_dir (fs w) (parent destination)) eqn:Hp; cbn [negb].
  2:{ split; [by left|]. split; [done|]. split; [done|]. split; [done|].
      intros parsed' data' stop' [= <-] [= <- <-]. fold destination.
      rewrite Hp. split; [|done]. intros _. split; [done|]. by eexists. }
  destruct (denied destination) eqn:Hden.
  { split; [by left|]. split; [done|]. split; [done|]. split; [done|].
    intros parsed' data' stop' [= <-] [= <- <-]. fold destination.
    rewrite Hden. split; [|done]. intros _. split; [done|]. by eexists. }
  cbn [fst snd fs]. split; [|split; [done|split; [|split; [done|]]]].
  - intros error. destruct stop as [e|]; [|done]. intros [= <-].
    right. by exists parsed, data.
  - intros dest. destruct stop as [e|]; [done|]. intros [= <-].
    by exists data.
  - intros parsed' data' stop' [= <-] [= <- <-]. fold destination.
    rewrite Hd, Hp, Hden. split; [by intros [?|[?|?]]|].
    intros _ _ _. split; [done|]. split; [apply lookup_insert_eq|].
    by intros error ->.
Qed.

(** ** Directories, the manifest and the download loop *)

Lemma grown_refl (f : gmap (list string) node) : grown f f.
Proof. intros q. by left. Qed.

Lemma grown_trans (f g h : gmap (list string) node) :
  grown f g -> grown g h -> grown f h.
Proof.
  intros Hfg Hgh q. destruct (Hfg q) as [E1|[E1 E1']], (Hgh q) as [E2|[E2 E2']].
  - left. congruence.
  - right. split; congruence.
  - right. split; congruence.
  - congruence.
Qed.

Lemma grown_is_dir (f f' : gmap (list string) node) (q : Path) :
  grown f f' -> is_dir f q = true -> is_dir f' q = true.
Proof.
  intros H. unfold is_dir. destruct (H q) as [->|[-> ->]]; done.
Qed.

Section Loop.
Variable host_check : string -> option string.
Variable net : nat -> string -> response.
Variable denied : Path -> bool.

Lemma make_dirs_run (todo : list Path) :
  forall w, exists f' r,
    make_dirs denied todo w = (World f' (reqs w) (log w), r)
    /\ grown (fs w) f'
    /\ (r = Ok tt -> forall q, q ∈ todo -> is_dir f' q = true).
Proof.
  induction todo as [|q rest IH]; intros [f n l]; simpl.
  - exists f, (Ok tt). split; [done|]. split; [apply grown_refl|].
    by intros _ q ?%elem_of_nil.
  - unfold bind, get_fs. cbn [fs reqs log].
    destruct (is_dir f q) eqn:Hd.
    + destruct (IH (World f n l)) as (f' & r & -> & Hg & Hok).
      exists f', r. split; [done|]. split; [done|].
      intros Hr q' [->|Hin]%elem_of_cons; [|by apply Hok].
      by apply (grown_is_dir f).
    + destruct (path_exists f q) eqn:Hex.
      { exists f, (Raise (os_error "File exists")).
        split; [done|]. split; [apply grown_refl | done]. }
      destruct (denied q).
      { exists f, (Raise (os_error "Permission denied")).
        split; [done|]. split; [apply grown_refl | done]. }
      unfold put_fs. cbn [fs reqs log].
      destruct (IH (World (<[q := Dir]> f) n l)) as (f' & r & -> & Hg & Hok).
      exists f', r. split; [done|].
      assert (grown f (<[q := Dir]> f)) as Hg0.
      { intros q'. destruct (decide (q' = q)) as [->|Hne].
        - right. rewrite lookup_insert_eq. split; [|done].
          unfold path_exists in Hex. by destruct (f !! q).
        - left. by rewrite lookup_insert_ne. }
      split; [by apply (grown_trans _ _ _ Hg0)|].
      intros Hr q' [->|Hin]%elem_of_cons; [|by apply Hok].
      apply (grown_is_dir (<[q := Dir]> f)); [done|].
      unfold is_dir. by rewrite lookup_insert_eq.
Qed.

Lemma mkdir_parents_run (p : Path) (w : world) :
  exists f' r,
    mkdir_parents denied p w = (World f' (reqs w) (log w ++ [MkDir p]), r)
    /\ grown (fs w) f'
    /\ (r = Ok tt -> forall q, q ∈ prefixes p -> is_dir f' q = true).
Proof.
  unfold mkdir_parents, bind, emit.
  destruct (make_dirs_run (prefixes p)
              (World (fs w) (reqs w) (log w ++ [MkDir p])))
    as (f' & r & -> & Hg & Hok).
  by exists f', r.
Qed.

Lemma write_text_run (p : Path) (text : string) (w : world) :
  write_text denied p text w
  = let w1 := logged w (OpenW p) in
    if is_dir (fs w) p then (w1, Raise (os_error "Is a directory"))
    else if negb (is_dir (fs w) (parent p))
    then (w1, Raise (os_error "No such file or directory"))
    else if denied p then (w1, Raise (os_error "Permission denied"))
    else (World (<[p := File text]> (fs w)) (reqs w) (log w1), Ok tt).
Proof.
  unfold write_text, open_write, bind, emit, get_fs, logged. cbn [fs reqs log].
  destruct (is_dir (fs w) p); [done|].
  destruct (negb (is_dir (fs w) (parent p))); [done|].
  destruct (denied p); [done|].
  unfold put_fs, write_data, bind, get_fs, put_fs. cbn [fs reqs log].
  by rewrite insert_insert_eq.
Qed.

(** Writing a file where no directory is keeps the directories. *)
Lemma insert_file_is_dir (f : gmap (list string) node) (p q : Path)
    (data : string) :
  is_dir f p = false -> is_dir f q = true ->
  is_dir (<[p := File data]> f) q = true.
Proof.
  intros Hp Hq. destruct (decide (q = p)) as [->|Hne]; [congruence|].
  unfold is_dir in *. by rewrite lookup_insert_ne.
Qed.

Lemma urlparse_raises_ValueError (url default : string) (e : exn) :
  UrlParse.urlparse host_check url default = Raise e ->
  exn_cls e = ValueError.
Proof.
  unfold UrlParse.urlparse, UrlParse.urlsplit.
  destruct (UrlParse.split_scheme _ _) as [sch rest].
  destruct (if Str.startswith rest "//" then _ else _) as [nl rest'].
  unfold UrlParse.check_netloc.
  destruct (xorb _ _); [by intros [= <-]|].
  destruct (_ || _); [destruct (host_check nl); [by intros [= <-]|]|];
    cbn [rbind];
    destruct (match Str.partition "#" rest' with
              | Some (a, b) => (a, b) | None => (rest', "") end) as [u frag];
    destruct (match Str.partition "?" u with
              | Some (a, b) => (a, b) | None => (u, "") end) as [u' q];
    cbn [rbind];
    by destruct (if _ && _ then _ else _).
Qed.

(** The destination of a download is a file of the directory. *)
Lemma destination_shape (f : gmap (list string) node) (dest_dir : Path)
    (url_path : string) (overwrite : bool) :
  exists nm,
    choose_destination f dest_dir (derive_filename url_path) overwrite
    = dest_dir ++ [nm]
    /\ Str.mem "/" nm = false.
Proof.
  destruct (derive_filename_spec url_path) as (-> & Hext & Hslash & Hne).
  set (filename := if has_audio_extension _ then _ else _) in *.
  destruct (choose_destination_spec f dest_dir filename overwrite
              Hslash Hne Hext) as (Hfree & Hloop & _).
  destruct overwrite.
  - exists filename. split; [|done]. apply Hfree. by left.
  - destruct (path_exists f (dest_dir ++ [filename])) eqn:Hex.
    + destruct (Hloop eq_refl eq_refl) as (k & _ & -> & _).
      exists (candidate filename k). split; [done|].
      by apply candidate_no_slash.
    + exists filename. split; [|done]. apply Hfree. by right.
Qed.

(** The four ways a download can go. *)
Lemma download_file_cases (url : string) (dest_dir : Path) (overwrite : bool)
    (w w' : world) (r : result Path) :
  download_file host_check net denied url dest_dir overwrite w = (w', r) ->
  (exists e, r = Raise e /\ exn_cls e = ValueError /\ w' = w)
  \/ (exists e, r = Raise e /\ w' = requested w url)
  \/ (exists e dest, r = Raise e
                     /\ w' = logged (requested w url) (OpenW dest))
  \/ (exists nm data,
        Str.mem "/" nm = false
        /\ is_dir (fs w) (dest_dir ++ [nm]) = false
        /\ w' = World (<[dest_dir ++ [nm] := File data]> (fs w))
                  (S (reqs w))
                  ((log w ++ [Request url]) ++ [OpenW (dest_dir ++ [nm])])
        /\ (r = Ok (dest_dir ++ [nm]) \/ exists e, r = Raise e)).
Proof.
  rewrite download_file_run.
  destruct (UrlParse.urlparse host_check url "") as [parsed|e] eqn:Hp.
  - cbv zeta.
    destruct (destination_shape (fs w) dest_dir (UrlParse.path parsed)
                overwrite) as (nm & -> & Hnm).
    destruct (net (reqs w) url) as [e|data stop].
    + intros [= <- <-]. right; left. by exists e.
    + destruct (is_dir (fs w) (dest_dir ++ [nm])) eqn:Hd.
      { intros [= <- <-]. right; right; left. by eexists _, _. }
      destruct (negb (is_dir (fs w) (parent (dest_dir ++ [nm])))).
      { intros [= <- <-]. right; right; left. by eexists _, _. }
      destruct (denied (dest_dir ++ [nm])).
      { intros [= <- <-]. right; right; left. by eexists _, _. }
      intros [= <- <-]. right; right; right. exists nm, data.
      split; [done|]. split; [done|]. split; [done|].
      destruct stop as [e|]; [right; by exists e | by left].
  - intros [= <- <-]. left. exists e. split; [done|]. split; [|done].
    by apply urlparse_raises_ValueError in Hp.
Qed.
End Loop.

Section LoopFacts.
Variable host_check : string -> option string.
Variable net : nat -> string -> response.
Variable denied : Path -> bool.
Variable args : Args.

Lemma download_all_step (link : string) (rest : list string)
    (downloaded : list Path) (w : world) :
  download_all host_check net denied args (link :: rest) downloaded w
  = match download_file host_check net denied link (output args)
            (overwrite args) w with
    | (w1, Ok destination) =>
        download_all host_check net denied args rest
          (downloaded ++ [destination])
          (logged w1 (Out ("Downloaded " +:+ link +:+ " -> "
                           +:+ path_str destination)))
    | (w1, Raise error) =>
        if caught error
        then download_all host_check net denied args rest downloaded
               (logged w1 (Err ("Failed to download " +:+ link +:+ ": "
                                +:+ exn_msg error)))
        else (w1, Raise error)
    end.
Proof.
  cbn [download_all]. unfold bind at 1. unfold attempt.
  destruct (download_file _ _ _ _ _ _ w) as [w1 [destination|error]].
  - reflexivity.
  - unfold caught. by destruct (isinstance error _).
Qed.

(** A loop that returns went link by link as [batch] tells. *)
Lemma download_all_batch (links : list string) :
  forall (acc l : list Path) (w w' : world),
    download_all host_check net denied args links acc w = (w', Ok l) ->
    exists l0, l = acc ++ l0
               /\ batch host_check net denied args links w l0 w'.
Proof.
  induction links as [|link rest IH]; intros acc l w w' H.
  - injection H as <- <-. exists []. split; [by rewrite app_nil_r|].
    constructor.
  - rewrite download_all_step in H.
    destruct (download_file _ _ _ _ _ _ w) as [w1 [destination|error]] eqn:Hd.
    + apply IH in H as (l0 & -> & Hb).
      exists (destination :: l0). split; [by rewrite <- app_assoc|].
      by eapply batch_success.
    + destruct (caught error) eqn:Hc; [|done].
      apply IH in H as (l0 & -> & Hb).
      exists l0. split; [done|]. by eapply batch_failure.
Qed.

(** And what [batch] tells, the loop does. *)
Lemma batch_download_all (links : list string) (w w' : world)
    (l0 : list Path) :
  batch host_check net denied args links w l0 w' ->
  forall acc,
    download_all host_check net denied args links acc w = (w', Ok (acc ++ l0)).
Proof.
  induction 1 as [w|link rest w w1 w' dest l Hd Hb IH
                  |link rest w w1 w' e l Hd Hc Hb IH]; intros acc.
  - by rewrite app_nil_r.
  - rewrite download_all_step, Hd, IH. by rewrite <- app_assoc.
  - by rewrite download_all_step, Hd, Hc, IH.
Qed.

(** An exception of a caught class does not leave the loop. *)
Lemma download_all_raise (links : list string) :
  forall (acc : list Path) (w w' : world) (e : exn),
    download_all host_check net denied args links acc w = (w', Raise e) ->
    caught e = false.
Proof.
  induction links as [|link rest IH]; intros acc w w' e H; [done|].
  rewrite download_all_step in H.
  destruct (download_file _ _ _ _ _ _ w) as [w1 [destination|error]].
  - by apply IH in H.
  - destruct (caught error) eqn:Hc; [by apply IH in H|].
    by injection H as <- <-.
Qed.

Lemma caught_not_ValueError (e : exn) :
  exn_cls e = ValueError -> caught e = false.
Proof. destruct e as [[] msg]; by intros [=]. Qed.

(** The files of a batch lie in the output directory. *)
Lemma batch_destinations (links : list string) (w w' : world)
    (downloaded : list Path) :
  batch host_check net denied args links w downloaded w' ->
  Forall (fun dest => exists nm, dest = output args ++ [nm]
                                 /\ Str.mem "/" nm = false) downloaded.
Proof.
  induction 1 as [w|link rest w w1 w' dest l Hd Hb IH
                  |link rest w w1 w' e l Hd Hc Hb IH]; [done| |done].
  constructor; [|done].
  apply download_file_cases in Hd
    as [(e & [=] & _)|[(e & [=] & _)|[(e & d & [=] & _)|H]]].
  destruct H as (nm & data & Hnm & _ & _ & [[= ->]|[e [=]]]).
  by exists nm.
Qed.

(** A batch keeps the directories, and only adds to the log. *)
Lemma download_file_keeps_dirs (url : string) (w w' : world)
    (r : result Path) (q : Path) :
  download_file host_check net denied url (output args) (overwrite args) w
  = (w', r) ->
  is_dir (fs w) q = true -> is_dir (fs w') q = true.
Proof.
  intros Hd Hq.
  apply download_file_cases in Hd
    as [(e & _ & _ & ->)|[(e & _ & ->)|[(e & d & _ & ->)|H]]]; try done.
  destruct H as (nm & data & _ & Hnd & -> & _). cbn [fs].
  by apply insert_file_is_dir.
Qed.

Lemma batch_keeps_dirs (links : list string) (w w' : world)
    (downloaded : list Path) (q : Path) :
  batch host_check net denied args links w downloaded w' ->
  is_dir (fs w) q = true -> is_dir (fs w') q = true.
Proof.
  induction 1 as [w|link rest w w1 w' dest l Hd Hb IH
                  |link rest w w1 w' e l Hd Hc Hb IH]; [done| |];
    intros Hq; apply IH; cbn [logged fs];
    by apply (download_file_keeps_dirs _ _ _ _ _ Hd).
Qed.

Lemma download_file_log (url : string) (w w' : world) (r : result Path) :
  download_file host_check net denied url (output args) (overwrite args) w
  = (w', r) ->
  exists evs, log w' = log w ++ evs
              /\ ((forall e, r = Raise e -> caught e = true) ->
                  Request url ∈ evs).
Proof.
  intros Hd.
  apply download_file_cases in Hd
    as [(e & -> & Hv & ->)|[(e & _ & ->)|[(e & d & _ & ->)|H]]].
  - exists []. split; [by rewrite app_nil_r|]. intros Hc.
    specialize (Hc e eq_refl). by rewrite caught_not_ValueError in Hc.
  - exists [Request url]. split; [done|]. intros _. by left.
  - exists [Request url; OpenW d].
    split; [cbn [logged requested log]; by rewrite <- app_assoc|].
    intros _. by left.
  - destruct H as (nm & data & _ & _ & -> & _).
    exists [Request url; OpenW (output args ++ [nm])].
    split; [cbn [log]; by rewrite <- app_assoc|]. intros _. by left.
Qed.

(** In a batch every link is requested, and answered by a line: on the
    standard output if its file was downloaded, on the error stream, with
    the link in it, if its download failed. *)
Lemma batch_log (links : list string) (w w' : world)
    (downloaded : list Path) :
  batch host_check net denied args links w downloaded w' ->
  exists evs,
    log w' = log w ++ evs
    /\ forall link, link ∈ links ->
         Request link ∈ evs
         /\ ((exists dest, dest ∈ downloaded
                /\ Out ("Downloaded " +:+ link +:+ " -> " +:+ path_str dest)
                   ∈ evs)
             \/ (exists error, caught error = true
                   /\ Err ("Failed to download " +:+ link +:+ ": "
                           +:+ exn_msg error) ∈ evs)).
Proof.
  induction 1 as [w|link rest w w1 w' dest l Hd Hb (evs & Hlog & IH)
                  |link rest w w1 w' e l Hd Hc Hb (evs & Hlog & IH)].
  - exists []. split; [by rewrite app_nil_r|]. by intros link ?%elem_of_nil.
  - destruct (download_file_log _ _ _ _ Hd) as (evs1 & Hlog1 & Hreq).
    cbn [logged log] in Hlog. rewrite Hlog1 in Hlog.
    set (line := Out _) in *.
    exists (evs1 ++ [line] ++ evs).
    split; [rewrite Hlog; by rewrite <- !app_assoc|].
    intros link' [->|Hin]%elem_of_cons.
    + split; [apply elem_of_app; left; by apply Hreq|].
      left. exists dest. split; [by left|].
      apply elem_of_app; right. by left.
    + destruct (IH link' Hin) as [Hr Hline]. split.
      * apply elem_of_app; right. by right.
      * destruct Hline as [(d & Hdin & Hout)|(er & Her & Herr)].
        -- left. exists d. split; [by right|].
           apply elem_of_app; right. by right.
        -- right. exists er. split; [done|].
           apply elem_of_app; right. by right.
  - destruct (download_file_log _ _ _ _ Hd) as (evs1 & Hlog1 & Hreq).
    cbn [logged log] in Hlog. rewrite Hlog1 in Hlog.
    set (line := Err _) in *.
    exists (evs1 ++ [line] ++ evs).
    split; [rewrite Hlog; by rewrite <- !app_assoc|].
    intros link' [->|Hin]%elem_of_cons.
    + split; [apply elem_of_app; left; apply Hreq; by intros ? [= <-]|].
      right. exists e. split; [done|].
      apply elem_of_app; right. by left.
    + destruct (IH link' Hin) as [Hr Hline]. split.
      * apply elem_of_app; right. by right.
      * destruct Hline as [(d & Hdin & Hout)|(er & Her & Herr)].
        -- left. exists d. split; [done|].
           apply elem_of_app; right. by right.
        -- right. exists er. split; [done|].
           apply elem_of_app; right. by right.
Qed.
End LoopFacts.

(** ** The manifest *)

Lemma manifest_path_eq (args : Args) :
  manifest_path_of args = output args ++ ["manifest.json"].
Proof. unfold manifest_path_of. by apply joinpath_single. Qed.

Lemma parent_snoc (p : Path) (nm : string) :
  Str.mem "/" nm = false -> parent (p ++ [nm]) = p.
Proof.
  intros Hnm. unfold parent. destruct p as [|a p]; simpl.
  - by rewrite is_root_no_slash.
  - destruct (p ++ [nm]) as [|b rest] eqn:E; [by destruct p|].
    rewrite <- E. change (a :: p ++ [nm]) with ((a :: p) ++ [nm]).
    by rewrite removelast_last.
Qed.

Lemma strip_prefix_app (p q : Path) : strip_prefix p (p ++ q) = Some q.
Proof.
  induction p as [|a p IH]; simpl; [done|]. by rewrite String.eqb_refl.
Qed.

Lemma path_str_single (nm : string) :
  Str.mem "/" nm = false -> path_str [nm] = nm.
Proof. intros Hnm. unfold path_str. by rewrite is_root_no_slash. Qed.

Lemma manifest_entry_in_dir (dir : Path) (source_url nm : string) :
  Str.mem "/" nm = false ->
  manifest_entry (dir ++ ["manifest.json"]) source_url (dir ++ [nm])
  = Ok (entry_of source_url nm).
Proof.
  intros Hnm. unfold manifest_entry, relative_to.
  rewrite parent_snoc by done. rewrite strip_prefix_app.
  assert ((match dir with
           | [] => has_root (dir ++ [nm])
           | _ :: _ => false
           end) = false) as ->.
  { destruct dir; [|done]. cbn. by apply is_root_no_slash. }
  cbn [rbind]. by rewrite name_snoc, path_str_single.
Qed.

(** For files of the output directory, the dictionary that
    [write_manifest] builds is [manifest_of]. *)
Lemma manifest_data_in_dir (dir : Path) (source_url : string)
    (files : list Path) :
  Forall (fun dest => exists nm, dest = dir ++ [nm]
                                 /\ Str.mem "/" nm = false) files ->
  manifest_data (dir ++ ["manifest.json"]) source_url files
  = Ok (manifest_of source_url files).
Proof.
  intros Hfiles. unfold manifest_data, manifest_of.
  assert (rmap (manifest_entry (dir ++ ["manifest.json"]) source_url) files
          = Ok (List.map (fun p => entry_of source_url (name p)) files)) as ->;
    [|done].
  induction Hfiles as [|dest rest (nm & -> & Hnm) _ IH]; [done|].
  cbn [rmap List.map]. rewrite manifest_entry_in_dir by done.
  cbn [rbind]. rewrite IH. cbn [rbind]. by rewrite name_snoc.
Qed.

Section MainFacts.
Variable host_check : string -> option string.
Variable net : nat -> string -> response.
Variable denied : Path -> bool.

Lemma write_manifest_run (mp : Path) (source_url : string)
    (files : list Path) (w : world) :
  write_manifest denied mp source_url files w
  = match manifest_data mp source_url files with
    | Raise e => (w, Raise e)
    | Ok data =>
        write_text denied mp (dumps data +:+ String "010" "") w
    end.
Proof.
  unfold write_manifest, bind, lift.
  by destruct (manifest_data mp source_url files).
Qed.

(** [main], spelled out stage by stage. *)
Lemma main_run (args : Args) (w : world) :
  main host_check net denied args w
  = let w1 := requested w (url args) in
    match whole_body (net (reqs w) (url args)) with
    | Raise error =>
        if isinstance error [HTTPError; URLError]
        then (logged w1 (Err ("Failed to fetch " +:+ url args +:+ ": "
                              +:+ exn_msg error)), Ok 1%Z)
        else (w1, Raise error)
    | Ok html =>
        match extract_links host_check html (url args) with
        | Raise e => (w1, Raise e)
        | Ok [] => (logged w1 (Out "No audio links found."), Ok 0%Z)
        | Ok links =>
            let w2 := announced w1 links in
            if dry_run args then (w2, Ok 0%Z)
            else
              match mkdir_parents denied (output args) w2 with
              | (w3, Raise e) => (w3, Raise e)
              | (w3, Ok _) =>
                  match download_all host_check net denied args links [] w3
                  with
                  | (w4, Raise e) => (w4, Raise e)
                  | (w4, Ok []) =>
                      (logged w4 (Out "No files were downloaded."), Ok 0%Z)
                  | (w4, Ok downloaded) =>
                      match write_manifest denied (manifest_path_of args)
                              (url args) downloaded w4 with
                      | (w5, Raise e) => (w5, Raise e)
                      | (w5, Ok _) =>
                          (logged w5
                             (Out ("Wrote manifest with "
                                   +:+ pretty (length downloaded)
                                   +:+ " entries to "
                                   +:+ path_str (manifest_path_of args))),
                           Ok 0%Z)
                      end
                  end
              end
        end
    end.
Proof.
  unfold main. unfold bind at 1. unfold attempt. rewrite fetch_html_run.
  cbv zeta.
  destruct (whole_body (net (reqs w) (url args))) as [html|error].
  - unfold bind at 1. unfold lift.
    destruct (extract_links host_check html (url args)) as [links|e]; [|done].
    destruct links as [|link rest]; [done|].
    set (links := link :: rest).
    unfold bind at 1. unfold print at 1, emit.
    unfold bind at 1. rewrite print_links_run.
    cbn [fs reqs log]. rewrite <- app_assoc.
    change (World (fs (requested w (url args))) (reqs (requested w (url args)))
              (log (requested w (url args)) ++ _))
      with (announced (requested w (url args)) links).
    destruct (dry_run args); [done|].
    unfold bind at 1. unfold ensure_directory.
    destruct (mkdir_parents denied (output args) _) as [w3 [[]|e]]; [|done].
    unfold bind at 1.
    destruct (download_all _ _ _ _ _ _ w3) as [w4 [downloaded|e]]; [|done].
    destruct downloaded as [|d ds]; [done|].
    unfold bind at 1. fold (manifest_path_of args).
    destruct (write_manifest _ _ _ _ w4) as [w5 [[]|e]]; done.
  - destruct (isinstance error [HTTPError; URLError]); done.
Qed.
End MainFacts.

(** ** The runs of [main] *)

Section MainStages.
Variable host_check : string -> option string.
Variable net : nat -> string -> response.
Variable denied : Path -> bool.

(** A run that downloads and returns: the directory is made, the loop
    goes as a batch, and the manifest is written if and only if the batch
    has downloaded a file. *)
Lemma main_download_stage (args : Args) (w : world) (html : string)
    (links : list string) (code : Z) :
  whole_body (net (reqs w) (url args)) = Ok html ->
  extract_links host_check html (url args) = Ok links ->
  links <> [] -> dry_run args = false ->
  snd (main host_check net denied args w) = Ok code ->
  exists w2 w3 downloaded,
    mkdir_parents denied (output args)
      (announced (requested w (url args)) links) = (w2, Ok tt)
    /\ batch host_check net denied args links w2 downloaded w3
    /\ code = 0%Z
    /\ (downloaded <> [] ->
        fst (main host_check net denied args w)
        = manifest_written args w3 downloaded)
    /\ (downloaded = [] ->
        fst (main host_check net denied args w)
        = logged w3 (Out "No files were downloaded.")).
Proof.
  intros Hfetch Hlinks Hne Hdry. rewrite main_run, Hfetch, Hlinks, Hdry.
  cbv zeta. destruct links as [|link rest]; [done|].
  set (links := link :: rest) in *.
  destruct (mkdir_parents denied (output args) _) as [w2 [[]|e]]; [|done].
  destruct (download_all _ _ _ _ _ _ w2) as [w3 [downloaded|e]] eqn:Hloop;
    [|done].
  apply download_all_batch in Hloop as (l0 & Hl0 & Hb). simpl in Hl0.
  subst l0.
  destruct downloaded as [|d ds].
  { intros [= <-]. exists w2, w3, []. by repeat split. }
  rewrite write_manifest_run, manifest_path_eq.
  rewrite (manifest_data_in_dir _ _ _ (batch_destinations _ _ _ _ _ _ _ _ Hb)).
  rewrite write_text_run. cbv zeta.
  destruct (is_dir (fs w3) _); [done|].
  destruct (negb (is_dir (fs w3) _)); [done|].
  destruct (denied _); [done|].
  cbn [fst snd]. intros [= <-]. exists w2, w3, (d :: ds).
  split; [done|]. split; [done|]. split; [done|]. split; [|done].
  intros _. unfold manifest_written, logged, manifest_text.
  cbn [fs reqs log]. by rewrite <- app_assoc.
Qed.
Lemma make_dirs_raise (todo : list Path) :
  forall (w w' : world) (e : exn),
    make_dirs denied todo w = (w', Raise e) -> exists msg, e = os_error msg.
Proof.
  induction todo as [|q rest IH]; intros w w' e; simpl; [done|].
  unfold bind, get_fs.
  destruct (is_dir (fs w) q); [apply IH|].
  destruct (path_exists (fs w) q); [intros [= _ <-]; by eexists|].
  destruct (denied q); [intros [= _ <-]; by eexists|].
  apply IH.
Qed.

Lemma mkdir_parents_raise (p : Path) (w w' : world) (e : exn) :
  mkdir_parents denied p w = (w', Raise e) -> exists msg, e = os_error msg.
Proof. unfold mkdir_parents, bind, emit. apply make_dirs_raise. Qed.

(** An exception that leaves the loop was raised by a download. *)
Lemma download_all_raise_from (args : Args) (links : list string) :
  forall (acc : list Path) (w w' : world) (e : exn),
    download_all host_check net denied args links acc w = (w', Raise e) ->
    exists link w0 w1,
      download_file host_check net denied link (output args)
        (overwrite args) w0 = (w1, Raise e).
Proof.
  induction links as [|link rest IH]; intros acc w w' e H; [done|].
  rewrite download_all_step in H.
  destruct (download_file _ _ _ _ _ _ w) as [w1 [destination|error]] eqn:Hd.
  - by apply IH in H.
  - destruct (caught error) eqn:Hc; [by apply IH in H|].
    injection H as <- <-. by exists link, w, w1.
Qed.
(** The ways a download can raise. *)
Lemma download_file_raises (url : string) (dest_dir : Path)
    (overwrite : bool) (w w' : world) (e : exn) :
  download_file host_check net denied url dest_dir overwrite w
  = (w', Raise e) ->
  parses host_check url = false
  \/ net (reqs w) url = Refused e
  \/ (exists msg, e = os_error msg)
  \/ exists data, net (reqs w) url = Stream data (Some e).
Proof.
  rewrite download_file_run. unfold parses.
  destruct (UrlParse.urlparse host_check url "") as [parsed|e0];
    [|by left].
  cbv zeta. destruct (net (reqs w) url) as [e0|data stop].
  { intros [= _ <-]. right; by left. }
  destruct (is_dir (fs w) _);
    [intros [= _ <-]; right; right; left; by eexists|].
  destruct (negb (is_dir (fs w) _));
    [intros [= _ <-]; right; right; left; by eexists|].
  destruct (denied _);
    [intros [= _ <-]; right; right; left; by eexists|].
  destruct stop as [e0|]; [|done].
  intros [= _ <-]. right; right; right. by exists data.
Qed.

(** An exception that leaves the loop was raised by the download of one
    of the links, and is of no class that the loop catches. *)
Lemma download_all_raise_link (args : Args) (links : list string) :
  forall (acc : list Path) (w w' : world) (e : exn),
    download_all host_check net denied args links acc w = (w', Raise e) ->
    exists link w0 w1,
      link ∈ links
      /\ download_file host_check net denied link (output args)
           (overwrite args) w0 = (w1, Raise e)
      /\ caught e = false.
Proof.
  induction links as [|link rest IH]; intros acc w w' e H; [done|].
  rewrite download_all_step in H.
  destruct (download_file _ _ _ _ _ _ w) as [w1 [destination|error]] eqn:Hd.
  - apply IH in H as (l & w0 & w2 & Hin & H). exists l, w0, w2.
    split; [by right|done].
  - destruct (caught error) eqn:Hc.
    + apply IH in H as (l & w0 & w2 & Hin & H). exists l, w0, w2.
      split; [by right|done].
    + injection H as <- <-. exists link, w, w1. split; [by left|done].
Qed.

(** When the links parse and the network raises exceptions of caught
    classes only, no exception leaves the loop. *)
Lemma download_all_returns (args : Args) (links : list string) :
  (forall link, link ∈ links -> parses host_check link = true) ->
  (forall n link e, net n link = Refused e -> caught e = true) ->
  (forall n link data e,
     net n link = Stream data (Some e) -> caught e = true) ->
  forall (acc : list Path) (w : world),
    exists w' l,
      download_all host_check net denied args links acc w = (w', Ok l).
Proof.
  intros Hparse Hrefused Hbroken.
  induction links as [|link rest IH]; intros acc w; [by eexists _, _|].
  rewrite download_all_step.
  destruct (download_file _ _ _ _ _ _ w) as [w1 [destination|error]] eqn:Hd.
  - apply IH. intros l Hl. apply Hparse. by right.
  - assert (caught error = true) as ->.
    { apply download_file_raises in Hd as [Hp|[Hr|[[msg ->]|[data Hs]]]].
      - by rewrite (Hparse link ltac:(by left)) in Hp.
      - by apply (Hrefused _ _ _ Hr).
      - done.
      - by apply (Hbroken _ _ _ _ Hs). }
    apply IH. intros l Hl. apply Hparse. by right.
Qed.
End MainStages.

(** C5, as stated, fails: the page is fetched, and the run still ends with
    status 1, because the output path is a file and the exception of
    [mkdir] leaves [main]. *)
Lemma C5_counterexample :
  let out := main no_host_error net_ok deny_none args_out w_out_file in
  whole_body (net_ok (reqs w_out_file) (url args_out)) = Ok page_one
  /\ snd out = Raise (os_error "File exists")
  /\ exit_status (snd out) = 1%Z.
Proof. by vm_compute. Qed.

(** C5, amended.  [main] returns 1 exactly when the fetch of the page
    raises an [HTTPError] or a [URLError], and has then written nothing
    but the request and one line on the error stream.  A run that returns
    in any other way returns 0: so with no link, and so in a dry run.
    In a run that downloads and returns, every link is requested and
    answered by a line, on the error stream and with the link in it if its
    download raised an exception of a caught class.  A download that
    raises an exception of a caught class does not end the loop: the line
    is printed and the loop goes on with the links that are left.  So an
    exception that leaves [main] while it downloads is the [OSError] of
    the directory or of the manifest, or the exception of a download that
    is of no caught class; and when the links parse and the network raises
    exceptions of caught classes only, the loop handles every link, and
    [main] returns 0 or raises the [OSError] of the directory or of the
    manifest. *)
Theorem C5_exit_codes
    (host_check : string -> option string) (net : nat -> string -> response)
    (denied : Path -> bool) (args : Args) (w : world) :
  let out := main host_check net denied args w in
  let fetched := whole_body (net (reqs w) (url args)) in
  (snd out = Ok 1%Z <->
   exists error, fetched = Raise error
                 /\ isinstance error [HTTPError; URLError] = true)
  /\ (snd out = Ok 1%Z ->
      fs (fst out) = fs w
      /\ exists error,
           log (fst out)
           = log w ++ [Request (url args);
                       Err ("Failed to fetch " +:+ url args +:+ ": "
                            +:+ exn_msg error)])
  /\ (forall code, snd out = Ok code -> code = 0%Z \/ code = 1%Z)
  /\ (forall link rest acc w0 w1 error,
        download_file host_check net denied link (output args)
          (overwrite args) w0 = (w1, Raise error) ->
        caught error = true ->
        download_all host_check net denied args (link :: rest) acc w0
        = download_all host_check net denied args rest acc
            (logged w1 (Err ("Failed to download " +:+ link +:+ ": "
                             +:+ exn_msg error))))
  /\ (forall html links,
        fetched = Ok html ->
        extract_links host_check html (url args) = Ok links ->
        (links = [] \/ dry_run args = true -> snd out = Ok 0%Z)
        /\ (links <> [] -> dry_run args = false ->
            (forall code, snd out = Ok code ->
               code = 0%Z
               /\ exists evs,
                    log (fst out) = log w ++ evs
                    /\ forall link, link ∈ links ->
                         Request link ∈ evs
                         /\ ((exists dest,
                                Out ("Downloaded " +:+ link +:+ " -> "
                                     +:+ path_str dest) ∈ evs)
                             \/ (exists error,
                                   caught error = true
                                   /\ Err ("Failed to download " +:+ link
                                           +:+ ": " +:+ exn_msg error)
                                      ∈ evs)))
            /\ (forall e, snd out = Raise e ->
                  (exists msg, e = os_error msg)
                  \/ exists link w0 w1,
                       link ∈ links
                       /\ download_file host_check net denied link
                            (output args) (overwrite args) w0
                          = (w1, Raise e)
                       /\ caught e = false)
            /\ ((forall link, link ∈ links ->
                   parses host_check link = true) ->
                (forall n link e, net n link = Refused e ->
                   caught e = true) ->
                (forall n link data e,
                   net n link = Stream data (Some e) -> caught e = true) ->
                (snd out = Ok 0%Z
                 \/ exists msg, snd out = Raise (os_error msg))
                /\ forall w2,
                     mkdir_parents denied (output args)
                       (announced (requested w (url args)) links)
                     = (w2, Ok tt) ->
                     exists w3 downloaded,
                       download_all host_check net denied args links [] w2
                       = (w3, Ok downloaded)
                       /\ exists evs,
                            log w3 = log w2 ++ evs
                            /\ forall link, link ∈ links ->
                                 Request link ∈ evs
                                 /\ ((exists dest,
                                        dest ∈ downloaded
                                        /\ Out ("Downloaded " +:+ link
                                                +:+ " -> "
                                                +:+ path_str dest) ∈ evs)
                                     \/ (exists error,
                                           caught error = true
                                           /\ Err ("Failed to download "
                                                   +:+ link +:+ ": "
                                                   +:+ exn_msg error)
                                              ∈ evs))))).
Proof.
  intros out fetched.
  assert ((snd out = Ok 1%Z <->
           exists error, fetched = Raise error
                         /\ isinstance error [HTTPError; URLError] = true)
          /\ (snd out = Ok 1%Z ->
              fs (fst out) = fs w
              /\ exists error,
                   log (fst out)
                   = log w ++ [Request (url args);
                               Err ("Failed to fetch " +:+ url args +:+ ": "
                                    +:+ exn_msg error)])
          /\ (forall code, snd out = Ok code -> code = 0%Z \/ code = 1%Z))
    as (H1 & H2 & H3).
  { subst out fetched. rewrite main_run. cbv zeta.
    destruct (whole_body (net (reqs w) (url args))) as [html|error].
    - assert (forall x : world * result Z,
                (snd x = Ok 0%Z \/ exists e, snd x = Raise e) ->
                (snd x = Ok 1%Z <->
                 exists error, Ok html = Raise error
                               /\ isinstance error [HTTPError; URLError]
                                  = true)
                /\ (snd x = Ok 1%Z ->
                    fs (fst x) = fs w
                    /\ exists error,
                         log (fst x)
                         = log w ++ [Request (url args);
                                     Err ("Failed to fetch " +:+ url args
                                          +:+ ": " +:+ exn_msg error)])
                /\ (forall code, snd x = Ok code ->
                      code = 0%Z \/ code = 1%Z)) as Hleaf.
      { intros [wx rx] [Hx|[e Hx]]; simpl in Hx; subst rx; simpl.
        - split; [split; [done | by intros (? & ? & _)]|].
          split; [done|]. intros code [= <-]. by left.
        - split; [split; [done | by intros (? & ? & _)]|].
          split; done. }
      apply Hleaf.
      destruct (extract_links host_check html (url args)) as [links|e];
        [|right; by eexists].
      destruct links as [|link rest]; [by left|].
      destruct (dry_run args); [by left|].
      destruct (mkdir_parents denied (output args) _) as [w3 [[]|e]];
        [|right; by eexists].
      destruct (download_all _ _ _ _ _ _ w3) as [w4 [downloaded|e]];
        [|right; by eexists].
      destruct downloaded as [|d ds]; [by left|].
      destruct (write_manifest _ _ _ _ w4) as [w5 [[]|e]];
        [by left | right; by eexists].
    - destruct (isinstance error [HTTPError; URLError]) eqn:Hi;
        cbn [fst snd logged requested fs log reqs].
      + split; [split; [by exists error | done]|].
        split; [|intros code [= <-]; by right].
        intros _. split; [done|]. exists error.
        by rewrite <- app_assoc.
      + split; [split; [done|]|split; done].
        intros (error' & [= <-] & Hi'). congruence. }
  split; [done|]. split; [done|]. split; [done|].
  split.
  { intros link rest acc w0 w1 error Hd Hc.
    by rewrite download_all_step, Hd, Hc. }
  intros html links Hf Hl. split.
  - intros Hcase. subst out fetched. rewrite main_run, Hf, Hl. cbv zeta.
    destruct links as [|link rest]; [done|].
    destruct Hcase as [?| ->]; done.
  - intros Hne Hdry. split.
    + intros code Hret.
      destruct (main_download_stage host_check net denied args w html links
                  code Hf Hl Hne Hdry Hret)
        as (w2 & w3 & downloaded & Hmk & Hb & -> & Hsome & Hnone).
      split; [done|].
      destruct (mkdir_parents_run denied (output args)
                  (announced (requested w (url args)) links))
        as (f2 & r2 & Hmk' & _).
      rewrite Hmk in Hmk'. injection Hmk' as -> _.
      destruct (batch_log _ _ _ _ _ _ _ _ Hb) as (evs & Hlog & Hev).
      cbn [log announced requested] in Hlog.
      assert (exists tail, log (fst out) = log w3 ++ tail) as [tail Htail].
      { destruct downloaded as [|d ds].
        - fold out in Hnone. rewrite (Hnone eq_refl). by eexists.
        - fold out in Hsome. rewrite (Hsome ltac:(done)). by eexists. }
      eexists. split.
      { rewrite Htail, Hlog. rewrite <- !app_assoc. reflexivity. }
      intros link Hin. destruct (Hev link Hin) as [Hreq Hline].
      split.
      * apply elem_of_app; right. apply elem_of_app; right.
        apply elem_of_app; right. apply elem_of_app; left. done.
      * destruct Hline as [(dest & _ & Hout)|(error & Hc & Herr)].
        -- left. exists dest.
           apply elem_of_app; right. apply elem_of_app; right.
           apply elem_of_app; right. apply elem_of_app; left. done.
        -- right. exists error. split; [done|].
           apply elem_of_app; right. apply elem_of_app; right.
           apply elem_of_app; right. apply elem_of_app; left. done.
    + split.
      * intros e. subst out fetched. rewrite main_run, Hf, Hl, Hdry.
        cbv zeta. destruct links as [|link rest]; [done|].
        destruct (mkdir_parents denied (output args) _)
          as [w3 [[]|e0]] eqn:Hmk.
        2:{ intros [= <-]. left.
            by apply mkdir_parents_raise in Hmk. }
        destruct (download_all _ _ _ _ _ _ w3)
          as [w4 [downloaded|e0]] eqn:Hloop.
        2:{ intros [= <-]. right.
            by apply download_all_raise_link in Hloop. }
        destruct downloaded as [|d ds]; [done|].
        apply download_all_batch in Hloop as (l0 & Hl0 & Hb).
        simpl in Hl0. subst l0.
        rewrite write_manifest_run, manifest_path_eq.
        rewrite (manifest_data_in_dir _ _ _
                   (batch_destinations _ _ _ _ _ _ _ _ Hb)).
        rewrite write_text_run. cbv zeta.
        destruct (is_dir (fs w4) _); [intros [= <-]; left; by eexists|].
        destruct (negb (is_dir (fs w4) _));
          [intros [= <-]; left; by eexists|].
        destruct (denied _); [intros [= <-]; left; by eexists|].
        done.
      * intros Hparse Hrefused Hbroken. split.
        -- subst out fetched. rewrite main_run, Hf, Hl, Hdry.
           cbv zeta. destruct links as [|link rest]; [done|].
           destruct (mkdir_parents denied (output args) _)
             as [w3 [[]|e]] eqn:Hmk.
           2:{ right. apply mkdir_parents_raise in Hmk as [msg ->].
               by exists msg. }
           destruct (download_all_returns host_check net denied args
                       (link :: rest) Hparse Hrefused Hbroken [] w3)
             as (w4 & downloaded & Hloop).
           rewrite Hloop.
           destruct downloaded as [|d ds]; [by left|].
           apply download_all_batch in Hloop as (l0 & Hl0 & Hb).
           simpl in Hl0. subst l0.
           rewrite write_manifest_run, manifest_path_eq.
           rewrite (manifest_data_in_dir _ _ _
                      (batch_destinations _ _ _ _ _ _ _ _ Hb)).
           rewrite write_text_run. cbv zeta.
           destruct (is_dir (fs w4) _); [right; by eexists|].
           destruct (negb (is_dir (fs w4) _)); [right; by eexists|].
           destruct (denied _); [right; by eexists|].
           by left.
        -- intros w2 Hmk.
           destruct (download_all_returns host_check net denied args
                       links Hparse Hrefused Hbroken [] w2)
             as (w3 & downloaded & Hloop).
           exists w3, downloaded. split; [done|].
           apply download_all_batch in Hloop as (l0 & Hl0 & Hb).
           simpl in Hl0. subst l0.
           by apply (batch_log _ _ _ _ _ _ _ _ Hb).
Qed.

(** The entries of a manifest, whatever the files. *)
Lemma manifest_data_entries (mp : Path) (source_url : string)
    (files : list Path) (data : json) :
  manifest_data mp source_url files = Ok data ->
  exists entries,
    data = JDict [("source_page", JStr source_url);
                  ("file_count", JInt (length files));
                  ("files", JList entries)]
    /\ Forall2 (fun file entry =>
                  exists rel,
                    entry = JDict [("filename", JStr (name file));
                                   ("relative_path", JStr rel);
                                   ("source_url", JStr source_url)])
         files entries.
Proof.
  unfold manifest_data.
  destruct (rmap (manifest_entry mp source_url) files) as [entries|e] eqn:H;
    cbn [rbind]; [|done].
  intros [= <-]. exists entries. split; [done|].
  revert entries H. induction files as [|file rest IH]; intros entries H.
  - injection H as <-. constructor.
  - cbn [rmap] in H. unfold manifest_entry at 1 in H.
    destruct (relative_to file (parent mp)) as [rel|e]; cbn [rbind] in H;
      [|done].
    destruct (rmap (manifest_entry mp source_url) rest) as [es|e];
      cbn [rbind] in H; [|done].
    injection H as <-. constructor; [by exists (path_str rel) | by apply IH].
Qed.

(** C7, as stated, fails: a file is downloaded, and no manifest is
    written, because what is at the path of the manifest is a directory
    and the exception of the write leaves [main]. *)
Lemma C7_counterexample :
  let out := main no_host_error net_ok deny_none args_out w_manifest_dir in
  fs (fst out) !! ["out"; "a.mp3"] = Some (File "ID3")
  /\ Out "Downloaded http://x.com/a.mp3 -> out/a.mp3" ∈ log (fst out)
  /\ fs (fst out) !! ["out"; "manifest.json"] = Some Dir
  /\ snd out = Raise (os_error "Is a directory").
Proof.
  cbv zeta. split; [by vm_compute|]. split; [|split; by vm_compute].
  apply list_elem_of_In. vm_compute. tauto.
Qed.

(** C7, amended.  In a run of [main] that returns, the manifest is written
    if and only if the loop has downloaded a file.  With no link and in a
    dry run nothing is written at all.  Else the directory is made and the
    loop goes as a batch; if the batch has downloaded files, the file at
    the path of the manifest is replaced by the text of their manifest,
    whose list has one entry for each of them, in their order, and whose
    count is the length of this list; if it has downloaded none, the loop
    is followed by one line of output only. *)
Theorem C7_manifest_written_iff_downloaded
    (host_check : string -> option string) (net : nat -> string -> response)
    (denied : Path -> bool) (args : Args) (w : world) (html : string)
    (links : list string) (code : Z) :
  let out := main host_check net denied args w in
  let mp := output args ++ ["manifest.json"] in
  whole_body (net (reqs w) (url args)) = Ok html ->
  extract_links host_check html (url args) = Ok links ->
  snd out = Ok code ->
  (links = [] \/ dry_run args = true -> fs (fst out) = fs w)
  /\ (links <> [] -> dry_run args = false ->
      exists w2 w3 downloaded,
        mkdir_parents denied (output args)
          (announced (requested w (url args)) links) = (w2, Ok tt)
        /\ batch host_check net denied args links w2 downloaded w3
        /\ (downloaded <> [] ->
            fs (fst out)
            = <[mp := File (manifest_text (url args) downloaded)]> (fs w3)
            /\ log (fst out)
               = log w3
                 ++ [OpenW mp;
                     Out ("Wrote manifest with "
                          +:+ pretty (length downloaded)
                          +:+ " entries to " +:+ path_str mp)])
        /\ (downloaded = [] ->
            fs (fst out) = fs w3
            /\ log (fst out) = log w3 ++ [Out "No files were downloaded."])
        /\ manifest_data (manifest_path_of args) (url args) downloaded
           = Ok (manifest_of (url args) downloaded)
        /\ get "file_count" (manifest_of (url args) downloaded)
           = Some (JInt (length downloaded))
        /\ get "files" (manifest_of (url args) downloaded)
           = Some (JList (List.map (fun p => entry_of (url args) (name p))
                            downloaded))).
Proof.
  intros out mp Hf Hl Hret. split.
  - intros Hcase. subst out. rewrite main_run, Hf, Hl. cbv zeta.
    destruct links as [|link rest]; [done|].
    destruct Hcase as [?| ->]; done.
  - intros Hne Hdry.
    destruct (main_download_stage host_check net denied args w html links
                code Hf Hl Hne Hdry Hret)
      as (w2 & w3 & downloaded & Hmk & Hb & _ & Hsome & Hnone).
    fold out in Hsome, Hnone.
    exists w2, w3, downloaded. split; [done|]. split; [done|].
    split; [intros Hd; by rewrite (Hsome Hd)|].
    split; [intros Hd; by rewrite (Hnone Hd)|].
    split; [|done].
    rewrite manifest_path_eq. apply manifest_data_in_dir.
    by apply (batch_destinations _ _ _ _ _ _ _ _ Hb).
Qed.

(** C8.  In a dry run [main] leaves the file system as it was: what it
    does is a request and lines of output, no directory is made and no
    file is opened for writing. *)
Theorem C8_dry_run_leaves_file_system
    (host_check : string -> option string) (net : nat -> string -> response)
    (denied : Path -> bool) (args : Args) (w : world) :
  dry_run args = true ->
  let out := main host_check net denied args w in
  fs (fst out) = fs w
  /\ exists evs, log (fst out) = log w ++ evs
                 /\ forall e, e ∈ evs -> is_fs_event e = false.
Proof.
  intros Hdry out. subst out. rewrite main_run, Hdry. cbv zeta.
  destruct (whole_body (net (reqs w) (url args))) as [html|error].
  - destruct (extract_links host_check html (url args)) as [links|e].
    + destruct links as [|link rest]; cbn [fst fs log logged requested announced].
      * split; [done|]. eexists. split; [by rewrite <- app_assoc|].
        intros e [->|[->|[]%elem_of_nil]%elem_of_cons]%elem_of_cons; done.
      * split; [done|]. eexists. split; [by rewrite <- app_assoc|].
        intros e [->|[->|Hin]%elem_of_cons]%elem_of_cons; [done|done|].
        apply elem_of_cons in Hin as [->|Hin]; [done|].
        by apply list_elem_of_fmap in Hin as (l & -> & _).
    + cbn [fst fs log requested]. split; [done|]. eexists. split; [done|].
      by intros e0 [->|[]%elem_of_nil]%elem_of_cons.
  - destruct (isinstance error [HTTPError; URLError]);
      cbn [fst fs log logged requested].
    + split; [done|]. eexists. split; [by rewrite <- app_assoc|].
      intros e [->|[->|[]%elem_of_nil]%elem_of_cons]%elem_of_cons; done.
    + split; [done|]. eexists. split; [done|].
      by intros e0 [->|[]%elem_of_nil]%elem_of_cons.
Qed.

(** One use of C8: the dry run on a page with a link. *)
Lemma C8_witness :
  dry_run args_dry = true
  /\ fs (fst (main no_host_error net_ok deny_none args_dry w_empty))
     = fs w_empty.
Proof.
  split; [reflexivity|].
  apply (C8_dry_run_leaves_file_system no_host_error net_ok deny_none
           args_dry w_empty eq_refl).
Defined.

(** A prefix of a path is no longer than the path. *)
Lemma prefixes_length (p q : Path) :
  q ∈ prefixes p -> length q <= length p.
Proof.
  revert q. induction p as [|part rest IH]; intros q Hq.
  - by apply elem_of_nil in Hq.
  - cbn [prefixes] in Hq. apply elem_of_cons in Hq as [->|Hq].
    + cbn [length]. lia.
    + apply list_elem_of_fmap in Hq as (q' & -> & Hq').
      apply IH in Hq'. cbn [length]. lia.
Qed.

(** The manifest lies under the output directory, it is none of the
    directories made for it. *)
Lemma manifest_not_prefix (p q : Path) :
  q ∈ prefixes p -> q <> p ++ ["manifest.json"].
Proof.
  intros Hq ->. apply prefixes_length in Hq.
  rewrite length_app in Hq. cbn [length] in Hq. lia.
Qed.

(** The loop only adds to the log, however it ends. *)
Lemma download_all_log (host_check : string -> option string)
    (net : nat -> string -> response) (denied : Path -> bool) (args : Args)
    (links : list string) :
  forall (acc : list Path) (w w' : world) (r : result (list Path)),
    download_all host_check net denied args links acc w = (w', r) ->
    exists evs, log w' = log w ++ evs.
Proof.
  induction links as [|link rest IH]; intros acc w w' r H.
  - injection H as <- <-. exists []. by rewrite app_nil_r.
  - rewrite download_all_step in H.
    destruct (download_file _ _ _ _ _ _ w) as [w1 [destination|error]] eqn:Hd;
      destruct (download_file_log _ _ _ _ _ _ _ _ Hd) as (evs1 & Hlog1 & _).
    + apply IH in H as (evs & Hlog). cbn [logged log] in Hlog.
      rewrite Hlog1 in Hlog. eexists. rewrite Hlog.
      by rewrite <- !app_assoc.
    + destruct (caught error).
      * apply IH in H as (evs & Hlog). cbn [logged log] in Hlog.
        rewrite Hlog1 in Hlog. eexists. rewrite Hlog.
        by rewrite <- !app_assoc.
      * injection H as <- <-. by exists evs1.
Qed.

(** C9, as stated, fails: on a page without links a run that is no dry run
    returns before the directory is made. *)
Lemma C9_counterexample :
  let out := main no_host_error net_none deny_none args_out w_empty in
  dry_run args_out = false
  /\ whole_body (net_none (reqs w_empty) (url args_out))
     = Ok "<p>no sound here</p>"
  /\ snd out = Ok 0%Z
  /\ log (fst out) = [Request "http://x.com/"; Out "No audio links found."]
  /\ fs (fst out) !! ["out"] = None.
Proof. cbv zeta. repeat split; by vm_compute. Qed.

(** C9, amended.  In a run that is no dry run and whose fetch succeeds,
    the directory is made if and only if a link was found.  With no link
    [main] returns 0 after one line of output.  With links, the making of
    the directory comes after the request for the page and the lines that
    announce the links, before anything else, so before every download;
    and when [main] returns, the directory and its ancestors exist. *)
Theorem C9_directory_before_downloads
    (host_check : string -> option string) (net : nat -> string -> response)
    (denied : Path -> bool) (args : Args) (w : world) (html : string)
    (links : list string) :
  let out := main host_check net denied args w in
  whole_body (net (reqs w) (url args)) = Ok html ->
  extract_links host_check html (url args) = Ok links ->
  dry_run args = false ->
  (links = [] ->
   fs (fst out) = fs w
   /\ log (fst out)
      = log w ++ [Request (url args); Out "No audio links found."]
   /\ snd out = Ok 0%Z)
  /\ (links <> [] ->
      (exists lines rest,
         log (fst out)
         = log w ++ Request (url args) :: List.map Out lines
           ++ MkDir (output args) :: rest)
      /\ (forall code, snd out = Ok code ->
          forall q, q ∈ prefixes (output args) ->
                    is_dir (fs (fst out)) q = true)).
Proof.
  intros out Hf Hl Hdry. split.
  - intros ->. subst out. rewrite main_run, Hf, Hl. cbv zeta.
    cbn [fst snd fs log logged requested]. by rewrite <- app_assoc.
  - intros Hne. split.
    + subst out. rewrite main_run, Hf, Hl, Hdry. cbv zeta.
      destruct links as [|link rest]; [done|]. set (links := link :: rest).
      destruct (mkdir_parents_run denied (output args)
                  (announced (requested w (url args)) links))
        as (f2 & r2 & Hmk & _).
      rewrite Hmk. cbn [announced requested log fs reqs].
      exists (("Discovered " +:+ pretty (length links) +:+ " audio files:")
              :: List.map (fun l => " - " +:+ l) links).
      assert (forall (w3 : world) tail,
                log w3 = (((log w ++ [Request (url args)])
                           ++ Out ("Discovered " +:+ pretty (length links)
                                   +:+ " audio files:")
                              :: List.map (fun l => Out (" - " +:+ l)) links)
                          ++ [MkDir (output args)]) ++ tail ->
                log w3
                = log w ++ Request (url args)
                  :: List.map Out
                       (("Discovered " +:+ pretty (length links)
                         +:+ " audio files:")
                        :: List.map (fun l => " - " +:+ l) links)
                  ++ MkDir (output args) :: tail) as Hshape.
      { intros w3 tail ->. rewrite <- !app_assoc. cbn [app List.map].
        by rewrite List.map_map. }
      destruct r2 as [[]|e].
      2:{ exists []. apply Hshape. by rewrite app_nil_r. }
      destruct (download_all _ _ _ _ _ _ _) as [w4 [downloaded|e]] eqn:Hloop.
      * apply download_all_batch in Hloop as (l0 & Hl0 & Hb).
        destruct (batch_log _ _ _ _ _ _ _ _ Hb) as (evs & Hlog & _).
        cbn [log] in Hlog.
        destruct downloaded as [|d ds].
        -- eexists. apply Hshape. cbn [fst logged log]. rewrite Hlog.
           by rewrite <- !app_assoc.
        -- rewrite write_manifest_run.
           destruct (manifest_data _ _ _) as [data|e].
           ++ rewrite write_text_run. cbv zeta.
              destruct (is_dir (fs w4) _);
                [eexists; apply Hshape; cbn [fst logged log]; rewrite Hlog;
                 by rewrite <- !app_assoc|].
              destruct (negb (is_dir (fs w4) _));
                [eexists; apply Hshape; cbn [fst logged log]; rewrite Hlog;
                 by rewrite <- !app_assoc|].
              destruct (denied _);
                eexists; apply Hshape; cbn [fst logged log]; rewrite Hlog;
                by rewrite <- !app_assoc.
           ++ eexists. apply Hshape. cbn [fst]. rewrite Hlog.
              by rewrite <- !app_assoc.
      * apply download_all_log in Hloop as (evs & Hlog). cbn [log] in Hlog.
        eexists. apply Hshape. cbn [fst]. rewrite Hlog.
        by rewrite <- !app_assoc.
    + intros code Hret q Hq.
      destruct (main_download_stage host_check net denied args w html links
                  code Hf Hl Hne Hdry Hret)
        as (w2 & w3 & downloaded & Hmk & Hb & _ & Hsome & Hnone).
      fold out in Hsome, Hnone.
      destruct (mkdir_parents_run denied (output args)
                  (announced (requested w (url args)) links))
        as (f2 & r2 & Hmk' & _ & Hdirs).
      rewrite Hmk in Hmk'. injection Hmk' as -> <-.
      pose proof (batch_keeps_dirs _ _ _ _ _ _ _ _ q Hb
                    (Hdirs eq_refl q Hq)) as Hq3.
      destruct downloaded as [|d ds].
      * by rewrite (Hnone eq_refl).
      * rewrite (Hsome ltac:(done)). cbn [manifest_written fs].
        unfold is_dir in *.
        by rewrite lookup_insert_ne
          by (symmetry; by apply manifest_not_prefix).
Qed.

(** C10.  Whatever [write_manifest] writes is the text of a dictionary
    whose source page is the URL it was given and in whose list every entry
    has three fields: the name of a file, its relative path, and, as source
    URL, the same URL again.  [main] gives it the URL of the page: in a run
    that returns, the directory is made, the loop collects its files from
    there, and if it has collected any, the manifest on disk is the one of
    these files and of the page: each entry carries the URL of the page,
    and the entries are determined by the paths of the files alone, the
    links they came from appear nowhere. *)
Theorem C10_manifest_source_url
    (host_check : string -> option string) (net : nat -> string -> response)
    (denied : Path -> bool) (args : Args) (w : world) :
  (forall mp source_url files w0,
     let out := write_manifest denied mp source_url files w0 in
     fs (fst out) = fs w0
     \/ exists data entries,
          manifest_data mp source_url files = Ok data
          /\ fs (fst out)
             = <[mp := File (dumps data +:+ String "010" "")]> (fs w0)
          /\ get "source_page" data = Some (JStr source_url)
          /\ get "files" data = Some (JList entries)
          /\ Forall2 (fun file entry =>
                        get "source_url" entry = Some (JStr source_url)
                        /\ exists rel,
                             entry
                             = JDict [("filename", JStr (name file));
                                      ("relative_path", JStr rel);
                                      ("source_url", JStr source_url)])
               files entries)
  /\ (forall html links code,
        let out := main host_check net denied args w in
        whole_body (net (reqs w) (url args)) = Ok html ->
        extract_links host_check html (url args) = Ok links ->
        links <> [] -> dry_run args = false ->
        snd out = Ok code ->
        exists w2 w3 downloaded,
          mkdir_parents denied (output args)
            (announced (requested w (url args)) links) = (w2, Ok tt)
          /\ download_all host_check net denied args links [] w2
             = (w3, Ok downloaded)
          /\ batch host_check net denied args links w2 downloaded w3
          /\ (downloaded <> [] ->
              fs (fst out) !! (output args ++ ["manifest.json"])
              = Some (File (dumps (manifest_of (url args) downloaded)
                            +:+ String "010" ""))
              /\ get "source_page" (manifest_of (url args) downloaded)
                 = Some (JStr (url args))
              /\ get "files" (manifest_of (url args) downloaded)
                 = Some (JList (List.map
                                  (fun p => entry_of (url args) (name p))
                                  downloaded))
              /\ forall p, p ∈ downloaded ->
                   get "source_url" (entry_of (url args) (name p))
                   = Some (JStr (url args)))).
Proof.
  split.
  - intros mp source_url files w0 out. subst out.
    rewrite write_manifest_run.
    destruct (manifest_data mp source_url files) as [data|e] eqn:Hdata;
      [|by left].
    rewrite write_text_run. cbv zeta.
    destruct (is_dir (fs w0) mp); [by left|].
    destruct (negb (is_dir (fs w0) (parent mp))); [by left|].
    destruct (denied mp); [by left|].
    right.
    destruct (manifest_data_entries _ _ _ _ Hdata) as (entries & Heq & Hall).
    exists data, entries. subst data.
    split; [done|split; [done|split; [done|split; [done|]]]].
    eapply Forall2_impl; [exact Hall|].
    intros file entry (rel & ->). split; [done|by exists rel].
  - intros html links code out Hf Hl Hne Hdry Hret.
    destruct (main_download_stage host_check net denied args w html links
                code Hf Hl Hne Hdry Hret)
      as (w2 & w3 & downloaded & Hmk & Hb & _ & Hsome & _).
    fold out in Hsome.
    exists w2, w3, downloaded. split; [done|].
    split; [by apply (batch_download_all _ _ _ _ _ _ _ _ Hb [])|].
    split; [done|]. intros Hd.
    rewrite (Hsome Hd). cbn [manifest_written fs].
    rewrite lookup_insert_eq. done.
Qed.

(** ** The theorems at work *)

(** One use of C2: two links, the second matched twice. *)
Lemma C2_witness :
  extract_links no_host_error twice_page "http://x.com/"
  = Ok ["http://x.com/a.mp3"; "http://x.com/b.mp3"]
  /\ StronglySorted str_lt ["http://x.com/a.mp3"; "http://x.com/b.mp3"]
  /\ NoDup ["http://x.com/a.mp3"; "http://x.com/b.mp3"].
Proof.
  assert (extract_links no_host_error twice_page "http://x.com/"
          = Ok ["http://x.com/a.mp3"; "http://x.com/b.mp3"]) as H
    by (vm_compute; reflexivity).
  split; [exact H|].
  destruct (proj1 (C2_extract_links_sorted_distinct no_host_error twice_page
                     "http://x.com/") _ H) as (Hs & _ & Hn & _).
  exact (conj Hs Hn).
Defined.

(** One use of C3: the link with an empty query and a fragment. *)
Lemma C3_witness :
  extract_links no_host_error fragment_page "http://x.com/"
  = Ok ["http://x.com/a.mp3#t=10"]
  /\ "http://x.com/a.mp3#t=10" ∈ ["http://x.com/a.mp3#t=10"]
  /\ ends_in_audio "?#" "http://x.com/a.mp3#t=10".
Proof.
  assert (extract_links no_host_error fragment_page "http://x.com/"
          = Ok ["http://x.com/a.mp3#t=10"]) as H
    by (vm_compute; reflexivity).
  assert ("http://x.com/a.mp3#t=10" ∈ ["http://x.com/a.mp3#t=10"]) as Hin
    by constructor.
  split; [exact H|]. split; [exact Hin|].
  exact (proj1 (C3_links_end_in_audio_extension no_host_error fragment_page
                  "http://x.com/" _ _ H Hin)).
Defined.

(** One use of C5: the only link breaks while it is copied, with an
    exception of a caught class. *)
Lemma C5_witness :
  (forall link, link ∈ ["http://x.com/a.mp3"] ->
                parses no_host_error link = true)
  /\ (forall n link e, net_cut n link = Refused e -> caught e = true)
  /\ (forall n link data e,
        net_cut n link = Stream data (Some e) -> caught e = true)
  /\ (snd (main no_host_error net_cut deny_none args_out w_empty) = Ok 0%Z
      \/ exists msg,
           snd (main no_host_error net_cut deny_none args_out w_empty)
           = Raise (os_error msg)).
Proof.
  assert (forall link, link ∈ ["http://x.com/a.mp3"] ->
                       parses no_host_error link = true) as Hparse.
  { intros link [->|[]%elem_of_nil]%elem_of_cons. vm_compute. reflexivity. }
  assert (forall n link e, net_cut n link = Refused e -> caught e = true)
    as Hrefused.
  { intros [|n] link e; discriminate. }
  assert (forall n link data e,
            net_cut n link = Stream data (Some e) -> caught e = true)
    as Hbroken.
  { intros [|n] link data e; [discriminate|]. intros [= _ <-]. reflexivity. }
  split; [exact Hparse|]. split; [exact Hrefused|]. split; [exact Hbroken|].
  assert (whole_body (net_cut (reqs w_empty) (url args_out)) = Ok page_one)
    as Hf by reflexivity.
  assert (extract_links no_host_error page_one (url args_out)
          = Ok ["http://x.com/a.mp3"]) as Hl by (vm_compute; reflexivity).
  destruct (C5_exit_codes no_host_error net_cut deny_none args_out w_empty)
    as (_ & _ & _ & _ & Hstage).
  destruct (Hstage page_one _ Hf Hl) as [_ Hloop].
  destruct (Hloop ltac:(discriminate) eq_refl) as (_ & _ & Hall).
  exact (proj1 (Hall Hparse Hrefused Hbroken)).
Defined.

(** One use of C6: the body breaks after the destination was opened. *)
Lemma C6_witness :
  UrlParse.urlparse no_host_error "http://x.com/a.mp3" ""
  = Ok (UrlParse.mkParse "http" "x.com" "/a.mp3" "" "" "")
  /\ net_broken (reqs w_out) "http://x.com/a.mp3"
     = Stream "ID3" (Some (os_error "Connection reset by peer"))
  /\ fs (fst (download_file no_host_error net_broken deny_none
                "http://x.com/a.mp3" ["out"] false w_out))
       !! ["out"; "a.mp3"] = Some (File "ID3").
Proof.
  assert (UrlParse.urlparse no_host_error "http://x.com/a.mp3" ""
          = Ok (UrlParse.mkParse "http" "x.com" "/a.mp3" "" "" "")) as Hp
    by (vm_compute; reflexivity).
  split; [exact Hp|]. split; [reflexivity|].
  destruct (C6_download_failure_effects no_host_error net_broken deny_none
              "http://x.com/a.mp3" ["out"] false w_out)
    as (_ & _ & _ & _ & Hopen).
  destruct (Hopen _ "ID3" (Some (os_error "Connection reset by peer"))
              Hp eq_refl) as [_ Hleft].
  exact (proj1 (proj2 (Hleft ltac:(vm_compute; reflexivity)
                             ltac:(vm_compute; reflexivity)
                             ltac:(reflexivity)))).
Defined.

(** One use of C7: a page with one link, downloaded. *)
Lemma C7_witness :
  whole_body (net_ok (reqs w_empty) (url args_out)) = Ok page_one
  /\ extract_links no_host_error page_one (url args_out)
     = Ok ["http://x.com/a.mp3"]
  /\ snd (main no_host_error net_ok deny_none args_out w_empty) = Ok 0%Z
  /\ exists w3 downloaded,
       (downloaded <> [] ->
        fs (fst (main no_host_error net_ok deny_none args_out w_empty))
        = <[ ["out"; "manifest.json"]
             := File (manifest_text "http://x.com/" downloaded)]> (fs w3))
       /\ (downloaded = [] ->
           fs (fst (main no_host_error net_ok deny_none args_out w_empty))
           = fs w3).
Proof.
  assert (whole_body (net_ok (reqs w_empty) (url args_out)) = Ok page_one)
    as Hf by reflexivity.
  assert (extract_links no_host_error page_one (url args_out)
          = Ok ["http://x.com/a.mp3"]) as Hl by (vm_compute; reflexivity).
  assert (snd (main no_host_error net_ok deny_none args_out w_empty)
          = Ok 0%Z) as Hret by (vm_compute; reflexivity).
  split; [exact Hf|]. split; [exact Hl|]. split; [exact Hret|].
  destruct (proj2 (C7_manifest_written_iff_downloaded no_host_error net_ok
                     deny_none args_out w_empty page_one _ 0%Z Hf Hl Hret)
              ltac:(discriminate) eq_refl)
    as (w2 & w3 & downloaded & _ & _ & Hsome & Hnone & _).
  exists w3, downloaded. split.
  - intros Hd. exact (proj1 (Hsome Hd)).
  - intros Hd. exact (proj1 (Hnone Hd)).
Defined.

(** One use of C9: a page with one link, the directory is there at the
    end. *)
Lemma C9_witness :
  whole_body (net_ok (reqs w_empty) (url args_out)) = Ok page_one
  /\ extract_links no_host_error page_one (url args_out)
     = Ok ["http://x.com/a.mp3"]
  /\ dry_run args_out = false
  /\ is_dir (fs (fst (main no_host_error net_ok deny_none args_out w_empty)))
       ["out"] = true.
Proof.
  assert (whole_body (net_ok (reqs w_empty) (url args_out)) = Ok page_one)
    as Hf by reflexivity.
  assert (extract_links no_host_error page_one (url args_out)
          = Ok ["http://x.com/a.mp3"]) as Hl by (vm_compute; reflexivity).
  assert (snd (main no_host_error net_ok deny_none args_out w_empty)
          = Ok 0%Z) as Hret by (vm_compute; reflexivity).
  split; [exact Hf|]. split; [exact Hl|]. split; [reflexivity|].
  refine (proj2 (proj2 (C9_directory_before_downloads no_host_error net_ok
                          deny_none args_out w_empty page_one _ Hf Hl
                          eq_refl) ltac:(discriminate))
            0%Z Hret ["out"] _).
  constructor.
Defined.

(** One use of C10: a page with one link; the link is not the page, and
    the manifest names the page. *)
Lemma C10_witness :
  whole_body (net_ok (reqs w_empty) (url args_out)) = Ok page_one
  /\ extract_links no_host_error page_one (url args_out)
     = Ok ["http://x.com/a.mp3"]
  /\ dry_run args_out = false
  /\ snd (main no_host_error net_ok deny_none args_out w_empty) = Ok 0%Z
  /\ fs (fst (main no_host_error net_ok deny_none args_out w_empty))
       !! ["out"; "manifest.json"]
     = Some (File (dumps (manifest_of "http://x.com/" [["out"; "a.mp3"]])
                   +:+ String "010" "")).
Proof.
  assert (whole_body (net_ok (reqs w_empty) (url args_out)) = Ok page_one)
    as Hf by reflexivity.
  assert (extract_links no_host_error page_one (url args_out)
          = Ok ["http://x.com/a.mp3"]) as Hl by (vm_compute; reflexivity).
  assert (snd (main no_host_error net_ok deny_none args_out w_empty)
          = Ok 0%Z) as Hret by (vm_compute; reflexivity).
  split; [exact Hf|]. split; [exact Hl|]. split; [reflexivity|].
  split; [exact Hret|].
  destruct (proj2 (C10_manifest_source_url no_host_error net_ok deny_none
                     args_out w_empty)
              page_one _ 0%Z Hf Hl ltac:(discriminate) eq_refl Hret)
    as (w2 & w3 & downloaded & Hmk & Hloop & _ & Hsome).
  vm_compute in Hmk. injection Hmk as <-.
  vm_compute in Hloop. injection Hloop as _ <-.
  exact (proj1 (Hsome ltac:(discriminate))).
Defined.

(** ** What a run does to the file system *)

Section Stages.
Variable host_check : string -> option string.
Variable net : nat -> string -> response.
Variable denied : Path -> bool.

(** The file system that [main] leaves is reached from the one it finds
    by its three stages: making the directory, the loop, the manifest. *)
Lemma main_fs_rel (R : relation (gmap (list string) node)) (args : Args) :
  (forall f, R f f) ->
  (forall f g h, R f g -> R g h -> R f h) ->
  (forall w w' r,
     mkdir_parents denied (output args) w = (w', r) -> R (fs w) (fs w')) ->
  (forall links acc w w' r,
     download_all host_check net denied args links acc w = (w', r) ->
     R (fs w) (fs w')) ->
  (forall downloaded w w' r,
     write_manifest denied (manifest_path_of args) (url args) downloaded w
     = (w', r) ->
     R (fs w) (fs w')) ->
  forall w, R (fs w) (fs (fst (main host_check net denied args w))).
Proof.
  intros Hrefl Htrans Hmk Hloop Hman w. rewrite main_run. cbv zeta.
  destruct (whole_body (net (reqs w) (url args))) as [html|error].
  - destruct (extract_links host_check html (url args)) as [links|e];
      [|apply Hrefl].
    destruct links as [|link rest]; [apply Hrefl|].
    destruct (dry_run args); [apply Hrefl|].
    destruct (mkdir_parents denied (output args) _) as [w3 r3] eqn:E3.
    apply Hmk in E3. cbn [announced requested fs] in E3.
    destruct r3 as [[]|e]; [|exact E3].
    destruct (download_all _ _ _ _ _ _ w3) as [w4 r4] eqn:E4.
    apply Hloop in E4.
    destruct r4 as [downloaded|e]; [|by apply (Htrans _ _ _ E3)].
    destruct downloaded as [|d ds]; [by apply (Htrans _ _ _ E3)|].
    destruct (write_manifest _ _ _ _ w4) as [w5 r5] eqn:E5.
    apply Hman in E5.
    destruct r5 as [[]|e]; cbn [fst logged fs];
      apply (Htrans _ _ _ E3); by apply (Htrans _ _ _ E4).
  - destruct (isinstance error [HTTPError; URLError]); apply Hrefl.
Qed.

Lemma make_dirs_lookup (todo : list Path) (q : Path) :
  q ∉ todo ->
  forall w, fs (fst (make_dirs denied todo w)) !! q = fs w !! q.
Proof.
  induction todo as [|p rest IH]; intros Hq [f n l]; [done|].
  apply not_elem_of_cons in Hq as [Hne Hq].
  cbn [make_dirs]. unfold bind, get_fs. cbn [fs reqs log].
  destruct (is_dir f p); [by apply IH|].
  destruct (path_exists f p); [done|].
  destruct (denied p); [done|].
  unfold put_fs. cbn [fs reqs log]. rewrite (IH Hq). cbn [fs].
  by rewrite lookup_insert_ne.
Qed.

(** [mkdir] keeps what there is. *)
Lemma mkdir_parents_keeps (p : Path) (w w' : world) (r : result unit)
    (q : Path) (nd : node) :
  mkdir_parents denied p w = (w', r) ->
  fs w !! q = Some nd -> fs w' !! q = Some nd.
Proof.
  intros H Hq.
  destruct (mkdir_parents_run denied p w) as (f' & r' & E & Hg & _).
  rewrite E in H. injection H as <- _. cbn [fs].
  destruct (Hg q) as [->|[? _]]; congruence.
Qed.

Lemma mkdir_parents_lookup (p : Path) (w w' : world) (r : result unit)
    (q : Path) :
  mkdir_parents denied p w = (w', r) ->
  q ∉ prefixes p -> fs w' !! q = fs w !! q.
Proof.
  unfold mkdir_parents, bind, emit. intros H Hq.
  pose proof (make_dirs_lookup (prefixes p) q Hq
                (World (fs w) (reqs w) (log w ++ [MkDir p]))) as Hl.
  destruct (make_dirs denied (prefixes p) _) as [w1 r1].
  cbn [fst fs] in Hl. by injection H as <- _.
Qed.

(** What one download does to the file system, however it ends: it
    leaves it as it was, or it puts a file at one entry of the directory,
    where there was no directory, and without overwriting nothing at
    all. *)
Lemma download_file_effect (url : string) (dest_dir : Path)
    (overwrite : bool) (w w' : world) (r : result Path) :
  download_file host_check net denied url dest_dir overwrite w = (w', r) ->
  (fs w' = fs w /\ forall dest, r <> Ok dest)
  \/ exists nm data,
       Str.mem "/" nm = false
       /\ fs w' = <[dest_dir ++ [nm] := File data]> (fs w)
       /\ fs w !! (dest_dir ++ [nm]) <> Some Dir
       /\ (overwrite = false -> fs w !! (dest_dir ++ [nm]) = None)
       /\ (forall dest, r = Ok dest ->
             dest = dest_dir ++ [nm]
             /\ net (reqs w) url = Stream data None).
Proof.
  rewrite download_file_run.
  destruct (UrlParse.urlparse host_check url "") as [parsed|e];
    [|intros [= <- <-]; by left].
  cbv zeta.
  destruct (destination_shape (fs w) dest_dir (UrlParse.path parsed)
              overwrite) as (nm & Hdest & Hnm).
  destruct (derive_filename_spec (UrlParse.path parsed))
    as (_ & Hext & Hslash & Hne).
  rewrite <- (proj1 (derive_filename_spec (UrlParse.path parsed)))
    in Hext, Hslash, Hne.
  destruct (choose_destination_spec (fs w) dest_dir
              (derive_filename (UrlParse.path parsed)) overwrite
              Hslash Hne Hext) as (_ & _ & Hnew).
  cbv zeta in Hnew. rewrite Hdest in *.
  destruct (net (reqs w) url) as [e|data stop];
    [intros [= <- <-]; by left|].
  destruct (is_dir (fs w) (dest_dir ++ [nm])) eqn:Hd;
    [intros [= <- <-]; by left|].
  destruct (negb (is_dir (fs w) (parent (dest_dir ++ [nm]))));
    [intros [= <- <-]; by left|].
  destruct (denied (dest_dir ++ [nm])); [intros [= <- <-]; by left|].
  intros [= <- <-]. right. exists nm, data.
  split; [done|]. split; [done|]. split.
  { intros E. unfold is_dir in Hd. by rewrite E in Hd. }
  split.
  { intros Ho. specialize (Hnew Ho). unfold path_exists in Hnew.
    by destruct (fs w !! (dest_dir ++ [nm])). }
  intros dest. destruct stop as [e|]; [done|]. by intros [= <-].
Qed.

(** The loop, however it ends, changes entries of the output directory
    only; it keeps every directory; without overwriting it keeps every
    entry. *)
Lemma download_all_effect (args : Args) (links : list string) :
  forall (acc : list Path) (w w' : world) (r : result (list Path)),
    download_all host_check net denied args links acc w = (w', r) ->
    (forall q, (forall nm, q <> output args ++ [nm]) ->
               fs w' !! q = fs w !! q)
    /\ (forall q, fs w !! q = Some Dir -> fs w' !! q = Some Dir)
    /\ (overwrite args = false ->
        forall q nd, fs w !! q = Some nd -> fs w' !! q = Some nd).
Proof.
  induction links as [|link rest IH]; intros acc w w' r H.
  - by injection H as <- <-.
  - rewrite download_all_step in H.
    destruct (download_file _ _ _ _ _ _ w) as [w1 r1] eqn:Hd.
    assert ((forall q, (forall nm, q <> output args ++ [nm]) ->
                       fs w1 !! q = fs w !! q)
            /\ (forall q, fs w !! q = Some Dir -> fs w1 !! q = Some Dir)
            /\ (overwrite args = false ->
                forall q nd, fs w !! q = Some nd -> fs w1 !! q = Some nd))
      as (H1 & H2 & H3).
    { apply download_file_effect in Hd
        as [[-> _]|(nm & data & _ & -> & Hnd & Hnew & _)]; [done|].
      split; [|split].
      - intros q Hq. by rewrite lookup_insert_ne.
      - intros q Hq. rewrite lookup_insert_ne; [done|]. congruence.
      - intros Ho q nd Hq. rewrite lookup_insert_ne; [done|].
        specialize (Hnew Ho). congruence. }
    assert (forall w2 r2,
              download_all host_check net denied args rest
                (match r1 with Ok d => acc ++ [d] | Raise _ => acc end) w2
              = (w', r2) -> fs w2 = fs w1 ->
              (forall q, (forall nm, q <> output args ++ [nm]) ->
                         fs w' !! q = fs w !! q)
              /\ (forall q, fs w !! q = Some Dir -> fs w' !! q = Some Dir)
              /\ (overwrite args = false ->
                  forall q nd, fs w !! q = Some nd -> fs w' !! q = Some nd))
      as Hrest.
    { intros w2 r2 E Hfs. apply IH in E as (I1 & I2 & I3).
      rewrite Hfs in I1, I2, I3. split; [|split].
      - intros q Hq. by rewrite I1, H1.
      - intros q Hq. by apply I2, H2.
      - intros Ho q nd Hq. by apply (I3 Ho), (H3 Ho). }
    destruct r1 as [destination|error].
    + by apply (Hrest _ _ H).
    + destruct (caught error); [by apply (Hrest _ _ H)|].
      by injection H as <- <-.
Qed.

(** [write_manifest] changes the file system at its path only, and puts
    a file where there was no directory, if it changes it. *)
Lemma write_manifest_effect (mp : Path) (source_url : string)
    (files : list Path) (w w' : world) (r : result unit) :
  write_manifest denied mp source_url files w = (w', r) ->
  fs w' = fs w
  \/ exists text, fs w' = <[mp := File text]> (fs w)
                  /\ fs w !! mp <> Some Dir.
Proof.
  rewrite write_manifest_run.
  destruct (manifest_data mp source_url files) as [data|e];
    [|intros [= <- <-]; by left].
  rewrite write_text_run. cbv zeta.
  destruct (is_dir (fs w) mp) eqn:Hd; [intros [= <- <-]; by left|].
  destruct (negb (is_dir (fs w) (parent mp))); [intros [= <- <-]; by left|].
  destruct (denied mp); intros [= <- <-]; [by left|].
  right. eexists. split; [done|].
  intros E. unfold is_dir in Hd. by rewrite E in Hd.
Qed.
End Stages.

(** Whatever [main] changes in the file system is the output directory,
    one of its ancestors, or an entry of the output directory: every
    other path is after the run as it was before, in every run, also one
    that ends in an exception. *)
Theorem main_changes_only_output
    (host_check : string -> option string) (net : nat -> string -> response)
    (denied : Path -> bool) (args : Args) (w : world) (q : Path) :
  outside (output args) q ->
  fs (fst (main host_check net denied args w)) !! q = fs w !! q.
Proof.
  intros [Hpre Hent].
  apply (main_fs_rel host_check net denied
           (fun f f' => f' !! q = f !! q) args); clear w.
  - done.
  - intros f g h. congruence.
  - intros w w' r H. by apply (mkdir_parents_lookup denied _ _ _ _ _ H).
  - intros links acc w w' r H.
    destruct (download_all_effect host_check net denied _ _ _ _ _ _ H)
      as (E & _). by apply E.
  - intros downloaded w w' r H. rewrite manifest_path_eq in H.
    apply write_manifest_effect in H as [->|(text & -> & _)]; [done|].
    by rewrite lookup_insert_ne.
Qed.

(** One use: the file of notes beside the output directory. *)
Lemma main_changes_only_output_witness :
  outside (output args_out) ["notes.txt"]
  /\ fs (fst (main no_host_error net_ok deny_none args_out w_two))
       !! ["notes.txt"] = Some (File "keep").
Proof.
  assert (outside (output args_out) ["notes.txt"]) as H.
  { split.
    - intros [[=]|[]%elem_of_nil]%elem_of_cons.
    - intros nm [=]. }
  split; [exact H|].
  exact (main_changes_only_output no_host_error net_ok deny_none args_out
           w_two ["notes.txt"] H).
Defined.

(** No run of [main] removes an entry or turns a directory into a file;
    and without [--overwrite] every file that was there before the run is
    there after it with the contents it had, the manifest apart.  This
    holds in every run, also one that ends in an exception. *)
Theorem main_keeps_entries
    (host_check : string -> option string) (net : nat -> string -> response)
    (denied : Path -> bool) (args : Args) (w : world) :
  let out := main host_check net denied args w in
  (forall q, fs w !! q = Some Dir -> fs (fst out) !! q = Some Dir)
  /\ (forall q nd, fs w !! q = Some nd -> exists nd', fs (fst out) !! q = Some nd')
  /\ (overwrite args = false ->
      forall q nd, q <> output args ++ ["manifest.json"] ->
        fs w !! q = Some nd -> fs (fst out) !! q = Some nd).
Proof.
  cbv zeta. split; [|split].
  - intros q.
    apply (main_fs_rel host_check net denied
             (fun f f' => f !! q = Some Dir -> f' !! q = Some Dir) args);
      clear w.
    + done.
    + intros f g h Hfg Hgh Hq. by apply Hgh, Hfg.
    + intros w w' r H. by apply (mkdir_parents_keeps denied _ _ _ _ _ _ H).
    + intros links acc w w' r H.
      destruct (download_all_effect host_check net denied _ _ _ _ _ _ H)
        as (_ & E & _). by apply E.
    + intros downloaded w w' r H.
      apply write_manifest_effect in H as [->|(text & -> & Hnd)]; [done|].
      intros Hq. rewrite lookup_insert_ne; [done|]. congruence.
  - intros q nd Hq.
    cut (is_Some (fs (fst (main host_check net denied args w)) !! q)).
    { intros [nd' E]. by exists nd'. }
    revert Hq. intros Hq. assert (is_Some (fs w !! q)) as Hs by by exists nd.
    revert Hs. clear Hq.
    apply (main_fs_rel host_check net denied
             (fun f f' => is_Some (f !! q) -> is_Some (f' !! q)) args);
      clear w.
    + done.
    + intros f g h Hfg Hgh Hq. by apply Hgh, Hfg.
    + intros w w' r H [nd0 Hq]. exists nd0.
      by apply (mkdir_parents_keeps denied _ _ _ _ _ _ H).
    + induction links as [|link rest IH]; intros acc w w' r H.
      * by injection H as <- <-.
      * rewrite download_all_step in H.
        destruct (download_file _ _ _ _ _ _ w) as [w1 r1] eqn:Hd.
        assert (is_Some (fs w !! q) -> is_Some (fs w1 !! q)) as H1.
        { apply download_file_effect in Hd
            as [[-> _]|(nm & data & _ & -> & _)]; [done|].
          intros Hq. destruct (decide (q = output args ++ [nm])) as [->|Hne].
          - rewrite lookup_insert_eq. by eexists.
          - by rewrite lookup_insert_ne. }
        destruct r1 as [destination|error].
        -- intros Hq. apply (IH _ _ _ _ H). by apply H1.
        -- destruct (caught error).
           ++ intros Hq. apply (IH _ _ _ _ H). by apply H1.
           ++ by injection H as <- <-.
    + intros downloaded w w' r H.
      apply write_manifest_effect in H as [->|(text & -> & Hnd)]; [done|].
      intros Hq. destruct (decide (q = manifest_path_of args)) as [->|Hne].
      * rewrite lookup_insert_eq. by eexists.
      * by rewrite lookup_insert_ne.
  - intros Ho q nd Hne.
    apply (main_fs_rel host_check net denied
             (fun f f' => f !! q = Some nd -> f' !! q = Some nd) args);
      clear w.
    + done.
    + intros f g h Hfg Hgh Hq. by apply Hgh, Hfg.
    + intros w w' r H. by apply (mkdir_parents_keeps denied _ _ _ _ _ _ H).
    + intros links acc w w' r H.
      destruct (download_all_effect host_check net denied _ _ _ _ _ _ H)
        as (_ & _ & E). by apply E.
    + intros downloaded w w' r H. rewrite manifest_path_eq in H.
      apply write_manifest_effect in H as [->|(text & -> & _)]; [done|].
      intros Hq. by rewrite lookup_insert_ne.
Qed.

(** One use: the file that is in the place of the download. *)
Lemma main_keeps_entries_witness :
  overwrite args_out = false
  /\ fs w_two !! ["out"; "a.mp3"] = Some (File "old")
  /\ fs (fst (main no_host_error net_ok deny_none args_out w_two))
       !! ["out"; "a.mp3"] = Some (File "old").
Proof.
  assert (fs w_two !! ["out"; "a.mp3"] = Some (File "old")) as H
    by (vm_compute; reflexivity).
  split; [reflexivity|]. split; [exact H|].
  refine (proj2 (proj2 (main_keeps_entries no_host_error net_ok deny_none
                          args_out w_two)) eq_refl _ _ _ H).
  discriminate.
Defined.

(** ** The download loop: its files, its lines, its requests *)

Section LoopAccounts.
Variable host_check : string -> option string.
Variable net : nat -> string -> response.
Variable denied : Path -> bool.
Variable args : Args.

(** Without overwriting, the files of a batch are new, distinct, and each
    holds at the end the whole body that was served for one of the
    links. *)
Lemma batch_files_new (links : list string) (w w' : world)
    (downloaded : list Path) :
  overwrite args = false ->
  batch host_check net denied args links w downloaded w' ->
  NoDup downloaded
  /\ forall dest, dest ∈ downloaded ->
       fs w !! dest = None
       /\ exists link n data,
            link ∈ links /\ net n link = Stream data None
            /\ fs w' !! dest = Some (File data).
Proof.
  intros Ho.
  induction 1 as [w|link rest w w1 w' dest l Hd Hb [IHn IH]
                  |link rest w w1 w' e l Hd Hc Hb [IHn IH]].
  - split; [constructor|]. by intros dest ?%elem_of_nil.
  - pose proof (batch_download_all _ _ _ _ _ _ _ _ Hb []) as Hloop.
    apply download_all_effect in Hloop as (_ & _ & Hkeep).
    specialize (Hkeep Ho). cbn [logged fs] in Hkeep, IH.
    apply download_file_effect in Hd
      as [[_ Hno]|(nm & data & _ & Hfs & _ & Hnew & Hok)];
      [by destruct (Hno dest)|].
    destruct (Hok dest eq_refl) as [-> Hnet]. rewrite Ho in Hnew.
    specialize (Hnew eq_refl).
    assert (fs w1 !! (output args ++ [nm]) = Some (File data)) as Hthere
      by (rewrite Hfs; apply lookup_insert_eq).
    split.
    + constructor; [|done]. intros Hin. apply IH in Hin as [Hnone _].
      congruence.
    + intros d [->|Hin]%elem_of_cons.
      * split; [done|]. exists link, (reqs w), data.
        split; [by left|]. split; [done|]. by apply Hkeep.
      * destruct (IH d Hin) as (Hnone & link' & n & data' & Hl & Hn & Hf).
        split.
        -- rewrite Hfs in Hnone.
           destruct (decide (d = output args ++ [nm])) as [->|Hne];
             [by rewrite lookup_insert_eq in Hnone|].
           by rewrite lookup_insert_ne in Hnone.
        -- exists link', n, data'. split; [by right|done].
  - split; [done|]. intros d Hin.
    destruct (IH d Hin) as (Hnone & link' & n & data' & Hl & Hn & Hf).
    cbn [logged fs] in Hnone. split.
    + apply download_file_effect in Hd
        as [[Hfs _]|(nm & data & _ & Hfs & _)]; rewrite Hfs in Hnone;
        [done|].
      destruct (decide (d = output args ++ [nm])) as [->|Hne];
        [by rewrite lookup_insert_eq in Hnone|].
      by rewrite lookup_insert_ne in Hnone.
    + exists link', n, data'. split; [by right|done].
Qed.

(** The events of one download: no line, and one request if the URL
    parses, none if it does not. *)
Lemma download_file_events (url : string) (w w' : world) (r : result Path) :
  download_file host_check net denied url (output args) (overwrite args) w
  = (w', r) ->
  exists evs,
    log w' = log w ++ evs
    /\ List.filter is_out evs = [] /\ List.filter is_err evs = []
    /\ requests_of evs = (if parses host_check url then [url] else [])
    /\ reqs w' = reqs w + length (requests_of evs)
    /\ (parses host_check url = false -> exists e, r = Raise e
                                                   /\ caught e = false).
Proof.
  rewrite download_file_run. unfold parses.
  destruct (UrlParse.urlparse host_check url "") as [parsed|e] eqn:Hp.
  - cbv zeta. set (dest := choose_destination _ _ _ _).
    destruct (net (reqs w) url) as [e|data stop].
    { intros [= <- <-]. exists [Request url]. cbn. repeat split; [lia|done]. }
    assert (forall r0 : result Path,
              exists evs,
                log (logged (requested w url) (OpenW dest)) = log w ++ evs
                /\ List.filter is_out evs = [] /\ List.filter is_err evs = []
                /\ requests_of evs = [url]
                /\ reqs (logged (requested w url) (OpenW dest))
                   = reqs w + length (requests_of evs)
                /\ (true = false -> exists e, r0 = Raise e
                                              /\ caught e = false)) as Hev.
    { intros r0. exists [Request url; OpenW dest]. cbn.
      rewrite <- app_assoc. repeat split; [lia|done]. }
    destruct (is_dir (fs w) dest); [intros [= <- <-]; apply Hev|].
    destruct (negb (is_dir (fs w) (parent dest)));
      [intros [= <- <-]; apply Hev|].
    destruct (denied dest); [intros [= <- <-]; apply Hev|].
    intros [= <- <-]. apply Hev.
  - intros [= <- <-]. exists []. rewrite app_nil_r. cbn.
    repeat split; [lia|]. intros _. exists e. split; [done|].
    apply caught_not_ValueError.
    by apply (urlparse_raises_ValueError host_check url "").
Qed.

(** The events of the loop, however it ends. *)
Lemma download_all_events (links : list string) :
  forall (acc : list Path) (w w' : world) (r : result (list Path)),
    download_all host_check net denied args links acc w = (w', r) ->
    exists evs,
      log w' = log w ++ evs
      /\ requests_of evs `prefix_of` List.filter (parses host_check) links
      /\ reqs w' = reqs w + length (requests_of evs)
      /\ forall l, r = Ok l ->
           requests_of evs = List.filter (parses host_check) links
           /\ length l = length acc + length (List.filter is_out evs)
           /\ length (List.filter is_out evs)
              + length (List.filter is_err evs) = length links.
Proof.
  induction links as [|link rest IH]; intros acc w w' r H.
  - injection H as <- <-. exists []. rewrite app_nil_r. cbn.
    split; [done|]. split; [done|]. split; [lia|].
    intros l [= <-]. repeat split; lia.
  - rewrite download_all_step in H.
    destruct (download_file _ _ _ _ _ _ w) as [w1 r1] eqn:Hd.
    destruct (download_file_events _ _ _ _ Hd)
      as (evs1 & Hlog1 & Hout1 & Herr1 & Hreq1 & Hn1 & Hbad).
    assert (forall acc' line r2,
              parses host_check link = true ->
              (is_out line = true /\ length acc' = S (length acc)
               \/ is_err line = true /\ acc' = acc) ->
              download_all host_check net denied args rest acc'
                (logged w1 line) = (w', r2) ->
              exists evs,
                log w' = log w ++ evs
                /\ requests_of evs
                   `prefix_of` List.filter (parses host_check) (link :: rest)
                /\ reqs w' = reqs w + length (requests_of evs)
                /\ forall l, r2 = Ok l ->
                     requests_of evs
                     = List.filter (parses host_check) (link :: rest)
                     /\ length l = length acc + length (List.filter is_out evs)
                     /\ length (List.filter is_out evs)
                        + length (List.filter is_err evs)
                        = length (link :: rest)) as Hrest.
    { intros acc' line r2 Hparse Hline E.
      apply IH in E as (evs & Hlog & Hpre & Hn & Hall).
      cbn [logged log reqs] in Hlog, Hn.
      exists (evs1 ++ [line] ++ evs).
      rewrite Hparse in Hreq1. rewrite Hreq1 in Hn1.
      assert (requests_of (evs1 ++ [line] ++ evs) = link :: requests_of evs)
        as Hreqs.
      { unfold requests_of. rewrite !omap_app. fold (requests_of evs1).
        rewrite Hreq1.
        destruct Hline as [[Ho _]|[He _]]; by destruct line. }
      cbn [List.filter]. rewrite Hparse.
      split; [rewrite Hlog, Hlog1; by rewrite <- !app_assoc|].
      split; [rewrite Hreqs; by apply (prefix_app [link])|].
      split; [rewrite Hreqs, Hn, Hn1; cbn [length]; lia|].
      intros l Hl. destruct (Hall l Hl) as (Hr & Hlen & Hcount).
      split; [by rewrite Hreqs, Hr|].
      rewrite !List.filter_app, !length_app, Hout1, Herr1.
      destruct Hline as [(Ho & Hacc)|(He & ->)].
      - destruct line; try done. cbn in *. split; lia.
      - destruct line; try done. cbn in *. split; lia. }
    assert ((forall e, r1 = Raise e -> caught e = true) ->
            parses host_check link = true) as Hparse.
    { intros Hc. destruct (parses host_check link); [done|].
      destruct (Hbad eq_refl) as (e & -> & Hc').
      by rewrite (Hc e eq_refl) in Hc'. }
    destruct r1 as [destination|error].
    + apply (Hrest _ _ _ (Hparse ltac:(done))) in H; [done|].
      left. split; [done|]. rewrite length_app. cbn. lia.
    + destruct (caught error) eqn:Hc.
      * apply (Hrest _ _ _ (Hparse ltac:(by intros e [= <-]))) in H; [done|].
        by right.
      * injection H as <- <-. exists evs1. split; [done|].
        split.
        { rewrite Hreq1. cbn [List.filter].
          destruct (parses host_check link); [|apply prefix_nil].
          by apply (prefix_app [link] []), prefix_nil. }
        split; [done|]. intros l [=].
Qed.
End LoopAccounts.

(** Without [--overwrite], the files that the loop of [main] hands to the
    manifest are pairwise distinct; none of them was there before the
    loop, and after it each holds the complete body that the network
    served for one of the links. *)
Theorem download_all_new_files
    (host_check : string -> option string) (net : nat -> string -> response)
    (denied : Path -> bool) (args : Args) (links : list string)
    (w w' : world) (downloaded : list Path) :
  overwrite args = false ->
  download_all host_check net denied args links [] w = (w', Ok downloaded) ->
  NoDup downloaded
  /\ forall dest, dest ∈ downloaded ->
       fs w !! dest = None
       /\ exists link n data,
            link ∈ links /\ net n link = Stream data None
            /\ fs w' !! dest = Some (File data).
Proof.
  intros Ho H. apply download_all_batch in H as (l0 & -> & Hb).
  by apply (batch_files_new host_check net denied args links w w').
Qed.

(** One use: two links with the same file name. *)
Lemma download_all_new_files_witness :
  overwrite args_out = false
  /\ snd (download_all no_host_error net_songs deny_none args_out
            ["http://x.com/a.mp3"; "http://y.com/a.mp3"] [] w_out)
     = Ok [["out"; "a.mp3"]; ["out"; "a-1.mp3"]]
  /\ NoDup [["out"; "a.mp3"]; ["out"; "a-1.mp3"]].
Proof.
  split; [reflexivity|]. split; [vm_compute; reflexivity|].
  refine (proj1 (download_all_new_files no_host_error net_songs deny_none
                   args_out ["http://x.com/a.mp3"; "http://y.com/a.mp3"]
                   w_out
                   (fst (download_all no_host_error net_songs deny_none
                           args_out
                           ["http://x.com/a.mp3"; "http://y.com/a.mp3"] []
                           w_out))
                   _ eq_refl _)).
  vm_compute. reflexivity.
Defined.

(** In a loop that no exception leaves, every link is answered by exactly
    one line: the lines on the standard output are as many as the files
    handed to the manifest, and together with the lines on the error
    stream they are as many as the links. *)
Theorem download_all_one_line_per_link
    (host_check : string -> option string) (net : nat -> string -> response)
    (denied : Path -> bool) (args : Args) (links : list string)
    (w w' : world) (downloaded : list Path) :
  download_all host_check net denied args links [] w = (w', Ok downloaded) ->
  exists evs,
    log w' = log w ++ evs
    /\ length (List.filter is_out evs) = length downloaded
    /\ length (List.filter is_out evs) + length (List.filter is_err evs)
       = length links.
Proof.
  intros H.
  destruct (download_all_events host_check net denied args links [] w w' _ H)
    as (evs & Hlog & _ & _ & Hall).
  destruct (Hall downloaded eq_refl) as (_ & Hlen & Hcount).
  exists evs. split; [done|]. split; [|done]. cbn in Hlen. lia.
Qed.

(** One use: a link that is refused. *)
Lemma download_all_one_line_per_link_witness :
  snd (download_all no_host_error net_down deny_none args_out
         ["http://x.com/a.mp3"] [] w_out) = Ok []
  /\ exists evs,
       log (fst (download_all no_host_error net_down deny_none args_out
                   ["http://x.com/a.mp3"] [] w_out))
       = log w_out ++ evs
       /\ length (List.filter is_out evs) = 0
       /\ length (List.filter is_out evs) + length (List.filter is_err evs)
          = 1.
Proof.
  split; [vm_compute; reflexivity|].
  refine (download_all_one_line_per_link no_host_error net_down deny_none
            args_out ["http://x.com/a.mp3"] w_out _ [] _).
  vm_compute. reflexivity.
Defined.

(** ** The requests of a run *)

Lemma requests_of_app (a b : list event) :
  requests_of (a ++ b) = requests_of a ++ requests_of b.
Proof. apply omap_app. Qed.

Lemma requests_of_lines (lines : list string) (f : string -> string) :
  requests_of (List.map (fun l => Out (f l)) lines) = [].
Proof. by induction lines. Qed.

Lemma prefix_NoDup {A} (l k : list A) :
  l `prefix_of` k -> NoDup k -> NoDup l.
Proof. intros [t ->] H. by apply NoDup_app in H as [H _]. Qed.

Lemma filter_NoDup {A} (p : A -> bool) (l : list A) :
  NoDup l -> NoDup (List.filter p l).
Proof.
  induction 1 as [|x l Hx Hl IH]; cbn; [constructor|].
  destruct (p x); [|done]. constructor; [|done].
  intros Hin%list_elem_of_In%List.filter_In. destruct Hin as [Hin _].
  by apply Hx, list_elem_of_In.
Qed.

Lemma requests_of_snoc (l : list event) (e : event) :
  requests_of (l ++ [e])
  = requests_of l ++ match e with Request u => [u] | _ => [] end.
Proof. rewrite requests_of_app. by destruct e. Qed.

(** [main] sends one request for the page, before any other, and after
    it requests links only: in a run that is no dry run, the links that
    were extracted and whose URL parses, in the order of the list, each
    once.  A run that an exception ends has requested the first ones of
    them; a run that returns has requested them all; a dry run and a run
    whose page cannot be fetched request the page and nothing else. *)
Theorem main_requests
    (host_check : string -> option string) (net : nat -> string -> response)
    (denied : Path -> bool) (args : Args) (w : world) :
  let out := main host_check net denied args w in
  let links :=
    match whole_body (net (reqs w) (url args)) with
    | Ok html =>
        match extract_links host_check html (url args) with
        | Ok links => links
        | Raise _ => []
        end
    | Raise _ => []
    end in
  let planned :=
    if dry_run args then [] else List.filter (parses host_check) links in
  NoDup planned
  /\ exists rs,
       requests_of (log (fst out)) = requests_of (log w) ++ url args :: rs
       /\ reqs (fst out) = reqs w + S (length rs)
       /\ rs `prefix_of` planned
       /\ (forall code, snd out = Ok code -> rs = planned).
Proof.
  cbv zeta. rewrite main_run. cbv zeta.
  assert (forall (w0 : world) (r0 : result Z) (planned : list string),
            requests_of (log w0) = requests_of (log w) ++ [url args] ->
            reqs w0 = S (reqs w) ->
            (forall code, r0 = Ok code -> planned = []) ->
            exists rs,
              requests_of (log (fst (w0, r0)))
              = requests_of (log w) ++ url args :: rs
              /\ reqs (fst (w0, r0)) = reqs w + S (length rs)
              /\ rs `prefix_of` planned
              /\ (forall code, snd (w0, r0) = Ok code -> rs = planned))
    as Hnone.
  { intros w0 r0 planned H1 H2 H3. exists []. cbn [fst snd].
    split; [done|]. split; [cbn; lia|]. split; [apply prefix_nil|].
    intros code Hc. by rewrite (H3 code Hc). }
  assert (requests_of (log (requested w (url args)))
          = requests_of (log w) ++ [url args]) as Hpage.
  { cbn [requested log]. by rewrite requests_of_snoc. }
  destruct (whole_body (net (reqs w) (url args))) as [html|error].
  2:{ split; [destruct (dry_run args); constructor|].
      destruct (isinstance error [HTTPError; URLError]).
      - apply Hnone; [|done|by destruct (dry_run args)].
        cbn [logged log]. by rewrite requests_of_snoc, app_nil_r.
      - by apply Hnone. }
  destruct (extract_links host_check html (url args)) as [links|e] eqn:Hl.
  2:{ split; [destruct (dry_run args); constructor|]. by apply Hnone. }
  assert (NoDup links) as Hnd.
  { apply strictly_sorted_NoDup.
    by destruct (extract_links_elements _ _ _ _ Hl). }
  split; [destruct (dry_run args); [constructor|by apply filter_NoDup]|].
  destruct links as [|link rest].
  { apply Hnone; [|done|by destruct (dry_run args)].
    cbn [logged log]. by rewrite requests_of_snoc, app_nil_r. }
  set (links := link :: rest) in *.
  assert (requests_of (log (announced (requested w (url args)) links))
          = requests_of (log w) ++ [url args]) as Hann.
  { cbn [announced log]. rewrite requests_of_app, Hpage.
    change (Out ?x :: ?l) with ([Out x] ++ l).
    rewrite requests_of_app, requests_of_lines. cbn. by rewrite !app_nil_r. }
  destruct (dry_run args); [by apply Hnone|].
  destruct (mkdir_parents_run denied (output args)
              (announced (requested w (url args)) links))
    as (f2 & r2 & Hmk & _).
  rewrite Hmk. set (w3 := World f2 _ _).
  assert (requests_of (log w3) = requests_of (log w) ++ [url args]) as H3.
  { subst w3. cbn [log]. by rewrite requests_of_snoc, Hann, app_nil_r. }
  assert (reqs w3 = S (reqs w)) as Hn3 by done.
  destruct r2 as [[]|e]; [|by apply Hnone].
  destruct (download_all _ _ _ _ _ _ w3) as [w4 r4] eqn:Hloop.
  destruct (download_all_events host_check net denied args links [] w3 w4
              _ Hloop) as (evs & Hlog & Hpre & Hn & Hall).
  assert (forall (w5 : world) (r5 : result Z),
            requests_of (log w5) = requests_of (log w4) ->
            reqs w5 = reqs w4 ->
            (forall code, r5 = Ok code -> exists l, r4 = Ok l) ->
            exists rs,
              requests_of (log (fst (w5, r5)))
              = requests_of (log w) ++ url args :: rs
              /\ reqs (fst (w5, r5)) = reqs w + S (length rs)
              /\ rs `prefix_of` List.filter (parses host_check) links
              /\ (forall code, snd (w5, r5) = Ok code ->
                  rs = List.filter (parses host_check) links)) as Hend.
  { intros w5 r5 E1 E2 E3. exists (requests_of evs). cbn [fst snd].
    rewrite E1, E2, Hlog, requests_of_app, H3, <- app_assoc.
    split; [done|]. split; [lia|]. split; [done|].
    intros code Hc. destruct (E3 code Hc) as [l ->].
    by destruct (Hall l eq_refl). }
  destruct r4 as [downloaded|e]; [|by apply Hend].
  destruct downloaded as [|d ds].
  { apply Hend; [|done|by eexists].
    cbn [logged log]. by rewrite requests_of_snoc, app_nil_r. }
  rewrite write_manifest_run.
  destruct (manifest_data _ _ _) as [data|e]; [|by apply Hend].
  rewrite write_text_run. cbv zeta.
  assert (requests_of (log (logged w4 (OpenW (manifest_path_of args))))
          = requests_of (log w4)) as Hopen.
  { cbn [logged log]. by rewrite requests_of_snoc, app_nil_r. }
  destruct (is_dir (fs w4) (manifest_path_of args)); [by apply Hend|].
  destruct (negb (is_dir (fs w4) (parent (manifest_path_of args))));
    [by apply Hend|].
  destruct (denied (manifest_path_of args)); [by apply Hend|].
  apply Hend; [|done|by eexists].
  cbn [logged log]. rewrite requests_of_snoc, app_nil_r. exact Hopen.
Qed.

(** One use: the dry run. *)
Lemma main_requests_witness :
  requests_of (log (fst (main no_host_error net_ok deny_none args_dry
                           w_empty)))
  = ["http://x.com/"].
Proof.
  destruct (main_requests no_host_error net_ok deny_none args_dry w_empty)
    as (_ & rs & H & _ & Hpre & _).
  cbn [args_dry dry_run] in Hpre. apply prefix_nil_inv in Hpre.
  rewrite Hpre in H. exact H.
Defined.

(** ** File names, directories, the manifest: edge and error cases *)

(** The name under which a download is stored is never empty, holds no
    slash, ends in one of the six extensions and so is neither [.] nor
    [..]: joined to the directory it names one of its entries, whatever
    the path of the URL.  A name that is derived once is derived to
    itself. *)
Theorem derive_filename_safe (url_path : string) (dest_dir : Path) :
  let filename := derive_filename url_path in
  Str.nonempty filename = true
  /\ Str.mem "/" filename = false
  /\ has_audio_extension filename = true
  /\ filename <> "." /\ filename <> ".."
  /\ joinpath dest_dir filename = dest_dir ++ [filename]
  /\ parent (joinpath dest_dir filename) = dest_dir
  /\ derive_filename filename = filename.
Proof.
  cbv zeta.
  destruct (derive_filename_spec url_path) as (Heq & Hext & Hslash & Hne).
  rewrite <- Heq in Hext, Hslash, Hne. clear Heq.
  set (filename := derive_filename url_path) in *.
  assert (filename <> ".") as Hdot by (intros E; by rewrite E in Hext).
  assert (filename <> "..") as Hdots by (intros E; by rewrite E in Hext).
  assert (is_component filename = true) as Hcomp.
  { unfold is_component. rewrite Hne. cbn [andb].
    apply negb_true_iff, String.eqb_neq. done. }
  rewrite (joinpath_single dest_dir filename Hslash Hcomp).
  split; [done|]. split; [done|]. split; [done|]. split; [done|].
  split; [done|]. split; [done|]. split; [by apply parent_snoc|].
  generalize dependent filename. intros filename Hext Hslash Hne _ _ Hcomp.
  unfold derive_filename.
  rewrite (parse_path_single filename Hslash Hcomp).
  change [filename] with ([] ++ [filename]).
  rewrite (name_snoc [] filename Hslash).
  by rewrite Hne, Hext.
Qed.

Section Directories.
Variable denied : Path -> bool.

Lemma can_make_insert (f : gmap (list string) node) (p q : Path) :
  q <> p -> can_make denied (<[p := Dir]> f) q = can_make denied f q.
Proof.
  intros Hne. unfold can_make, path_exists, is_dir.
  by rewrite lookup_insert_ne.
Qed.

Lemma make_dirs_returns (todo : list Path) :
  NoDup todo ->
  forall w,
    snd (make_dirs denied todo w) = Ok tt
    <-> forall q, q ∈ todo -> can_make denied (fs w) q = true.
Proof.
  induction 1 as [|p rest Hp Hnd IH]; intros [f n l].
  - split; [by intros _ q ?%elem_of_nil | done].
  - cbn [make_dirs]. unfold bind, get_fs. cbn [fs reqs log].
    destruct (is_dir f p) eqn:Hd.
    + rewrite IH. cbn [fs]. split.
      * intros H q [->|Hq]%elem_of_cons; [|by apply H].
        unfold can_make. by rewrite Hd.
      * intros H q Hq. apply H. by right.
    + destruct (path_exists f p) eqn:Hex.
      { split; [done|]. intros H. specialize (H p ltac:(by left)).
        unfold can_make in H. cbn [fs] in H. by rewrite Hd, Hex in H. }
      destruct (denied p) eqn:Hden.
      { split; [done|]. intros H. specialize (H p ltac:(by left)).
        unfold can_make in H. cbn [fs] in H.
        by rewrite Hd, Hden, andb_false_r in H. }
      unfold put_fs. cbn [fs reqs log]. rewrite IH. cbn [fs]. split.
      * intros H q [->|Hq]%elem_of_cons.
        -- unfold can_make. by rewrite Hd, Hex, Hden.
        -- rewrite <- (can_make_insert f p q); [by apply H|].
           intros ->. done.
      * intros H q Hq. rewrite can_make_insert; [apply H; by right|].
        intros ->. done.
Qed.

Lemma make_dirs_raises (todo : list Path) (w : world) (e : exn) :
  snd (make_dirs denied todo w) = Raise e -> exn_cls e = OSError.
Proof.
  revert w. induction todo as [|p rest IH]; intros [f n l]; [done|].
  cbn [make_dirs]. unfold bind, get_fs. cbn [fs reqs log].
  destruct (is_dir f p); [apply IH|].
  destruct (path_exists f p); [by intros [= <-]|].
  destruct (denied p); [by intros [= <-]|].
  unfold put_fs. apply IH.
Qed.

Lemma prefixes_NoDup (p : Path) : NoDup (prefixes p).
Proof.
  induction p as [|part rest IH]; [constructor|].
  cbn [prefixes]. constructor.
  - intros (q & E & Hq)%list_elem_of_fmap. injection E as <-.
    destruct rest as [|x xs]; [by apply elem_of_nil in Hq|].
    cbn [prefixes] in Hq.
    by apply elem_of_cons in Hq as [[=]|(y & [=] & _)%list_elem_of_fmap].
  - by apply (NoDup_fmap_2 (cons part)).
Qed.

Lemma make_dirs_same (todo : list Path) (w : world) :
  (forall q, q ∈ todo -> is_dir (fs w) q = true) ->
  make_dirs denied todo w = (w, Ok tt).
Proof.
  induction todo as [|t rest IH]; intros H; [done|].
  cbn [make_dirs]. unfold bind, get_fs.
  rewrite (H t ltac:(by left)). apply IH. intros q Hq. apply H. by right.
Qed.
End Directories.

(** [ensure_directory] removes and replaces nothing: what it adds are
    directories, at the path and its ancestors.  It returns exactly when
    each of them is a directory already or is missing and may be created,
    and then all of them are directories; when all of them are directories
    before, it leaves the file system as it is.  When it raises, it raises
    an [OSError], which [main] does not catch. *)
Theorem ensure_directory_outcomes (denied : Path -> bool) (p : Path)
    (w : world) :
  let out := ensure_directory denied p w in
  grown (fs w) (fs (fst out))
  /\ (forall q, q ∉ prefixes p -> fs (fst out) !! q = fs w !! q)
  /\ (snd out = Ok tt
      <-> forall q, q ∈ prefixes p -> can_make denied (fs w) q = true)
  /\ (snd out = Ok tt ->
      forall q, q ∈ prefixes p -> is_dir (fs (fst out)) q = true)
  /\ ((forall q, q ∈ prefixes p -> is_dir (fs w) q = true) ->
      fs (fst out) = fs w /\ snd out = Ok tt)
  /\ (forall e, snd out = Raise e -> exn_cls e = OSError).
Proof.
  cbv zeta. unfold ensure_directory.
  destruct (mkdir_parents_run denied p w) as (f' & r & E & Hg & Hdirs).
  assert (snd (mkdir_parents denied p w)
          = snd (make_dirs denied (prefixes p)
                   (World (fs w) (reqs w) (log w ++ [MkDir p])))) as Hsnd
    by done.
  assert (snd (mkdir_parents denied p w) = Ok tt
          <-> forall q, q ∈ prefixes p -> can_make denied (fs w) q = true)
    as Hiff.
  { rewrite Hsnd. by rewrite (make_dirs_returns denied _ (prefixes_NoDup p)). }
  split; [by rewrite E|].
  split; [intros q Hq; by apply (mkdir_parents_lookup denied p w _ _ q
                                   (surjective_pairing _))|].
  split; [done|].
  split; [rewrite E; cbn [fst snd fs]; done|].
  split.
  - intros Hall. unfold mkdir_parents, bind, emit.
    by rewrite make_dirs_same.
  - intros e He. rewrite Hsnd in He. by apply make_dirs_raises in He.
Qed.

(** One use: a directory under a directory that is missing too. *)
Lemma ensure_directory_outcomes_witness :
  snd (ensure_directory deny_none ["out"; "sub"] w_empty) = Ok tt
  /\ is_dir (fs (fst (ensure_directory deny_none ["out"; "sub"] w_empty)))
       ["out"; "sub"] = true.
Proof.
  assert (snd (ensure_directory deny_none ["out"; "sub"] w_empty) = Ok tt)
    as H by (vm_compute; reflexivity).
  split; [exact H|].
  refine (proj1 (proj2 (proj2 (proj2 (ensure_directory_outcomes deny_none
                                        ["out"; "sub"] w_empty))))
            H ["out"; "sub"] _).
  apply list_elem_of_In. cbn. tauto.
Defined.

(** ** The manifest and the extraction when they fail *)

Lemma rmap_raises {A B} (f : A -> result B) (l : list A) (e : exn) :
  (forall a, a ∈ l -> f a = Raise e \/ exists b, f a = Ok b) ->
  (exists a, a ∈ l /\ f a = Raise e) ->
  rmap f l = Raise e.
Proof.
  induction l as [|a l IH]; intros Hall (x & Hx & Hfx).
  - by apply elem_of_nil in Hx.
  - cbn [rmap]. destruct (Hall a ltac:(by left)) as [->|[b Hb]]; [done|].
    rewrite Hb. cbn [rbind]. rewrite IH; [done| |].
    + intros a' Ha'. apply Hall. by right.
    + apply elem_of_cons in Hx as [->|Hx]; [congruence|]. by exists x.
Qed.

Lemma rmap_returns {A B} (f : A -> result B) (l : list A) :
  (forall a, a ∈ l -> exists b, f a = Ok b) ->
  exists bs, rmap f l = Ok bs.
Proof.
  induction l as [|a l IH]; intros Hall; [by exists []|].
  cbn [rmap]. destruct (Hall a ltac:(by left)) as [b ->].
  destruct IH as [bs ->]; [intros a' Ha'; apply Hall; by right|].
  by eexists.
Qed.

(** [write_manifest] computes the whole dictionary before it opens the
    file.  If [relative_to] raises for one of the files, because it does
    not lie under the directory of the manifest, [write_manifest] raises
    a [ValueError] and nothing has happened: no file is opened, the file
    system is as it was.  Else it opens the manifest, and it returns
    exactly when the path is no directory, its parent is one, and it may
    be written; when it raises then, it raises an [OSError] and the file
    system is as it was. *)
Theorem write_manifest_outcomes (denied : Path -> bool) (mp : Path)
    (source_url : string) (files : list Path) (w : world) :
  let out := write_manifest denied mp source_url files w in
  ((exists file e, file ∈ files
                   /\ relative_to file (parent mp) = Raise e) ->
   fst out = w
   /\ exists e, snd out = Raise e /\ exn_cls e = ValueError)
  /\ ((forall file, file ∈ files ->
         exists rel, relative_to file (parent mp) = Ok rel) ->
      log (fst out) = log w ++ [OpenW mp]
      /\ (snd out = Ok tt
          <-> is_dir (fs w) mp = false /\ is_dir (fs w) (parent mp) = true
              /\ denied mp = false)
      /\ (snd out = Ok tt ->
          exists data,
            manifest_data mp source_url files = Ok data
            /\ fs (fst out)
               = <[mp := File (dumps data +:+ String "010" "")]> (fs w))
      /\ (forall e, snd out = Raise e ->
            exn_cls e = OSError /\ fs (fst out) = fs w))
  /\ (forall file, has_root file = true -> has_root (parent mp) = false ->
        exists e, relative_to file (parent mp) = Raise e)
  /\ (forall file,
        (exists rel, relative_to file (parent mp) = Ok rel)
        <-> (exists rel, file = parent mp ++ rel)
            /\ (parent mp = [] -> has_root file = false)).
Proof.
  cbv zeta. rewrite write_manifest_run.
  assert (forall file e, relative_to file (parent mp) = Raise e ->
            e = Exn ValueError "path is not in the subpath of the other")
    as Hexn.
  { intros file e. unfold relative_to.
    destruct (match parent mp with [] => has_root file | _ :: _ => false end);
      [by intros [= <-]|].
    destruct (strip_prefix (parent mp) file); [done|by intros [= <-]]. }
  assert (forall pre p rel, strip_prefix pre p = Some rel -> p = pre ++ rel)
    as Hstrip.
  { induction pre as [|a pre IH]; intros [|b p] rel; cbn [strip_prefix];
      try done; try by intros [= <-].
    destruct (String.eqb_spec a b) as [->|]; [|done].
    intros E. by rewrite (IH _ _ E). }
  split; [|split; [|split]].
  - intros (file & e0 & Hin & Hraise).
    set (e := Exn ValueError "path is not in the subpath of the other").
    assert (manifest_data mp source_url files = Raise e) as ->.
    { unfold manifest_data.
      rewrite (rmap_raises (manifest_entry mp source_url) files e);
        [done| |].
      - intros a _. unfold manifest_entry.
        destruct (relative_to a (parent mp)) as [rel|e1] eqn:E;
          [right; by eexists|left].
        by rewrite (Hexn _ _ E).
      - exists file. split; [done|].
        unfold manifest_entry. by rewrite Hraise, (Hexn _ _ Hraise). }
    split; [done|]. by exists e.
  - intros Hall.
    assert (exists data, manifest_data mp source_url files = Ok data)
      as [data Hdata].
    { unfold manifest_data.
      destruct (rmap_returns (manifest_entry mp source_url) files)
        as [entries ->]; [|by eexists].
      intros a Ha. destruct (Hall a Ha) as [rel Hrel].
      unfold manifest_entry. rewrite Hrel. by eexists. }
    rewrite Hdata, write_text_run. cbv zeta.
    destruct (is_dir (fs w) mp).
    { split; [done|]. split; [split; [done|by intros [[=] _]]|].
      split; [done|]. by intros e [= <-]. }
    destruct (is_dir (fs w) (parent mp)); cbn [negb].
    2:{ split; [done|]. split; [split; [done|by intros (_ & [=] & _)]|].
        split; [done|]. by intros e [= <-]. }
    destruct (denied mp).
    { split; [done|]. split; [split; [done|by intros (_ & _ & [=])]|].
      split; [done|]. by intros e [= <-]. }
    split; [done|]. split; [done|]. split; [|done].
    intros _. by exists data.
  - intros file Hroot Hrel. unfold relative_to.
    destruct (parent mp) as [|a pre] eqn:E.
    + rewrite Hroot. by eexists.
    + destruct file as [|b file]; [done|]. cbn [strip_prefix].
      cbn [has_root] in Hroot, Hrel.
      destruct (String.eqb_spec a b) as [->|]; [congruence|]. by eexists.
  - intros file. unfold relative_to. split.
    + intros [rel Hrel].
      destruct (parent mp) as [|a pre] eqn:E.
      * destruct (has_root file); [done|]. cbn [strip_prefix] in Hrel.
        injection Hrel as <-. split; [by exists file|done].
      * destruct (strip_prefix (a :: pre) file) as [rel'|] eqn:Hs; [|done].
        split; [|done]. exists rel'. by apply Hstrip.
    + intros [[rel ->] Hroot]. rewrite strip_prefix_app.
      destruct (parent mp) as [|a pre]; [|by eexists].
      rewrite (Hroot eq_refl). by eexists.
Qed.

(** One use: an absolute file, and a manifest in the current
    directory. *)
Lemma write_manifest_outcomes_witness :
  (exists file e, file ∈ [["/"; "tmp"; "a.mp3"]]
                  /\ relative_to file (parent ["manifest.json"]) = Raise e)
  /\ fst (write_manifest deny_none ["manifest.json"] "http://x.com/"
            [["/"; "tmp"; "a.mp3"]] w_out) = w_out.
Proof.
  assert (exists file e, file ∈ [["/"; "tmp"; "a.mp3"]]
                         /\ relative_to file (parent ["manifest.json"])
                            = Raise e) as H.
  { exists ["/"; "tmp"; "a.mp3"]. eexists. split; [constructor|reflexivity]. }
  split; [exact H|].
  exact (proj1 (proj1 (write_manifest_outcomes deny_none
                         ["manifest.json"] "http://x.com/"
                         [["/"; "tmp"; "a.mp3"]] w_out) H)).
Defined.

Section ExtractionFails.
Variable host_check : string -> option string.

Lemma urljoin_raises_ValueError (base url : string) (e : exn) :
  UrlParse.urljoin host_check base url = Raise e -> exn_cls e = ValueError.
Proof.
  unfold UrlParse.urljoin.
  destruct (negb (Str.nonempty base)); [done|].
  destruct (negb (Str.nonempty url)); [done|].
  destruct (UrlParse.urlparse host_check base "") as [b|eb] eqn:Hb;
    cbn [rbind].
  2:{ intros [= <-]. by apply urlparse_raises_ValueError in Hb. }
  destruct (UrlParse.urlparse host_check url (UrlParse.scheme b))
    as [u|eu] eqn:Hu; cbn [rbind].
  2:{ intros [= <-]. by apply urlparse_raises_ValueError in Hu. }
  destruct (_ || _); [done|].
  destruct (_ && _); [done|].
  by destruct (_ && _).
Qed.

Lemma add_resolved_raises (base_url : string) (matches : list string) :
  forall (found : gset string) (e : exn),
    add_resolved host_check base_url matches found = Raise e ->
    exists m, m ∈ matches
              /\ UrlParse.urljoin host_check base_url m = Raise e.
Proof.
  induction matches as [|m rest IH]; intros found e; [done|].
  cbn [add_resolved].
  destruct (UrlParse.urljoin host_check base_url m) as [u|e0] eqn:Hj;
    cbn [rbind].
  - intros (m' & Hin & Hm')%IH. exists m'. split; [by right|done].
  - intros [= <-]. exists m. split; [by left|done].
Qed.
End ExtractionFails.

(** [extract_links] raises only what [urljoin] raises on one of the
    matched texts, a [ValueError]; if every matched text resolves, it
    returns.  [main] has no handler for it: the exception leaves [main]
    when only the page has been requested, nothing is printed, the file
    system is as it was, and the process ends with status 1. *)
Theorem extract_links_failure
    (host_check : string -> option string) (net : nat -> string -> response)
    (denied : Path -> bool) (args : Args) (w : world) (html : string)
    (e : exn) :
  extract_links host_check html (url args) = Raise e ->
  exn_cls e = ValueError
  /\ (exists m,
        m ∈ Re.findall true combined html ++ Re.findall true absolute html
        /\ UrlParse.urljoin host_check (url args) m = Raise e)
  /\ (whole_body (net (reqs w) (url args)) = Ok html ->
      main host_check net denied args w
      = (World (fs w) (S (reqs w)) (log w ++ [Request (url args)]), Raise e)
      /\ exit_status (snd (main host_check net denied args w)) = 1%Z).
Proof.
  intros H.
  assert (exists m,
            m ∈ Re.findall true combined html ++ Re.findall true absolute html
            /\ UrlParse.urljoin host_check (url args) m = Raise e)
    as (m & Hin & Hm).
  { unfold extract_links in H.
    destruct (add_resolved host_check (url args)
                (Re.findall true combined html) ∅) as [found|e1] eqn:H1;
      cbn [rbind] in H.
    - destruct (add_resolved host_check (url args)
                  (Re.findall true absolute html) found) as [found'|e2] eqn:H2;
        cbn [rbind] in H; [done|].
      injection H as ->.
      apply add_resolved_raises in H2 as (m & Hin & Hm).
      exists m. split; [|done]. apply elem_of_app. by right.
    - injection H as ->.
      apply add_resolved_raises in H1 as (m & Hin & Hm).
      exists m. split; [|done]. apply elem_of_app. by left. }
  split; [by apply (urljoin_raises_ValueError host_check (url args) m)|].
  split; [by exists m|].
  intros Hf. rewrite main_run, Hf, H. cbv zeta. done.
Qed.

(** One use: a page with a host that opens a bracket. *)
Lemma extract_links_failure_witness :
  extract_links no_host_error bracket_page (url args_out)
  = Raise (UrlParse.value_error "Invalid IPv6 URL")
  /\ exn_cls (UrlParse.value_error "Invalid IPv6 URL") = ValueError.
Proof.
  assert (extract_links no_host_error bracket_page (url args_out)
          = Raise (UrlParse.value_error "Invalid IPv6 URL")) as H
    by (vm_compute; reflexivity).
  split; [exact H|].
  exact (proj1 (extract_links_failure no_host_error net_ok deny_none args_out
                  w_empty bracket_page _ H)).
Defined.

(** ** The links of the second pattern are http and https URLs *)

Lemma delimiter_lower (c : ascii) :
  delimiter (Str.lower_char c) = delimiter c.
Proof. destruct c as [[] [] [] [] [] [] [] []]; vm_compute; reflexivity. Qed.

Lemma mem_all_chars (x : ascii) (qs cs : string) :
  Str.all_chars (fun c => Str.mem c cs) qs = true ->
  Str.mem x qs = true -> Str.mem x cs = true.
Proof.
  induction qs as [|q qs IH]; cbn [Str.all_chars Str.mem]; [done|].
  intros [Hq Hqs]%andb_true_iff.
  destruct (Ascii.eqb_spec x q) as [->|]; [done | by apply IH].
Qed.

Lemma all_chars_mem (p : ascii -> bool) (x : ascii) (cs : string) :
  Str.all_chars p cs = true -> Str.mem x cs = true -> p x = true.
Proof.
  induction cs as [|c cs IH]; cbn [Str.all_chars Str.mem]; [done|].
  intros [Hc Hcs]%andb_true_iff.
  destruct (Ascii.eqb_spec x c) as [->|]; [done | by apply IH].
Qed.

Lemma atom_clean (a : Re.atom) (x : ascii) :
  clean_atom a = true -> Re.atom_ok true a x = true -> delimiter x = false.
Proof.
  destruct a as [c|cs|cs sp]; cbn [clean_atom Re.atom_ok].
  - intros Hc%negb_true_iff Hx%Ascii.eqb_eq.
    by rewrite <- (delimiter_lower x), Hx, delimiter_lower.
  - intros Hcs Hx. apply negb_true_iff.
    exact (all_chars_mem (fun c => negb (delimiter c)) x cs Hcs Hx).
  - intros [Hq ->]%andb_true_iff. cbn [andb].
    intros [Hx%negb_true_iff Hs%negb_true_iff]%andb_true_iff.
    unfold delimiter. rewrite Hs, orb_false_r.
    destruct (Str.mem x quotes) eqn:E; [|done].
    by rewrite (mem_all_chars x quotes cs Hq E) in Hx.
Qed.

Lemma atoms_clean (a : Re.atom) (w : string) :
  clean_atom a = true -> Str.all_chars (Re.atom_ok true a) w = true ->
  Str.all_chars (fun c => negb (delimiter c)) w = true.
Proof.
  intros Ha. induction w as [|c w IH]; cbn [Str.all_chars]; [done|].
  intros [Hc Hw]%andb_true_iff.
  by rewrite (atom_clean a c Ha Hc), IH.
Qed.

(** A text that a clean pattern matches holds no delimiter. *)
Lemma matches_clean (r : Re.regex) (w : string) :
  Re.matches true r w -> clean_regex r = true ->
  Str.all_chars (fun c => negb (delimiter c)) w = true.
Proof.
  induction 1 as [|a c Hc|r1 r2 w1 w2 _ IH1 _ IH2|r1 r2 w _ IH|r1 r2 w _ IH
                  | |r w _ IH|a w Hw|a c w Hc Hw|r w _ IH];
    cbn [clean_regex]; intros Hr.
  - done.
  - cbn [Str.all_chars]. by rewrite (atom_clean a c Hr Hc).
  - apply andb_true_iff in Hr as [H1 H2].
    by rewrite all_chars_app, IH1, IH2.
  - apply andb_true_iff in Hr as [H1 _]. by apply IH.
  - apply andb_true_iff in Hr as [_ H2]. by apply IH.
  - done.
  - by apply IH.
  - by apply (atoms_clean a).
  - cbn [Str.all_chars]. by rewrite (atom_clean a c Hr Hc), (atoms_clean a w).
  - by apply IH.
Qed.

Lemma lower_char_fixed (d : ascii) :
  Str.mem (Str.lower_char d) ":/" = true -> Str.lower_char d = d.
Proof. destruct d as [[] [] [] [] [] [] [] []]; vm_compute; congruence. Qed.

Lemma lower_alpha_char (c : ascii) :
  Str.is_ascii_lower (Str.lower_char c) = true ->
  Str.is_ascii_alpha c = true.
Proof. destruct c as [[] [] [] [] [] [] [] []]; vm_compute; congruence. Qed.

Lemma alpha_char_facts (c : ascii) :
  Str.is_ascii_alpha c = true ->
  UrlParse.c0_control_or_space c = false
  /\ UrlParse.scheme_char c = true /\ Ascii.eqb c ":" = false.
Proof. destruct c as [[] [] [] [] [] [] [] []]; vm_compute; intuition congruence. Qed.

Lemma lower_alpha (s : string) :
  Str.all_chars Str.is_ascii_lower (Str.lower s) = true ->
  Str.all_chars Str.is_ascii_alpha s = true.
Proof.
  induction s as [|c s IH]; cbn [Str.lower Str.all_chars]; [done|].
  intros [Hc Hs]%andb_true_iff. by rewrite lower_alpha_char, IH.
Qed.

(** The shape of a text of the pattern [absolute]. *)
Lemma absolute_shape (w : string) :
  Re.matches true absolute w ->
  exists sch rest,
    w = sch +:+ "://" +:+ rest
    /\ (Str.lower sch = "http" \/ Str.lower sch = "https").
Proof.
  unfold absolute. cbn [Re.seq]. intros H.
  inversion H as [| |r1 r2 w1 w2 H1 H2| | | | | | |]; subst; clear H.
  inversion H2 as [| |r1 r2 w3 w4 H3 H4| | | | | | |]; subst; clear H2.
  inversion H4 as [| |r1 r2 w5 w6 H5 H6| | | | | | |]; subst; clear H4 H6.
  apply (word_matches "http") in H1. apply (word_matches "://") in H5.
  change (Str.lower "http") with "http" in H1.
  change (Str.lower "://") with "://" in H5.
  assert (w5 = "://") as ->.
  { destruct w5 as [|a [|b [|c [|d w5]]]]; try done.
    cbn [Str.lower] in H5. injection H5 as Ha Hb Hc.
    rewrite <- (lower_char_fixed a), <- (lower_char_fixed b),
      <- (lower_char_fixed c); [congruence|by rewrite ?Ha, ?Hb, ?Hc..]. }
  exists (w1 +:+ w3), w6. split; [by rewrite !str_app_assoc|].
  rewrite lower_app, H1.
  inversion H3 as [| | | | |r|r w' H7| | |]; subst; [by left|].
  inversion H7 as [|a c Hc| | | | | | | |]; subst.
  cbn [Re.atom_ok] in Hc. apply Ascii.eqb_eq in Hc.
  right. cbn [Str.lower]. by rewrite Hc.
Qed.

Section HttpLinks.
Variable host_check : string -> option string.

Lemma partition_scheme (sch rest : string) :
  Str.all_chars Str.is_ascii_alpha sch = true ->
  Str.partition ":" (sch +:+ String ":" rest) = Some (sch, rest).
Proof.
  induction sch as [|c sch IH]; cbn [Str.all_chars]; [done|].
  intros [Hc Hs]%andb_true_iff. sapp. cbn [Str.partition].
  destruct (alpha_char_facts c Hc) as (_ & _ & ->). by rewrite IH.
Qed.

Lemma scheme_chars_alpha (sch : string) :
  Str.all_chars Str.is_ascii_alpha sch = true ->
  Str.all_chars UrlParse.scheme_char sch = true.
Proof.
  apply all_chars_impl. intros c Hc. by destruct (alpha_char_facts c Hc) as (_ & -> & _).
Qed.

(** [urlsplit] on an http or https URL finds its scheme. *)
Lemma urlsplit_http (sch rest default : string)
    (res : UrlParse.SplitResult) :
  Str.lower sch = "http" \/ Str.lower sch = "https" ->
  Str.all_chars (fun c => negb (delimiter c)) (sch +:+ "://" +:+ rest) = true ->
  UrlParse.urlsplit host_check (sch +:+ "://" +:+ rest) default = Ok res ->
  UrlParse.s_scheme res = Str.lower sch.
Proof.
  intros Hsch Hclean.
  assert (Str.all_chars Str.is_ascii_alpha sch = true) as Halpha.
  { apply lower_alpha. by destruct Hsch as [-> | ->]. }
  destruct sch as [|c sch]; [by destruct Hsch|].
  pose proof Halpha as Hc. cbn [Str.all_chars] in Hc.
  apply andb_true_iff in Hc as [Hc _].
  destruct (alpha_char_facts c Hc) as (Hc0 & _ & _).
  unfold UrlParse.urlsplit.
  assert (Str.lstrip UrlParse.c0_control_or_space
            (String c sch +:+ "://" +:+ rest)
          = String c sch +:+ "://" +:+ rest) as ->.
  { sapp. cbn [Str.lstrip]. by rewrite Hc0. }
  rewrite remove_id.
  2:{ eapply all_chars_impl; [|exact Hclean].
      intros x. destruct x as [[] [] [] [] [] [] [] []]; vm_compute;
        congruence. }
  unfold UrlParse.split_scheme.
  change ("://" +:+ rest) with (String ":" ("//" +:+ rest)).
  rewrite (partition_scheme _ _ Halpha).
  rewrite Hc, (scheme_chars_alpha _ Halpha). cbn [andb].
  destruct (if Str.startswith _ "//" then _ else _) as [nl url].
  destruct (UrlParse.check_netloc host_check nl); cbn [rbind]; [|done].
  intros ->%split_rest_result.
  destruct (match Str.partition "#" url with
            | Some (a, b) => (a, b) | None => (url, "") end) as [u frag].
  by destruct (match Str.partition "?" u with
               | Some (a, b) => (a, b) | None => (u, "") end) as [u' q].
Qed.

Lemma urlparse_http (sch rest default : string)
    (u : UrlParse.ParseResult) :
  Str.lower sch = "http" \/ Str.lower sch = "https" ->
  Str.all_chars (fun c => negb (delimiter c)) (sch +:+ "://" +:+ rest) = true ->
  UrlParse.urlparse host_check (sch +:+ "://" +:+ rest) default = Ok u ->
  UrlParse.scheme u = Str.lower sch.
Proof.
  intros Hsch Hclean. unfold UrlParse.urlparse.
  destruct (UrlParse.urlsplit host_check _ default) as [res|] eqn:Hs;
    cbn [rbind]; [|done].
  apply (urlsplit_http _ _ _ _ Hsch Hclean) in Hs.
  destruct (if _ && _ then _ else _) as [url par].
  intros [= <-]. done.
Qed.

(** [urlunsplit] with a scheme that uses a host writes the scheme, a
    colon and two slashes. *)
Lemma urlunsplit_scheme (sch nl url q frag : string) :
  Str.nonempty sch = true -> UrlParse.member sch UrlParse.uses_netloc = true ->
  exists rest, UrlParse.urlunsplit sch nl url q frag = sch +:+ "://" +:+ rest.
Proof.
  intros Hne Hmem. unfold UrlParse.urlunsplit. rewrite Hne, Hmem. cbn [andb].
  assert (exists t,
            (if Str.nonempty nl || negb (Str.startswith url "//")
             then "//" +:+ nl
                  +:+ (if Str.nonempty url && negb (Str.startswith url "/")
                       then "/" +:+ url else url)
             else url) = "//" +:+ t) as [t ->].
  { destruct (Str.nonempty nl || negb (Str.startswith url "//")) eqn:E;
      [by eexists|].
    apply orb_false_iff in E as [_ E%negb_false_iff].
    apply startswith_slashes in E as [t ->]. by exists t. }
  destruct (Str.nonempty q), (Str.nonempty frag); eexists;
    rewrite ?str_app_assoc; reflexivity.
Qed.

Lemma is_http_url_intro (sch rest : string) :
  Str.lower sch = "http" \/ Str.lower sch = "https" ->
  is_http_url (sch +:+ "://" +:+ rest) = true.
Proof.
  intros Hsch. unfold is_http_url.
  assert (forall n, String.length sch + 3 = n ->
            Str.lower (Str.take n (sch +:+ "://" +:+ rest))
            = Str.lower sch +:+ "://") as Htake.
  { intros n <-. rewrite <- str_app_assoc.
    replace (String.length sch + 3) with (String.length (sch +:+ "://"))
      by (rewrite str_app_length; reflexivity).
    by rewrite take_app_exact, lower_app. }
  destruct Hsch as [H|H].
  - rewrite (Htake 7), H; [done|]. by rewrite <- lower_length, H.
  - rewrite (Htake 8), H; [apply orb_true_r|]. by rewrite <- lower_length, H.
Qed.

(** Resolving a text of the pattern [absolute] gives an http or https
    URL, whatever the page URL. *)
Lemma urljoin_http (base m u : string) :
  Re.matches true absolute m ->
  UrlParse.urljoin host_check base m = Ok u ->
  is_http_url u = true.
Proof.
  intros Hm.
  pose proof (matches_clean absolute m Hm eq_refl) as Hclean.
  destruct (absolute_shape m Hm) as (sch & rest & -> & Hsch).
  unfold UrlParse.urljoin.
  destruct (negb (Str.nonempty base));
    [intros [= <-]; by apply is_http_url_intro|].
  destruct (negb (Str.nonempty _)) eqn:Hne.
  { exfalso. destruct sch; [by destruct Hsch | done]. }
  destruct (UrlParse.urlparse host_check base "") as [b|]; cbn [rbind];
    [|done].
  destruct (UrlParse.urlparse host_check _ (UrlParse.scheme b)) as [r|] eqn:Hr;
    cbn [rbind]; [|done].
  apply (urlparse_http _ _ _ _ Hsch Hclean) in Hr.
  destruct (negb (String.eqb _ _) || negb (UrlParse.member _ _));
    [intros [= <-]; by apply is_http_url_intro|].
  assert (forall nl path params q frag,
            is_http_url
              (UrlParse.urlunparse
                 (UrlParse.mkParse (UrlParse.scheme r) nl path params q frag))
            = true) as Hun.
  { intros nl path params q frag. unfold UrlParse.urlunparse.
    cbn [UrlParse.scheme UrlParse.netloc UrlParse.path UrlParse.params
         UrlParse.query UrlParse.fragment].
    destruct (urlunsplit_scheme (UrlParse.scheme r) nl
                (if Str.nonempty params then path +:+ ";" +:+ params
                 else path) q frag) as [t ->].
    - rewrite Hr. by destruct Hsch as [-> | ->].
    - rewrite Hr. by destruct Hsch as [-> | ->].
    - apply is_http_url_intro. rewrite Hr.
      destruct Hsch as [-> | ->]; [by left | by right]. }
  destruct (UrlParse.member _ _ && Str.nonempty _).
  { intros [= <-]. destruct r. apply Hun. }
  destruct (negb _ && negb _); intros [= <-]; apply Hun.
Qed.
End HttpLinks.

(** No text that the second pattern of [extract_links] finds holds a
    quote or a white space, and one that begins with [http://] or
    [https://], in any case of the letters, resolves against the page
    URL, whatever it is, to an http or https URL.  So when the first
    pattern finds nothing and the texts of the second begin so, every link
    that [extract_links] returns is an http or https URL.  (On the strings
    of this file every text of the second pattern begins so; beyond code
    point 255 the letter [s] of the pattern also matches U+017F, and a
    text found with it does not.) *)
Theorem absolute_links_are_http
    (host_check : string -> option string) (html base_url : string) :
  (forall m, m ∈ Re.findall true absolute html ->
     Str.all_chars (fun c => negb (delimiter c)) m = true
     /\ (is_http_url m = true ->
         forall u, UrlParse.urljoin host_check base_url m = Ok u ->
                   is_http_url u = true))
  /\ (forall l, extract_links host_check html base_url = Ok l ->
        Re.findall true combined html = [] ->
        (forall m, m ∈ Re.findall true absolute html ->
                   is_http_url m = true) ->
        forall u, u ∈ l -> is_http_url u = true).
Proof.
  assert (forall m, m ∈ Re.findall true absolute html ->
            Str.all_chars (fun c => negb (delimiter c)) m = true
            /\ (is_http_url m = true ->
                forall u, UrlParse.urljoin host_check base_url m = Ok u ->
                          is_http_url u = true)) as Habs.
  { intros m [_ Hm]%findall_absolute_sound.
    split; [by apply (matches_clean absolute)|].
    intros _ u. by apply urljoin_http. }
  split; [exact Habs|].
  intros l Hl Hnone Hhttp u Hu.
  destruct (extract_links_elements _ _ _ _ Hl) as [_ Helem].
  apply Helem in Hu as (m & Hin & Hjoin). rewrite Hnone in Hin.
  cbn [app] in Hin. by apply (proj2 (Habs m Hin) (Hhttp m Hin)).
Qed.

(** One use: the page with one link in an attribute. *)
Lemma absolute_links_are_http_witness :
  extract_links no_host_error page_one "http://x.com/"
  = Ok ["http://x.com/a.mp3"]
  /\ Re.findall true combined page_one = []
  /\ (forall m, m ∈ Re.findall true absolute page_one ->
                is_http_url m = true)
  /\ "http://x.com/a.mp3" ∈ ["http://x.com/a.mp3"]
  /\ is_http_url "http://x.com/a.mp3" = true.
Proof.
  assert (extract_links no_host_error page_one "http://x.com/"
          = Ok ["http://x.com/a.mp3"]) as H by (vm_compute; reflexivity).
  assert (Re.findall true combined page_one = []) as Hnone
    by (vm_compute; reflexivity).
  assert (forall m, m ∈ Re.findall true absolute page_one ->
                    is_http_url m = true) as Hhttp.
  { assert (Re.findall true absolute page_one = ["http://x.com/a.mp3"])
      as -> by (vm_compute; reflexivity).
    intros m [->|[]%elem_of_nil]%elem_of_cons. reflexivity. }
  assert ("http://x.com/a.mp3" ∈ ["http://x.com/a.mp3"]) as Hin
    by constructor.
  split; [exact H|]. split; [exact Hnone|]. split; [exact Hhttp|].
  split; [exact Hin|].
  exact (proj2 (absolute_links_are_http no_host_error page_one
                  "http://x.com/") _ H Hnone Hhttp _ Hin).
Defined.

(** ** The manifest and the files it lists *)

Lemma has_audio_extension_app (x e : string) :
  audio_extension e -> has_audio_extension (x +:+ e) = true.
Proof.
  intros He. unfold has_audio_extension. apply existsb_exists.
  exists (Str.lower e). split; [by apply list_elem_of_In|].
  by rewrite lower_app, endswith_app.
Qed.

(** No download is stored under the name of the manifest. *)
Lemma candidate_not_manifest (filename : string) (k : nat) :
  has_audio_extension filename = true ->
  candidate filename k <> "manifest.json".
Proof.
  intros (base & e & -> & He & Hsuf & Hstem)%suffix_of_audio.
  unfold candidate. rewrite Hsuf, Hstem.
  destruct base as [|c base]; cbn [Str.nonempty].
  - destruct (audio_extension_shape e He) as (e' & -> & _).
    sapp. by intros [=].
  - intros E.
    assert (has_audio_extension "manifest.json" = true) as H; [|done].
    rewrite <- E. rewrite <- !str_app_assoc.
    by apply has_audio_extension_app.
Qed.

Section ManifestFiles.
Variable host_check : string -> option string.
Variable net : nat -> string -> response.
Variable denied : Path -> bool.

Lemma download_file_name (url : string) (dest_dir : Path) (overwrite : bool)
    (w w' : world) (dest : Path) :
  download_file host_check net denied url dest_dir overwrite w
  = (w', Ok dest) ->
  exists nm, dest = dest_dir ++ [nm] /\ nm <> "manifest.json".
Proof.
  rewrite download_file_run.
  destruct (UrlParse.urlparse host_check url "") as [parsed|e]; [|done].
  cbv zeta.
  destruct (derive_filename_spec (UrlParse.path parsed))
    as (Heq & Hext & Hslash & Hne).
  rewrite <- Heq in Hext, Hslash, Hne. clear Heq.
  set (filename := derive_filename (UrlParse.path parsed)) in *.
  destruct (choose_destination_spec (fs w) dest_dir filename overwrite
              Hslash Hne Hext) as (Hfree & Hloop & _).
  cbv zeta in Hfree, Hloop.
  assert (exists nm,
            choose_destination (fs w) dest_dir filename overwrite
            = dest_dir ++ [nm] /\ nm <> "manifest.json") as (nm & -> & Hnm).
  { destruct overwrite.
    - exists filename. split; [apply Hfree; by left|].
      intros E. by rewrite E in Hext.
    - destruct (path_exists (fs w) (dest_dir ++ [filename])) eqn:Hex.
      + destruct (Hloop eq_refl eq_refl) as (k & _ & -> & _).
        exists (candidate filename k). split; [done|].
        by apply candidate_not_manifest.
      + exists filename. split; [apply Hfree; by right|].
        intros E. by rewrite E in Hext. }
  destruct (net (reqs w) url) as [e|data stop]; [done|].
  destruct (is_dir (fs w) _); [done|].
  destruct (negb (is_dir (fs w) _)); [done|].
  destruct (denied _); [done|].
  destruct stop as [e|]; [done|].
  intros [= _ <-]. by exists nm.
Qed.

Lemma batch_names (args : Args) (links : list string) (w w' : world)
    (downloaded : list Path) :
  batch host_check net denied args links w downloaded w' ->
  Forall (fun dest => exists nm, dest = output args ++ [nm]
                                 /\ nm <> "manifest.json") downloaded.
Proof.
  induction 1 as [w|link rest w w1 w' dest l Hd Hb IH
                  |link rest w w1 w' e l Hd Hc Hb IH]; [constructor| |done].
  constructor; [|done]. by apply download_file_name in Hd.
Qed.
End ManifestFiles.

(** After a run without [--overwrite] that downloads and returns, the
    manifest and the directory agree: the directory was made, the loop has
    collected its files from there, and the files it has collected are
    pairwise distinct entries of the output directory, none of them is
    the manifest, none was there before the run, and each holds the
    complete body that the network served for one of the links; if there
    is one at least, the manifest on disk is the manifest of these
    files. *)
Theorem main_manifest_lists_files
    (host_check : string -> option string) (net : nat -> string -> response)
    (denied : Path -> bool) (args : Args) (w : world) (html : string)
    (links : list string) (code : Z) :
  let out := main host_check net denied args w in
  let mp := output args ++ ["manifest.json"] in
  overwrite args = false -> dry_run args = false ->
  whole_body (net (reqs w) (url args)) = Ok html ->
  extract_links host_check html (url args) = Ok links ->
  links <> [] ->
  snd out = Ok code ->
  exists w2 w3 downloaded,
    mkdir_parents denied (output args)
      (announced (requested w (url args)) links) = (w2, Ok tt)
    /\ download_all host_check net denied args links [] w2
       = (w3, Ok downloaded)
    /\ NoDup downloaded
    /\ (downloaded <> [] ->
        fs (fst out) !! mp
        = Some (File (manifest_text (url args) downloaded)))
    /\ forall dest, dest ∈ downloaded ->
         dest <> mp /\ parent dest = output args
         /\ fs w !! dest = None
         /\ exists link n data,
              link ∈ links /\ net n link = Stream data None
              /\ fs (fst out) !! dest = Some (File data).
Proof.
  intros out mp Ho Hdry Hf Hl Hne Hret.
  destruct (main_download_stage host_check net denied args w html links
              code Hf Hl Hne Hdry Hret)
    as (w2 & w3 & downloaded & Hmk & Hb & _ & Hsome & Hnone).
  fold out in Hsome, Hnone.
  destruct (batch_files_new host_check net denied args links w2 w3
              downloaded Ho Hb) as [Hnd Hfiles].
  pose proof (batch_names host_check net denied args links w2 w3 downloaded
                Hb) as Hnames.
  rewrite Forall_forall in Hnames.
  pose proof (batch_destinations host_check net denied args links w2 w3
                downloaded Hb) as Hshape.
  rewrite Forall_forall in Hshape.
  exists w2, w3, downloaded. split; [done|].
  split; [by apply (batch_download_all _ _ _ _ _ _ _ _ Hb [])|].
  split; [done|]. split.
  - intros Hd. rewrite (Hsome Hd). cbn [manifest_written fs].
    apply lookup_insert_eq.
  - intros dest Hin.
    destruct (Hnames dest Hin) as (nm & -> & Hnm).
    destruct (Hshape _ Hin) as (nm' & E & Hslash).
    apply app_inj_tail in E as [_ <-].
    destruct (Hfiles _ Hin) as (Hnew & link & n & data & Hlink & Hnet & Hfs).
    assert (output args ++ [nm] <> mp) as Hmp.
    { intros E. apply app_inj_tail in E as [_ E]. done. }
    split; [done|]. split; [by apply parent_snoc|].
    split.
    + destruct (fs w !! (output args ++ [nm])) as [nd|] eqn:E; [|done].
      apply (mkdir_parents_keeps denied _ _ _ _ _ _ Hmk) in E. congruence.
    + exists link, n, data. split; [done|]. split; [done|].
      destruct downloaded as [|d ds]; [by apply elem_of_nil in Hin|].
      rewrite (Hsome ltac:(done)). cbn [manifest_written fs].
      by rewrite lookup_insert_ne.
Qed.

(** One use: the page with one link. *)
Lemma main_manifest_lists_files_witness :
  overwrite args_out = false /\ dry_run args_out = false
  /\ whole_body (net_ok (reqs w_empty) (url args_out)) = Ok page_one
  /\ extract_links no_host_error page_one (url args_out)
     = Ok ["http://x.com/a.mp3"]
  /\ snd (main no_host_error net_ok deny_none args_out w_empty) = Ok 0%Z
  /\ fs (fst (main no_host_error net_ok deny_none args_out w_empty))
       !! ["out"; "manifest.json"]
     = Some (File (manifest_text "http://x.com/" [["out"; "a.mp3"]]))
  /\ exists data,
       fs (fst (main no_host_error net_ok deny_none args_out w_empty))
         !! ["out"; "a.mp3"] = Some (File data).
Proof.
  assert (whole_body (net_ok (reqs w_empty) (url args_out)) = Ok page_one)
    as Hf by reflexivity.
  assert (extract_links no_host_error page_one (url args_out)
          = Ok ["http://x.com/a.mp3"]) as Hl by (vm_compute; reflexivity).
  assert (snd (main no_host_error net_ok deny_none args_out w_empty)
          = Ok 0%Z) as Hret by (vm_compute; reflexivity).
  split; [reflexivity|]. split; [reflexivity|]. split; [exact Hf|].
  split; [exact Hl|]. split; [exact Hret|].
  destruct (main_manifest_lists_files no_host_error net_ok deny_none args_out
              w_empty page_one _ 0%Z eq_refl eq_refl Hf Hl
              ltac:(discriminate) Hret)
    as (w2 & w3 & downloaded & Hmk & Hloop & Hnd & Hman & Hfiles).
  vm_compute in Hmk. injection Hmk as <-.
  vm_compute in Hloop. injection Hloop as _ <-.
  split; [exact (Hman ltac:(discriminate))|].
  destruct (Hfiles ["out"; "a.mp3"] ltac:(constructor))
    as (_ & _ & _ & link & n & data & _ & _ & Hfs).
  exists data. exact Hfs.
Defined.

